(** * GameSense-AI: replay analysis pipeline

    Shallow embedding of [integrador.py] (the integrator that drives
    parser, analyzer and visualizer, and its command line), of
    [setup.py] (the installer and its wrapper-script generator) and of
    the checked-in wrapper scripts, followed by the decoder, the
    normalizer and the analysis engine, whose sources are not available
    and which are modelled from the written specification. *)

From Stdlib Require Import ZArith QArith Qround Lqa Lia.
From Stdlib Require Ascii String.
From Stdlib Require Strings.Byte.
From stdpp Require Import base option list sorting gmap strings pretty.

#[local] Set Warnings "-register-all".

(** ** Python values that cross the integrator *)

(** What [json.load] returns and [json.dump] accepts. A dict is a finite
    map from string keys. *)
Inductive json : Type :=
| JNull
| JBool (b : bool)
| JInt (z : Z)
| JReal (q : Q)
| JStr (s : string)
| JArr (xs : list json)
| JObj (fields : gmap string json).

(** ** [str] and [os.path] helpers (POSIX flavour) *)

Module PyStr.

(** The path separator, ["/"]. *)
Definition sep : Ascii.ascii := Stdlib.Strings.Ascii.ascii_of_nat 47.

(** [s.startswith("/")]. *)
Definition starts_with_sep (s : string) : bool :=
  match s with
  | String c _ => if Stdlib.Strings.Ascii.eqb c sep then true else false
  | EmptyString => false
  end.

(** [s.endswith("/")]. *)
Fixpoint ends_with_sep (s : string) : bool :=
  match s with
  | EmptyString => false
  | String c EmptyString => if Stdlib.Strings.Ascii.eqb c sep then true else false
  | String _ rest => ends_with_sep rest
  end.

(** [os.path.join(a, b)]: an absolute [b] replaces [a]; otherwise one
    separator is put between the two unless [a] is empty or already
    ends with one. *)
Definition path_join (a b : string) : string :=
  if starts_with_sep b then b
  else if (Stdlib.Strings.String.eqb a "" || ends_with_sep a)%bool then a +:+ b
  else a +:+ "/" +:+ b.

(** [os.path.basename(p)]: what follows the last separator. *)
Fixpoint basename (p : string) : string :=
  match p with
  | EmptyString => EmptyString
  | String c rest =>
      if Stdlib.Strings.Ascii.eqb c sep then basename rest
      else if existsb (Stdlib.Strings.Ascii.eqb sep) (Stdlib.Strings.String.list_ascii_of_string rest)
           then basename rest
           else p
  end.

(** [s.replace(old, "")] for a non-empty [old]: every non-overlapping
    occurrence, scanning from the left, is dropped. [skip] counts the
    characters of the occurrence being dropped. *)
Fixpoint remove_from (old : string) (skip : nat) (s : string) : string :=
  match s with
  | EmptyString => EmptyString
  | String c rest =>
      match skip with
      | S k => remove_from old k rest
      | O =>
          if Stdlib.Strings.String.prefix old s
          then remove_from old (Nat.pred (Stdlib.Strings.String.length old)) rest
          else String c (remove_from old 0 rest)
      end
  end.

Definition remove_all (old s : string) : string := remove_from old 0 s.

(** A Python [str] is a sequence of characters; a string here holds the
    bytes of its UTF-8 encoding, in which a character is a byte that is
    not of the form [10xxxxxx] followed by the bytes of that form that
    continue it. *)
Definition continues (c : Ascii.ascii) : bool :=
  match c with
  | Stdlib.Strings.Ascii.Ascii _ _ _ _ _ _ b6 b7 => b7 && negb b6
  end.

Definition starts_inside (s : string) : bool :=
  match s with
  | String c _ => continues c
  | EmptyString => false
  end.

(** The characters of a [str], in order, each as a [str] of length
    one. *)
Fixpoint characters (s : string) : list string :=
  match s with
  | EmptyString => []
  | String c rest =>
      match characters rest with
      | next :: others =>
          if starts_inside rest then String c next :: others
          else String c EmptyString :: next :: others
      | [] => [String c EmptyString]
      end
  end.

End PyStr.

(** ** The integrator ([integrador.py]) *)

Module Integrador.

Section WithDataFrame.

(** A pandas [DataFrame]: produced by the parser and handed on to
    [to_csv], the analyzer and the visualizer, never inspected here. *)
Variable DataFrame : Type.

(** Every call the integrator makes into another component or into the
    operating system, with the arguments it passes. *)
Inductive call : Type :=
| Print (msg : string)
| MakeDirs (path : string)
| NewAnalyzer
| NewVisualizer (output_dir : string)
| SetOutputDir (dir : string)
| NewParser (replay_path : string)
| Parse
| ExportToJson (path : string)
| GetPlayerPositions
| GetBallPositions
| ToCsv (df : DataFrame) (path : string)
| GetMetadata
| GetPlayers
| GetEvents
| LoadData (replay_data : json)
| LoadDataframes (player_df ball_df : DataFrame)
| Analyze
| GetAnalysisResults
| GetOverallScore
| GetKeyFindings
| GetRecommendations
| DumpJson (path : string) (doc : json)
| CreateHeatmap (player_df : DataFrame) (save_as : string)
| CreateBallTrajectory (ball_df : DataFrame) (save_as : string)
| CreateBoostUsageChart (player_df : DataFrame) (players : json) (save_as : string)
| CreateSpeedChart (player_df : DataFrame) (players : json) (save_as : string)
| CreateDistanceToBallChart (player_df ball_df : DataFrame) (players : json) (save_as : string)
| CreateTeamSpreadChart (player_df : DataFrame) (players : json) (save_as : string)
| CreateAnalysisRadarChart (analysis_results : json) (save_as : string)
| CreateEventTimeline (events : json) (save_as : string)
| CreateSampleReplay (dir : string)
| LoadJson (path : string).

(** How a call ended: normally, normally but with a falsy value (what
    [if not self.parser.parse()] tests), or with an exception. *)
Inductive ending : Type := Completed | ReturnedFalsy | Threw.

Definition entry : Type := call * ending.

(** The rest of the world. The parser, the analyzer, the visualizer and
    the file system are not part of this file; the integrator only sees
    what their calls answer. An answer may depend on the call and on
    how many log entries precede it. *)
Record World : Type := {
  fs_exists : string → bool;            (* os.path.exists *)
  clock : string;                       (* datetime.now().strftime('%Y%m%d%H%M%S') *)
  raises : nat → call → bool;
  truth : nat → call → bool;
  json_reply : nat → call → json;
  frame_reply : nat → call → DataFrame;
  text_reply : nat → call → string
}.

(** Programs: straight-line Python with calls into the world. *)
Inductive prog (A : Type) : Type :=
| Ret (a : A)
| Raise
| Say (msg : string) (k : prog A)
| Exec (c : call) (k : prog A)
| AskBool (c : call) (k : bool → prog A)
| AskJson (c : call) (k : json → prog A)
| AskFrame (c : call) (k : DataFrame → prog A)
| AskText (c : call) (k : string → prog A).

Arguments Ret {A} a.
Arguments Raise {A}.
Arguments Say {A} msg k.
Arguments Exec {A} c k.
Arguments AskBool {A} c k.
Arguments AskJson {A} c k.
Arguments AskFrame {A} c k.
Arguments AskText {A} c k.

Fixpoint bind {A B : Type} (m : prog A) (f : A → prog B) : prog B :=
  match m with
  | Ret a => f a
  | Raise => Raise
  | Say msg k => Say msg (bind k f)
  | Exec c k => Exec c (bind k f)
  | AskBool c k => AskBool c (λ x, bind (k x) f)
  | AskJson c k => AskJson c (λ x, bind (k x) f)
  | AskFrame c k => AskFrame c (λ x, bind (k x) f)
  | AskText c k => AskText c (λ x, bind (k x) f)
  end.

#[local] Instance prog_ret : MRet prog := λ A a, Ret a.
#[local] Instance prog_bind : MBind prog := λ A B f m, bind m f.

Definition print (msg : string) : prog unit := Say msg (Ret tt).
Definition exec (c : call) : prog unit := Exec c (Ret tt).
Definition ask_bool (c : call) : prog bool := AskBool c Ret.
Definition ask_json (c : call) : prog json := AskJson c Ret.
Definition ask_frame (c : call) : prog DataFrame := AskFrame c Ret.
Definition ask_text (c : call) : prog string := AskText c Ret.

(** What a run of a function ends in. *)
Inductive outcome (A : Type) : Type :=
| Returned (a : A)
| Raised.

Arguments Returned {A} a.
Arguments Raised {A}.

(** A log entry put in front of what the rest of a run yields. *)
Definition after {A : Type} (e : entry) (r : outcome A * list entry)
    : outcome A * list entry :=
  (r.1, e :: r.2).

(** [run w n p]: the outcome of [p] in world [w] when [n] log entries
    precede it, and the log entries [p] adds. An exception is not
    caught anywhere in [integrador.py]: it ends the run. *)
Fixpoint run {A : Type} (w : World) (n : nat) (p : prog A) : outcome A * list entry :=
  match p with
  | Ret a => (Returned a, [])
  | Raise => (Raised, [])
  | Say msg k => after (Print msg, Completed) (run w (S n) k)
  | Exec c k =>
      if raises w n c then (Raised, [(c, Threw)])
      else after (c, Completed) (run w (S n) k)
  | AskBool c k =>
      if raises w n c then (Raised, [(c, Threw)])
      else
        after (c, if truth w n c then Completed else ReturnedFalsy)
              (run w (S n) (k (truth w n c)))
  | AskJson c k =>
      if raises w n c then (Raised, [(c, Threw)])
      else after (c, Completed) (run w (S n) (k (json_reply w n c)))
  | AskFrame c k =>
      if raises w n c then (Raised, [(c, Threw)])
      else after (c, Completed) (run w (S n) (k (frame_reply w n c)))
  | AskText c k =>
      if raises w n c then (Raised, [(c, Threw)])
      else after (c, Completed) (run w (S n) (k (text_reply w n c)))
  end.

(** *** [ReplayAnalyzerIntegrator] *)

Record Integrator : Type := {
  base_dir : string;
  data_dir : string;
  uploads_dir : string;
  results_dir : string;
  visualizations_dir : string
}.

(** Python truthiness of an optional string argument. *)
Definition truthy (s : option string) : bool :=
  match s with
  | None => false
  | Some s => negb (Stdlib.Strings.String.eqb s "")
  end.

(** [__init__(self, data_dir=None)]. [base] stands for the directory two
    levels above the module file. *)
Definition init (base : string) (data_dir_arg : option string) : prog Integrator :=
  let data := if truthy data_dir_arg then default "" data_dir_arg
              else PyStr.path_join base "data" in
  let uploads := PyStr.path_join data "uploads" in
  let results := PyStr.path_join data "results" in
  let visualizations := PyStr.path_join data "visualizations" in
  exec (MakeDirs uploads);;
  exec (MakeDirs results);;
  exec (MakeDirs visualizations);;
  exec NewAnalyzer;;
  exec (NewVisualizer visualizations);;
  mret {| base_dir := base; data_dir := data; uploads_dir := uploads;
          results_dir := results; visualizations_dir := visualizations |}.

(** The dict [process_replay] returns. *)
Record Results : Type := {
  res_id : string;
  res_replay_path : string;
  res_result_dir : string;
  res_metadata : json;
  res_players : json;
  res_events : json;
  res_analysis : json;
  res_overall_score : json;
  res_findings : json;
  res_recommendations : json;
  res_visualizations : list (string * string)
}.

(** The ['visualizations'] sub-dict, in insertion order. *)
Definition visualization_paths (result_dir : string) : list (string * string) :=
  [ ("heatmap", PyStr.path_join result_dir "heatmap.png");
    ("ball_trajectory", PyStr.path_join result_dir "ball_trajectory.png");
    ("boost_usage", PyStr.path_join result_dir "boost_usage.png");
    ("speed", PyStr.path_join result_dir "speed.png");
    ("distance_to_ball", PyStr.path_join result_dir "distance_to_ball.png");
    ("team_spread", PyStr.path_join result_dir "team_spread.png");
    ("analysis_radar", PyStr.path_join result_dir "analysis_radar.png");
    ("event_timeline", PyStr.path_join result_dir "event_timeline.png") ].

(** The result id generated when none is given. *)
Definition generated_id (w : World) (replay_path : string) : string :=
  PyStr.remove_all ".replay" (PyStr.basename replay_path) +:+ "_" +:+ clock w.

Definition effective_id (w : World) (replay_path : string) (result_id : option string) : string :=
  if truthy result_id then default "" result_id else generated_id w replay_path.

(** [process_replay(self, replay_path, result_id=None)]. *)
Definition process_replay (w : World) (self : Integrator)
    (replay_path : string) (result_id : option string) : prog (option Results) :=
  if negb (fs_exists w replay_path) then
    print ("Erro: Arquivo " +:+ replay_path +:+ " não encontrado.");;
    mret None
  else
    let result_id := effective_id w replay_path result_id in
    let result_dir := PyStr.path_join (results_dir self) result_id in
    exec (MakeDirs result_dir);;
    exec (SetOutputDir result_dir);;
    (* Etapa 1: Parsing do replay *)
    print ("Analisando replay: " +:+ replay_path);;
    exec (NewParser replay_path);;
    parsed ← ask_bool Parse;
    if negb parsed then
      print "Falha ao analisar o replay.";;
      mret None
    else
      let replay_data_path := PyStr.path_join result_dir "replay_data.json" in
      exec (ExportToJson replay_data_path);;
      player_df ← ask_frame GetPlayerPositions;
      ball_df ← ask_frame GetBallPositions;
      exec (ToCsv player_df (PyStr.path_join result_dir "player_positions.csv"));;
      exec (ToCsv ball_df (PyStr.path_join result_dir "ball_positions.csv"));;
      (* Etapa 2: Análise do replay *)
      print "Realizando análise avançada...";;
      metadata ← ask_json GetMetadata;
      players ← ask_json GetPlayers;
      events ← ask_json GetEvents;
      let replay_data :=
        JObj (<["metadata" := metadata]> (<["players" := players]> (<["events" := events]> ∅))) in
      exec (LoadData replay_data);;
      exec (LoadDataframes player_df ball_df);;
      exec Analyze;;
      analysis_results ← ask_json GetAnalysisResults;
      overall_score ← ask_json GetOverallScore;
      findings ← ask_json GetKeyFindings;
      recommendations ← ask_json GetRecommendations;
      exec (DumpJson (PyStr.path_join result_dir "analysis_results.json")
              (JObj (<["analysis" := analysis_results]>
                    (<["overall_score" := overall_score]>
                    (<["findings" := findings]>
                    (<["recommendations" := recommendations]> ∅))))));;
      (* Etapa 3: Gerar visualizações *)
      print "Gerando visualizações...";;
      exec (CreateHeatmap player_df "heatmap.png");;
      exec (CreateBallTrajectory ball_df "ball_trajectory.png");;
      players1 ← ask_json GetPlayers;
      exec (CreateBoostUsageChart player_df players1 "boost_usage.png");;
      players2 ← ask_json GetPlayers;
      exec (CreateSpeedChart player_df players2 "speed.png");;
      players3 ← ask_json GetPlayers;
      exec (CreateDistanceToBallChart player_df ball_df players3 "distance_to_ball.png");;
      players4 ← ask_json GetPlayers;
      exec (CreateTeamSpreadChart player_df players4 "team_spread.png");;
      exec (CreateAnalysisRadarChart analysis_results "analysis_radar.png");;
      events1 ← ask_json GetEvents;
      exec (CreateEventTimeline events1 "event_timeline.png");;
      (* Compilar resultados *)
      metadata' ← ask_json GetMetadata;
      players' ← ask_json GetPlayers;
      events' ← ask_json GetEvents;
      let results :=
        {| res_id := result_id;
           res_replay_path := replay_path;
           res_result_dir := result_dir;
           res_metadata := metadata';
           res_players := players';
           res_events := events';
           res_analysis := analysis_results;
           res_overall_score := overall_score;
           res_findings := findings;
           res_recommendations := recommendations;
           res_visualizations := visualization_paths result_dir |} in
      print ("Processamento concluído. Resultados salvos em: " +:+ result_dir);;
      mret (Some results).

(** [create_and_process_demo_replay(self)]. *)
Definition create_and_process_demo_replay (w : World) (self : Integrator)
    : prog (option Results) :=
  sample_replay ← ask_text (CreateSampleReplay (uploads_dir self));
  process_replay w self sample_replay (Some "demo_replay").

(** The dict [get_result_summary] returns. *)
Record Summary : Type := {
  sum_id : string;
  sum_metadata : json;
  sum_players : json;
  sum_events : json;
  sum_overall_score : json;
  sum_findings : json;
  sum_recommendations : json;
  sum_visualizations : list (string * string)
}.

(** [d.get(key, default)]; on a value that is not a dict the attribute
    lookup raises. *)
Definition dict_get (d : json) (key : string) (dflt : json) : prog json :=
  match d with
  | JObj fields => mret (default dflt (fields !! key))
  | _ => Raise
  end.

(** [get_result_summary(self, result_id)]. *)
Definition get_result_summary (w : World) (self : Integrator) (result_id : string)
    : prog (option Summary) :=
  let result_dir := PyStr.path_join (results_dir self) result_id in
  if negb (fs_exists w result_dir) then
    print ("Erro: Resultados com ID " +:+ result_id +:+ " não encontrados.");;
    mret None
  else
    let analysis_path := PyStr.path_join result_dir "analysis_results.json" in
    if negb (fs_exists w analysis_path) then
      print ("Erro: Arquivo de análise não encontrado em " +:+ result_dir +:+ ".");;
      mret None
    else
      analysis_data ← ask_json (LoadJson analysis_path);
      let replay_data_path := PyStr.path_join result_dir "replay_data.json" in
      if negb (fs_exists w replay_data_path) then
        print ("Erro: Arquivo de dados do replay não encontrado em " +:+ result_dir +:+ ".");;
        mret None
      else
        replay_data ← ask_json (LoadJson replay_data_path);
        metadata ← dict_get replay_data "metadata" (JObj ∅);
        players ← dict_get replay_data "players" (JArr []);
        events ← dict_get replay_data "events" (JArr []);
        overall_score ← dict_get analysis_data "overall_score" (JObj ∅);
        findings ← dict_get analysis_data "findings" (JArr []);
        recommendations ← dict_get analysis_data "recommendations" (JObj ∅);
        mret (Some {| sum_id := result_id;
                      sum_metadata := metadata;
                      sum_players := players;
                      sum_events := events;
                      sum_overall_score := overall_score;
                      sum_findings := findings;
                      sum_recommendations := recommendations;
                      sum_visualizations := visualization_paths result_dir |}).

(** *** Reading a log *)

(** The Python name of what a call invokes. *)
Definition name_of (c : call) : string :=
  match c with
  | Print _ => "print"
  | MakeDirs _ => "os.makedirs"
  | NewAnalyzer => "RocketLeagueAnalyzer"
  | NewVisualizer _ => "RocketLeagueVisualizer"
  | SetOutputDir _ => "visualizer.set_output_dir"
  | NewParser _ => "RocketLeagueParser"
  | Parse => "parser.parse"
  | ExportToJson _ => "parser.export_to_json"
  | GetPlayerPositions => "parser.get_player_positions_dataframe"
  | GetBallPositions => "parser.get_ball_positions_dataframe"
  | ToCsv _ _ => "to_csv"
  | GetMetadata => "parser.get_metadata"
  | GetPlayers => "parser.get_players"
  | GetEvents => "parser.get_events"
  | LoadData _ => "analyzer.load_data"
  | LoadDataframes _ _ => "analyzer.load_dataframes"
  | Analyze => "analyzer.analyze"
  | GetAnalysisResults => "analyzer.analysis_results"
  | GetOverallScore => "analyzer.get_overall_score"
  | GetKeyFindings => "analyzer.get_key_findings"
  | GetRecommendations => "analyzer.get_recommendations"
  | DumpJson _ _ => "json.dump"
  | CreateHeatmap _ _ => "visualizer.create_heatmap"
  | CreateBallTrajectory _ _ => "visualizer.create_ball_trajectory"
  | CreateBoostUsageChart _ _ _ => "visualizer.create_boost_usage_chart"
  | CreateSpeedChart _ _ _ => "visualizer.create_speed_chart"
  | CreateDistanceToBallChart _ _ _ _ => "visualizer.create_distance_to_ball_chart"
  | CreateTeamSpreadChart _ _ _ => "visualizer.create_team_spread_chart"
  | CreateAnalysisRadarChart _ _ => "visualizer.create_analysis_radar_chart"
  | CreateEventTimeline _ _ => "visualizer.create_event_timeline"
  | CreateSampleReplay _ => "create_sample_replay"
  | LoadJson _ => "json.load"
  end.

Definition is_print (c : call) : bool :=
  match c with Print _ => true | _ => false end.

(** The calls of a log other than console messages, by name. *)
Definition steps_of (log : list entry) : list string :=
  map name_of (List.filter (λ c, negb (is_print c)) (map fst log)).

(** A call on the analyzer object, or the write of its results. *)
Definition is_analysis_step (c : call) : bool :=
  match c with
  | LoadData _ | LoadDataframes _ _ | Analyze | GetAnalysisResults
  | GetOverallScore | GetKeyFindings | GetRecommendations | DumpJson _ _ => true
  | _ => false
  end.

(** A call on the visualizer that draws a chart. *)
Definition is_chart_step (c : call) : bool :=
  match c with
  | CreateHeatmap _ _ | CreateBallTrajectory _ _ | CreateBoostUsageChart _ _ _
  | CreateSpeedChart _ _ _ | CreateDistanceToBallChart _ _ _ _
  | CreateTeamSpreadChart _ _ _ | CreateAnalysisRadarChart _ _
  | CreateEventTimeline _ _ => true
  | _ => false
  end.

(** The steps of [process_replay] in source order, grouped the way the
    source groups them: the preparation of the result directory, then
    the three blocks headed "Etapa 1", "Etapa 2" and "Etapa 3", then
    the reads that fill the returned dict. Each block stores what it
    produced before the next one starts. *)
Definition prepare_steps : list string :=
  [ "os.makedirs"; "visualizer.set_output_dir" ].

Definition decode_steps : list string :=
  [ "RocketLeagueParser"; "parser.parse"; "parser.export_to_json";
    "parser.get_player_positions_dataframe";
    "parser.get_ball_positions_dataframe"; "to_csv"; "to_csv" ].

Definition analysis_steps : list string :=
  [ "parser.get_metadata"; "parser.get_players"; "parser.get_events";
    "analyzer.load_data"; "analyzer.load_dataframes"; "analyzer.analyze";
    "analyzer.analysis_results"; "analyzer.get_overall_score";
    "analyzer.get_key_findings"; "analyzer.get_recommendations";
    "json.dump" ].

Definition visualization_steps : list string :=
  [ "visualizer.create_heatmap"; "visualizer.create_ball_trajectory";
    "parser.get_players"; "visualizer.create_boost_usage_chart";
    "parser.get_players"; "visualizer.create_speed_chart";
    "parser.get_players"; "visualizer.create_distance_to_ball_chart";
    "parser.get_players"; "visualizer.create_team_spread_chart";
    "visualizer.create_analysis_radar_chart";
    "parser.get_events"; "visualizer.create_event_timeline" ].

Definition closing_steps : list string :=
  [ "parser.get_metadata"; "parser.get_players"; "parser.get_events" ].

Definition pipeline : list string :=
  prepare_steps ++ decode_steps ++ analysis_steps ++ visualization_steps
    ++ closing_steps.

(** A step failed when its call threw or, for [parse], returned a
    falsy value. *)
Definition failed (e : entry) : bool :=
  match e.2 with Completed => false | _ => true end.

(** Nothing but console messages. *)
Definition only_messages (log : list entry) : bool :=
  forallb (λ e, is_print e.1) log.

(** No step follows a failed one. *)
Fixpoint stops_at_failure (log : list entry) : bool :=
  match log with
  | [] => true
  | e :: rest => if failed e then only_messages rest else stops_at_failure rest
  end.

(** *** Shapes of programs *)

(** [in_order names p]: the calls of [p] other than console messages
    carry, in program order and on every path, the names listed. *)
Inductive in_order {A : Type} : list string → prog A → Prop :=
| in_order_ret names a : in_order names (Ret a)
| in_order_raise names : in_order names Raise
| in_order_say names msg k : in_order names k → in_order names (Say msg k)
| in_order_exec names c k :
    is_print c = false → in_order names k →
    in_order (name_of c :: names) (Exec c k)
| in_order_bool names c k :
    is_print c = false → (∀ b, in_order names (k b)) →
    in_order (name_of c :: names) (AskBool c k)
| in_order_json names c k :
    is_print c = false → (∀ x, in_order names (k x)) →
    in_order (name_of c :: names) (AskJson c k)
| in_order_frame names c k :
    is_print c = false → (∀ x, in_order names (k x)) →
    in_order (name_of c :: names) (AskFrame c k)
| in_order_text names c k :
    is_print c = false → (∀ x, in_order names (k x)) →
    in_order (name_of c :: names) (AskText c k).

(** A program that only writes messages before it ends. *)
Inductive winds_up {A : Type} : prog A → Prop :=
| winds_up_ret a : winds_up (Ret a)
| winds_up_raise : winds_up Raise
| winds_up_say msg k : winds_up k → winds_up (Say msg k).

(** A program whose only truth test, when answered falsy, is followed by
    messages alone. *)
Inductive gives_up_on_falsy {A : Type} : prog A → Prop :=
| gives_up_ret a : gives_up_on_falsy (Ret a)
| gives_up_raise : gives_up_on_falsy Raise
| gives_up_say msg k : gives_up_on_falsy k → gives_up_on_falsy (Say msg k)
| gives_up_exec c k : gives_up_on_falsy k → gives_up_on_falsy (Exec c k)
| gives_up_bool c k :
    gives_up_on_falsy (k true) → winds_up (k false) →
    gives_up_on_falsy (AskBool c k)
| gives_up_json c k :
    (∀ x, gives_up_on_falsy (k x)) → gives_up_on_falsy (AskJson c k)
| gives_up_frame c k :
    (∀ x, gives_up_on_falsy (k x)) → gives_up_on_falsy (AskFrame c k)
| gives_up_text c k :
    (∀ x, gives_up_on_falsy (k x)) → gives_up_on_falsy (AskText c k).

(** A program that tests no truth value. *)
Inductive tests_nothing {A : Type} : prog A → Prop :=
| tests_nothing_ret a : tests_nothing (Ret a)
| tests_nothing_raise : tests_nothing Raise
| tests_nothing_say msg k : tests_nothing k → tests_nothing (Say msg k)
| tests_nothing_exec c k : tests_nothing k → tests_nothing (Exec c k)
| tests_nothing_json c k :
    (∀ x, tests_nothing (k x)) → tests_nothing (AskJson c k)
| tests_nothing_frame c k :
    (∀ x, tests_nothing (k x)) → tests_nothing (AskFrame c k)
| tests_nothing_text c k :
    (∀ x, tests_nothing (k x)) → tests_nothing (AskText c k).

End WithDataFrame.

Arguments Print {DataFrame}.
Arguments MakeDirs {DataFrame}.
Arguments NewAnalyzer {DataFrame}.
Arguments NewVisualizer {DataFrame}.
Arguments SetOutputDir {DataFrame}.
Arguments NewParser {DataFrame}.
Arguments Parse {DataFrame}.
Arguments ExportToJson {DataFrame}.
Arguments GetPlayerPositions {DataFrame}.
Arguments GetBallPositions {DataFrame}.
Arguments ToCsv {DataFrame}.
Arguments GetMetadata {DataFrame}.
Arguments GetPlayers {DataFrame}.
Arguments GetEvents {DataFrame}.
Arguments LoadData {DataFrame}.
Arguments LoadDataframes {DataFrame}.
Arguments Analyze {DataFrame}.
Arguments GetAnalysisResults {DataFrame}.
Arguments GetOverallScore {DataFrame}.
Arguments GetKeyFindings {DataFrame}.
Arguments GetRecommendations {DataFrame}.
Arguments DumpJson {DataFrame}.
Arguments CreateHeatmap {DataFrame}.
Arguments CreateBallTrajectory {DataFrame}.
Arguments CreateBoostUsageChart {DataFrame}.
Arguments CreateSpeedChart {DataFrame}.
Arguments CreateDistanceToBallChart {DataFrame}.
Arguments CreateTeamSpreadChart {DataFrame}.
Arguments CreateAnalysisRadarChart {DataFrame}.
Arguments CreateEventTimeline {DataFrame}.
Arguments CreateSampleReplay {DataFrame}.
Arguments LoadJson {DataFrame}.
Arguments fs_exists {DataFrame}.
Arguments clock {DataFrame}.
Arguments raises {DataFrame}.
Arguments truth {DataFrame}.
Arguments json_reply {DataFrame}.
Arguments frame_reply {DataFrame}.
Arguments text_reply {DataFrame}.
Arguments Ret {DataFrame A}.
Arguments Raise {DataFrame A}.
Arguments Say {DataFrame A}.
Arguments Exec {DataFrame A}.
Arguments AskBool {DataFrame A}.
Arguments AskJson {DataFrame A}.
Arguments AskFrame {DataFrame A}.
Arguments AskText {DataFrame A}.
Arguments Returned {A}.
Arguments Raised {A}.
Arguments after {DataFrame A}.
Arguments run {DataFrame A}.
Arguments bind {DataFrame A B}.
Arguments print {DataFrame}.
Arguments exec {DataFrame}.
Arguments ask_bool {DataFrame}.
Arguments ask_json {DataFrame}.
Arguments ask_frame {DataFrame}.
Arguments ask_text {DataFrame}.
Arguments dict_get {DataFrame}.
Arguments init {DataFrame}.
Arguments process_replay {DataFrame}.
Arguments create_and_process_demo_replay {DataFrame}.
Arguments get_result_summary {DataFrame}.
Arguments effective_id {DataFrame}.
Arguments generated_id {DataFrame}.
Arguments name_of {DataFrame}.
Arguments is_print {DataFrame}.
Arguments steps_of {DataFrame}.
Arguments is_analysis_step {DataFrame}.
Arguments is_chart_step {DataFrame}.
Arguments failed {DataFrame}.
Arguments only_messages {DataFrame}.
Arguments stops_at_failure {DataFrame}.
Arguments in_order {DataFrame A}.
Arguments winds_up {DataFrame A}.
Arguments gives_up_on_falsy {DataFrame A}.
Arguments tests_nothing {DataFrame A}.
Arguments prog_bind {DataFrame}.
Arguments prog_ret {DataFrame}.

(** A world for examples: no data frames of interest, every file is
    there, no call throws, and [parse] answers [parses]. *)
Definition quiet_world (parses : bool) : World unit :=
  {| fs_exists := λ _, true;
     clock := "20250101120000";
     raises := λ _ _, false;
     truth := λ _ _, parses;
     json_reply := λ _ _, JNull;
     frame_reply := λ _ _, tt;
     text_reply := λ _ _, "" |}.

(** A world in which no path exists. *)
Definition empty_disk : World unit :=
  {| fs_exists := λ _, false;
     clock := "20250101120000";
     raises := λ _ _, false;
     truth := λ _ _, true;
     json_reply := λ _ _, JNull;
     frame_reply := λ _ _, tt;
     text_reply := λ _ _, "" |}.


Definition stored_replay : gmap string json :=
  <["metadata" := JObj {[ "map_name" := JStr "DFH Stadium" ]}]>
    {[ "players" := JArr [JStr "Blue1"; JStr "Orange1"] ]}.


Definition demo_integrator : Integrator :=
  {| base_dir := "/app"; data_dir := "/app/data";
     uploads_dir := "/app/data/uploads";
     results_dir := "/app/data/results";
     visualizations_dir := "/app/data/visualizations" |}.

End Integrador.

(** ** The wrapper-script generator ([setup.py]) and the checked-in scripts *)

Module Setup.

(** The line feed and the double quote. *)
Definition nl : string :=
  String (Stdlib.Strings.Ascii.ascii_of_nat 10) EmptyString.

Definition dq : string :=
  String (Stdlib.Strings.Ascii.ascii_of_nat 34) EmptyString.

(** A text given line by line: every line is followed by a line feed. *)
Definition unlines (ls : list string) : string :=
  foldr (λ l rest, l +:+ nl +:+ rest) "" ls.

(** The text [create_wrapper_scripts] writes to [analisar_replay.py], line by line. *)
Definition analisar_replay_written : list string :=
  [ "#!/usr/bin/env python3";
    "import os";
    "import sys";
    "import argparse";
    "";
    "def main():";
    "    parser = argparse.ArgumentParser(description='Analisador de Replays')";
    "    parser.add_argument('--arquivo', required=True, help='Caminho para o arquivo de replay')";
    "    parser.add_argument('--jogo', default='rocket_league', choices=['rocket_league', 'rainbow_six'], ";
    "                        help='Tipo de jogo (rocket_league ou rainbow_six)')";
    "    parser.add_argument('--saida', default='data/results', help='Diretório para salvar resultados')";
    "    args = parser.parse_args()";
    "    ";
    "    # Ativar ambiente virtual";
    "    if sys.platform == 'win32':";
    "        activate_script = os.path.join('venv', 'Scripts', 'activate')";
    "        os.system(f'call {activate_script} && python integrador.py --replay {args.arquivo} --game {args.jogo} --output {args.saida}')";
    "    else:";
    "        activate_script = os.path.join('venv', 'bin', 'activate')";
    "        os.system(f'source {activate_script} && python integrador.py --replay {args.arquivo} --game {args.jogo} --output {args.saida}')";
    "";
    "if __name__ == '__main__':";
    "    main()" ].

(** The text [create_wrapper_scripts] writes to [analisar_video.py], line by line. *)
Definition analisar_video_written : list string :=
  [ "#!/usr/bin/env python3";
    "import os";
    "import sys";
    "import argparse";
    "";
    "def main():";
    "    parser = argparse.ArgumentParser(description='Analisador de Vídeos')";
    "    parser.add_argument('--arquivo', required=True, help='Caminho para o arquivo de vídeo')";
    "    parser.add_argument('--jogo', default='rocket_league', choices=['rocket_league', 'rainbow_six'], ";
    "                        help='Tipo de jogo (rocket_league ou rainbow_six)')";
    "    parser.add_argument('--saida', default='data/results', help='Diretório para salvar resultados')";
    "    args = parser.parse_args()";
    "    ";
    "    # Ativar ambiente virtual";
    "    if sys.platform == 'win32':";
    "        activate_script = os.path.join('venv', 'Scripts', 'activate')";
    "        os.system(f'call {activate_script} && python video_analysis/gameplay_video_processor.py --video {args.arquivo} --game {args.jogo} --output {args.saida}')";
    "    else:";
    "        activate_script = os.path.join('venv', 'bin', 'activate')";
    "        os.system(f'source {activate_script} && python video_analysis/gameplay_video_processor.py --video {args.arquivo} --game {args.jogo} --output {args.saida}')";
    "";
    "if __name__ == '__main__':";
    "    main()" ].

(** The text [create_wrapper_scripts] writes to [iniciar_interface.py], line by line. *)
Definition iniciar_interface_written : list string :=
  [ "#!/usr/bin/env python3";
    "import os";
    "import sys";
    "";
    "def main():";
    "    # Ativar ambiente virtual";
    "    if sys.platform == 'win32':";
    "        activate_script = os.path.join('venv', 'Scripts', 'activate')";
    "        os.system(f'call {activate_script} && python interface/app.py')";
    "    else:";
    "        activate_script = os.path.join('venv', 'bin', 'activate')";
    "        os.system(f'source {activate_script} && python interface/app.py')";
    "";
    "if __name__ == '__main__':";
    "    main()" ].

(** The checked-in [analisar_replay.py], line by line. *)
Definition analisar_replay_shipped : list string :=
  [ "#!/usr/bin/env python3";
    "import os";
    "import sys";
    "import argparse";
    "";
    "def main():";
    "    parser = argparse.ArgumentParser(description='Analisador de Replays')";
    "    parser.add_argument('--arquivo', required=True, help='Caminho para o arquivo de replay')";
    "    parser.add_argument('--jogo', default='rocket_league', choices=['rocket_league', 'rainbow_six'], ";
    "                        help='Tipo de jogo (rocket_league ou rainbow_six)')";
    "    parser.add_argument('--saida', default='data/results', help='Diretório para salvar resultados')";
    "    args = parser.parse_args()";
    "    ";
    "    # Ativar ambiente virtual";
    "    if sys.platform == 'win32':";
    "        activate_script = os.path.join('venv', 'Scripts', 'activate')";
    "        os.system(f'call {activate_script} && python integrador.py --replay {args.arquivo} --game {args.jogo} --output {args.saida}')";
    "    else:";
    "        activate_script = os.path.join('venv', 'bin', 'activate')";
    "        os.system(f'source {activate_script} && python integrador.py --replay {args.arquivo} --game {args.jogo} --output {args.saida}')";
    "";
    "if __name__ == '__main__':";
    "    main()";
    "" ].

(** The checked-in [analisar_video.py], line by line. *)
Definition analisar_video_shipped : list string :=
  [ "#!/usr/bin/env python3";
    "# -*- coding: utf-8 -*-";
    "import os";
    "import sys";
    "import argparse";
    "";
    "def main():";
    "    parser = argparse.ArgumentParser(description='Analisador de Vídeos')";
    "    parser.add_argument('--arquivo', required=True, help='Caminho para o arquivo de vídeo')";
    "    parser.add_argument('--jogo', default='rocket_league', choices=['rocket_league', 'rainbow_six'], ";
    "                        help='Tipo de jogo (rocket_league ou rainbow_six)')";
    "    parser.add_argument('--saida', default='data/results', help='Diretório para salvar resultados')";
    "    args = parser.parse_args()";
    "    ";
    ("    print(f" +:+ dq +:+ "Iniciando análise do vídeo: {args.arquivo}" +:+ dq +:+ ")");
    ("    print(f" +:+ dq +:+ "Tipo de jogo: {args.jogo}" +:+ dq +:+ ")");
    ("    print(f" +:+ dq +:+ "Diretório de saída dos resultados: {args.saida}" +:+ dq +:+ ")");
    "";
    "    # Identifica o executável do Python no ambiente virtual";
    "    if sys.platform == 'win32':";
    "        python_exec = os.path.join('venv', 'Scripts', 'python.exe')";
    "    else:";
    "        python_exec = os.path.join('venv', 'bin', 'python')";
    "";
    "    if not os.path.isfile(python_exec):";
    ("        print(f" +:+ dq +:+ "Erro: Não foi encontrado o Python do ambiente virtual em: {python_exec}" +:+ dq +:+ ")");
    ("        print(" +:+ dq +:+ "Certifique-se de que o ambiente virtual foi criado (venv) e instalado corretamente." +:+ dq +:+ ")");
    "        sys.exit(1)";
    "";
    ("    cmd = f'" +:+ dq +:+ "{python_exec}" +:+ dq +:+ " video_analysis/gameplay_video_processor.py --video " +:+ dq +:+ "{args.arquivo}" +:+ dq +:+ " --game " +:+ dq +:+ "{args.jogo}" +:+ dq +:+ " --output " +:+ dq +:+ "{args.saida}" +:+ dq +:+ "'");
    ("    print(f" +:+ dq +:+ "Executando comando: {cmd}" +:+ dq +:+ ")");
    "    exit_code = os.system(cmd)";
    "    ";
    "    if exit_code == 0:";
    ("        print(" +:+ dq +:+ "Processamento concluído com sucesso!" +:+ dq +:+ ")");
    "    else:";
    ("        print(f" +:+ dq +:+ "Ocorreu um erro ao processar o vídeo. Código de saída: {exit_code}" +:+ dq +:+ ")");
    "";
    "if __name__ == '__main__':";
    "    main()" ].

(** The checked-in [iniciar_interface.py], line by line. *)
Definition iniciar_interface_shipped : list string :=
  [ "#!/usr/bin/env python3";
    "import os";
    "import sys";
    "";
    "def main():";
    "    # Ativar ambiente virtual";
    "    if sys.platform == 'win32':";
    "        activate_script = os.path.join('venv', 'Scripts', 'activate')";
    "        os.system(f'call {activate_script} && python interface/app.py')";
    "    else:";
    "        activate_script = os.path.join('venv', 'bin', 'activate')";
    "        os.system(f'source {activate_script} && python interface/app.py')";
    "";
    "if __name__ == '__main__':";
    "    main()";
    "" ].

(** What [create_wrapper_scripts] does to the outside. *)
Inductive action : Type :=
| Echo (msg : string)
| WriteFile (name content : string)
| Chmod (name : string) (mode : N).

(** [print_header(message)]: one [print] of a blank line and a rule, one
    of the message, one of the rule. *)
Definition rule : string :=
  "============================================================".

Definition print_header (message : string) : list action :=
  [ Echo (nl +:+ rule); Echo (" " +:+ message); Echo rule ].

(** The mode [0o755]. *)
Definition mode_755 : N := (7 * 64 + 5 * 8 + 5)%N.

(** [create_wrapper_scripts()]; [system] is [platform.system()]. The
    function opens each file with mode ["w"], which replaces what the
    file held, and returns [True]. *)
Definition create_wrapper_scripts (system : string) : list action * bool :=
  (print_header "Criando scripts de execução"
   ++ [ WriteFile "analisar_replay.py" (unlines analisar_replay_written);
        WriteFile "analisar_video.py" (unlines analisar_video_written);
        WriteFile "iniciar_interface.py" (unlines iniciar_interface_written) ]
   ++ (if Stdlib.Strings.String.eqb system "Windows" then []
       else [ Chmod "analisar_replay.py" mode_755;
              Chmod "analisar_video.py" mode_755;
              Chmod "iniciar_interface.py" mode_755 ])
   ++ [ Echo "[OK] Scripts de execução criados." ],
   true).

(** The content a run leaves in file [name]: that of the last write. *)
Fixpoint content_after (name : string) (todo : list action) (held : option string)
    : option string :=
  match todo with
  | [] => held
  | WriteFile name' content :: rest =>
      content_after name rest
        (if Stdlib.Strings.String.eqb name name' then Some content else held)
  | _ :: rest => content_after name rest held
  end.

Definition written (system name : string) : option string :=
  content_after name (create_wrapper_scripts system).1 None.

(** The three scripts as they are checked in. *)
Definition shipped (name : string) : option string :=
  if Stdlib.Strings.String.eqb name "analisar_replay.py"
  then Some (unlines analisar_replay_shipped)
  else if Stdlib.Strings.String.eqb name "analisar_video.py"
  then Some (unlines analisar_video_shipped)
  else if Stdlib.Strings.String.eqb name "iniciar_interface.py"
  then Some (unlines iniciar_interface_shipped)
  else None.

End Setup.

(** ** The integrator, continued: what a run wrote, and [main] *)

Module IntegradorCli.
Import Integrador.

#[local] Existing Instance prog_ret.
#[local] Existing Instance prog_bind.

(** *** Reading what a run wrote *)

(** [c in s], for a character [c]. *)
Definition occurs (c : Ascii.ascii) (s : string) : bool :=
  existsb (Stdlib.Strings.Ascii.eqb c) (Stdlib.Strings.String.list_ascii_of_string s).

(** The full stop, ["."]. *)
Definition dot : Ascii.ascii := Stdlib.Strings.Ascii.ascii_of_nat 46.

(** The files [process_replay] writes, or has the parser write, into the
    result directory. *)
Definition output_files : list string :=
  [ "replay_data.json"; "player_positions.csv"; "ball_positions.csv";
    "analysis_results.json" ].

(** The charts it asks the visualizer for, by the name given in [save_as]. *)
Definition chart_files : list string :=
  [ "heatmap.png"; "ball_trajectory.png"; "boost_usage.png"; "speed.png";
    "distance_to_ball.png"; "team_spread.png"; "analysis_radar.png";
    "event_timeline.png" ].

(** A value [len] is defined on. *)
Definition sized (v : json) : bool :=
  match v with
  | JArr _ | JObj _ | JStr _ => true
  | _ => false
  end.

(** A value [v[:5]] is defined on. *)
Definition sliceable (v : json) : bool :=
  match v with
  | JArr _ | JStr _ => true
  | _ => false
  end.

(** [isinstance(v, dict)]. *)
Definition is_object (v : json) : bool :=
  match v with
  | JObj _ => true
  | _ => false
  end.

Section WithDataFrame.
Context {DataFrame : Type}.

(** The path a call writes a file to, for the calls that take one. *)
Definition written_path (c : call DataFrame) : option string :=
  match c with
  | ExportToJson path | ToCsv _ path | DumpJson path _ => Some path
  | _ => None
  end.

(** The [save_as] name of a chart call. *)
Definition saved_as (c : call DataFrame) : option string :=
  match c with
  | CreateHeatmap _ name | CreateBallTrajectory _ name
  | CreateBoostUsageChart _ _ name | CreateSpeedChart _ _ name
  | CreateDistanceToBallChart _ _ _ name | CreateTeamSpreadChart _ _ name
  | CreateAnalysisRadarChart _ name | CreateEventTimeline _ name => Some name
  | _ => None
  end.

(** The documents a log shows as written to [path] with [json.dump]. *)
Definition dumped_to (path : string) (log : list (entry DataFrame)) : list json :=
  omap (λ e, match e.1 with
             | DumpJson p doc =>
                 if Stdlib.Strings.String.eqb p path then Some doc else None
             | _ => None
             end) log.

(** Where a call puts what it writes: a path handed to
    [export_to_json], [to_csv] or [json.dump] is one of [output_files]
    in [result_dir], a chart has one of the names of [chart_files]. *)
Definition placed (result_dir : string) (c : call DataFrame) : Prop :=
  (∀ path, written_path c = Some path →
     path ∈ map (PyStr.path_join result_dir) output_files)
  ∧ (∀ name, saved_as c = Some name → name ∈ chart_files).

(** A call that reads one of the two files of [result_dir], or writes a
    console message. *)
Definition reads_from (result_dir : string) (c : call DataFrame) : Prop :=
  match c with
  | Print _ => True
  | LoadJson path =>
      path = PyStr.path_join result_dir "analysis_results.json"
      ∨ path = PyStr.path_join result_dir "replay_data.json"
  | _ => False
  end.

(** [every_call P p]: every call of [p], on every path, satisfies [P]. *)
Inductive every_call {A : Type} (P : call DataFrame → Prop) : prog DataFrame A → Prop :=
| every_call_ret a : every_call P (Ret a)
| every_call_raise : every_call P Raise
| every_call_say msg k : P (Print msg) → every_call P k → every_call P (Say msg k)
| every_call_exec c k : P c → every_call P k → every_call P (Exec c k)
| every_call_bool c k : P c → (∀ b, every_call P (k b)) → every_call P (AskBool c k)
| every_call_json c k : P c → (∀ x, every_call P (k x)) → every_call P (AskJson c k)
| every_call_frame c k : P c → (∀ x, every_call P (k x)) → every_call P (AskFrame c k)
| every_call_text c k : P c → (∀ x, every_call P (k x)) → every_call P (AskText c k).

(** The same world in which no call throws. *)
Definition unthrowing (w : World DataFrame) : World DataFrame :=
  {| fs_exists := fs_exists w;
     clock := clock w;
     raises := λ _ _, false;
     truth := truth w;
     json_reply := json_reply w;
     frame_reply := frame_reply w;
     text_reply := text_reply w |}.

(** *** [main] *)

(** What [parser.parse_args()] returns. *)
Record Args : Type := {
  arg_replay : option string;      (* --replay *)
  arg_demo : bool;                 (* --demo, store_true *)
  arg_result_id : option string;   (* --result-id *)
  arg_data_dir : option string     (* --data-dir *)
}.

(** The option strings of [main]'s parser: the two [argparse] adds by
    itself and the four declared with [add_argument]. *)
Definition option_strings : list string :=
  [ "-h"; "--help"; "--replay"; "--demo"; "--result-id"; "--data-dir" ].

Section WithPython.

(** Python's text for a float, a list or a dict, not computed here. *)
Variable repr : json → string.

(** The items of a dict in its iteration order, the order of insertion,
    which the finite map does not record. *)
Variable items : gmap string json → list (string * json).

(** What [parser.print_help()] writes. *)
Variable help_text : string.

(** [f"{v}"]. *)
Definition format (v : json) : string :=
  match v with
  | JStr s => s
  | JInt z => pretty z
  | JBool true => "True"
  | JBool false => "False"
  | JNull => "None"
  | _ => repr v
  end.

(** A Python operation that raises where it is not defined. *)
Definition defined {A : Type} (o : option A) : prog DataFrame A :=
  match o with
  | Some a => mret a
  | None => Raise
  end.

(** [len(v)]: defined on lists, dicts and strings. *)
Definition len (v : json) : option nat :=
  match v with
  | JArr xs => Some (length xs)
  | JObj fields => Some (size fields)
  | JStr s => Some (length (PyStr.characters s))
  | _ => None
  end.

(** [v[key]] for a string [key]: defined on a dict that has the key. *)
Definition subscript (v : json) (key : string) : option json :=
  match v with
  | JObj fields => fields !! key
  | _ => None
  end.

(** [v.items()]: defined on dicts. *)
Definition dict_items (v : json) : option (list (string * json)) :=
  match v with
  | JObj fields => Some (items fields)
  | _ => None
  end.

(** [v[:5]], as the sequence the [for] loop walks: the first five
    elements of a list, the first five characters of a string. *)
Definition first_five (v : json) : option (list json) :=
  match v with
  | JArr xs => Some (take 5 xs)
  | JStr s => Some (JStr <$> take 5 (PyStr.characters s))
  | _ => None
  end.

(** [for x in xs: body]. *)
Fixpoint for_each {X : Type} (xs : list X) (body : X → prog DataFrame unit)
    : prog DataFrame unit :=
  match xs with
  | [] => mret tt
  | x :: rest => body x;; for_each rest body
  end.

(** The block under [if results:]. *)
Definition report (results : Results) : prog DataFrame unit :=
  print (Setup.nl +:+ "Resumo dos Resultados:");;
  print ("ID: " +:+ res_id results);;
  map_name ← dict_get (res_metadata results) "map_name" (JStr "Desconhecido");
  print ("Mapa: " +:+ format map_name);;
  match_type ← dict_get (res_metadata results) "match_type" (JStr "Desconhecido");
  print ("Tipo de Partida: " +:+ format match_type);;
  duration ← dict_get (res_metadata results) "duration" (JInt 0);
  print ("Duração: " +:+ format duration +:+ " segundos");;
  players ← defined (len (res_players results));
  print ("Jogadores: " +:+ pretty players);;
  events ← defined (len (res_events results));
  print ("Eventos: " +:+ pretty events);;
  overall ← defined (subscript (res_overall_score results) "overall_score");
  print ("Pontuação Geral: " +:+ format overall +:+ "/100");;
  print (Setup.nl +:+ "Pontuações por Categoria:");;
  category_scores ← defined (subscript (res_overall_score results) "category_scores");
  scores ← defined (dict_items category_scores);
  for_each scores (λ '(category, score),
    print ("  " +:+ category +:+ ": " +:+ format score +:+ "/100"));;
  print (Setup.nl +:+ "Principais Insights:");;
  findings ← defined (first_five (res_findings results));
  for_each findings (λ finding, print ("- " +:+ format finding));;
  print (Setup.nl +:+ "Visualizações geradas:");;
  for_each (res_visualizations results) (λ '(name, path),
    print ("- " +:+ name +:+ ": " +:+ path)).

(** [if results:] and the block under it. The dict [process_replay]
    returns is never empty, so it is falsy only when it is [None]. *)
Definition report_if (results : option Results) : prog DataFrame unit :=
  match results with
  | Some results => report results
  | None => mret tt
  end.

(** [main()], from the parsed arguments on. [base] is the directory two
    levels above the module file. *)
Definition main (w : World DataFrame) (base : string) (args : Args)
    : prog DataFrame unit :=
  integrator ← init base (arg_data_dir args);
  if arg_demo args then
    results ← create_and_process_demo_replay w integrator;
    report_if results
  else if truthy (arg_replay args) then
    results ← process_replay w integrator (default "" (arg_replay args)) (arg_result_id args);
    report_if results
  else
    print help_text.

End WithPython.
End WithDataFrame.

(** *** A run to try the integrator on *)

(** What the analyzer of the example answers. *)
Definition example_scores : json :=
  JObj (<["overall_score" := JInt 72]>
          {[ "category_scores" := JObj {[ "positioning" := JInt 80 ]} ]}).

Definition example_findings : json :=
  JArr [ JStr "Boost baixo"; JStr "Boa rotação"; JStr "Defesa lenta";
         JStr "Chutes fracos"; JStr "Bom posicionamento"; JStr "Poucos passes" ].

(** The document the example run leaves in [analysis_results.json]. *)
Definition example_analysis : json :=
  JObj (<["analysis" := JObj ∅]>
       (<["overall_score" := example_scores]>
       (<["findings" := example_findings]>
       (<["recommendations" := JObj ∅]> ∅)))).

(** A world in which every path exists, no call throws, the replay
    parses, parser and analyzer answer as below and the two result
    files hold what a run left. *)
Definition analyzed_world : World unit :=
  {| fs_exists := λ _, true;
     clock := "20250101120000";
     raises := λ _ _, false;
     truth := λ _ _, true;
     json_reply := λ _ c,
       match c with
       | GetMetadata => JObj {[ "map_name" := JStr "DFH Stadium" ]}
       | GetPlayers => JArr [JStr "Blue1"; JStr "Orange1"]
       | GetEvents => JArr []
       | GetAnalysisResults => JObj ∅
       | GetOverallScore => example_scores
       | GetKeyFindings => example_findings
       | GetRecommendations => JObj ∅
       | LoadJson path =>
           if Stdlib.Strings.String.eqb path
                "/app/data/results/match1/analysis_results.json"
           then example_analysis else JObj stored_replay
       | _ => JNull
       end;
     frame_reply := λ _ _, tt;
     text_reply := λ _ _, "/app/data/uploads/sample.replay" |}.

(** The dict the example run returns. *)
Definition example_results : Results :=
  {| res_id := "match1";
     res_replay_path := "up/match.replay";
     res_result_dir := "/app/data/results/match1";
     res_metadata := JObj {[ "map_name" := JStr "DFH Stadium" ]};
     res_players := JArr [JStr "Blue1"; JStr "Orange1"];
     res_events := JArr [];
     res_analysis := JObj ∅;
     res_overall_score := example_scores;
     res_findings := example_findings;
     res_recommendations := JObj ∅;
     res_visualizations := visualization_paths "/app/data/results/match1" |}.

(** Arguments for [main]: a replay that is not there. *)
Definition example_args : Args :=
  {| arg_replay := Some "match.replay"; arg_demo := false;
     arg_result_id := None; arg_data_dir := Some "/app/data" |}.

End IntegradorCli.

(** ** The installer ([setup.py]) *)

Module Installer.
Import Setup.

(** The exceptions the script tells apart: the two it catches, and any
    other. *)
Inductive exception : Type := CalledProcessError | FileNotFoundError | OtherError.

Definition exception_eqb (a b : exception) : bool :=
  match a, b with
  | CalledProcessError, CalledProcessError
  | FileNotFoundError, FileNotFoundError
  | OtherError, OtherError => true
  | _, _ => false
  end.

(** How [subprocess.run] comes back: the child exited with a return
    code, the program was not found, or the call failed otherwise. *)
Inductive completion : Type :=
| Exited (returncode : Z)
| NotFound
| Failed.

(** What the script does to its surroundings. *)
Inductive effect : Type :=
| Act (a : action)              (* print, write a file, chmod *)
| PathExists (path : string)    (* os.path.exists *)
| MakeDirs (path : string)      (* os.makedirs(path, exist_ok=True) *)
| Run (argv : list string).     (* subprocess.run *)

(** The machine the script runs on. No effect is carried out twice in a
    run of the script, so an answer depends on the effect alone. *)
Record Host : Type := {
  version_info : Z * Z;                        (* sys.version_info[:2] *)
  executable : string;                         (* sys.executable *)
  system : string;                             (* platform.system() *)
  path_exists : string → bool;                 (* os.path.exists *)
  subprocess_run : list string → completion;   (* subprocess.run *)
  refused : effect → bool                      (* makedirs, open, chmod raising *)
}.

Inductive outcome (A : Type) : Type :=
| Returned (a : A)
| Raised (e : exception).

Arguments Returned {A} a.
Arguments Raised {A} e.

(** A piece of the script: how it ends and the effects it had, in order. *)
Record M (A : Type) : Type := Ran {
  result : outcome A;
  trace : list effect
}.

Arguments Ran {A} result trace.
Arguments result {A} m.
Arguments trace {A} m.

#[local] Instance M_ret : MRet M := λ A a, Ran (Returned a) [].

#[local] Instance M_bind : MBind M := λ A B f m,
  match result m with
  | Returned a => Ran (result (f a)) (trace m ++ trace (f a))
  | Raised e => Ran (Raised e) (trace m)
  end.

(** [try: body / except caught: handler]. *)
Definition try_except {A : Type} (body : M A) (caught : exception) (handler : M A)
    : M A :=
  match result body with
  | Raised e =>
      if exception_eqb e caught
      then Ran (result handler) (trace body ++ trace handler)
      else body
  | Returned _ => body
  end.

(** The packages [install_dependencies] installs, in its order. *)
Definition requirements : list string :=
  [ "pandas"; "numpy"; "matplotlib"; "seaborn"; "flask"; "opencv-python";
    "requests"; "tqdm" ].

(** The directories [create_directories] makes, in its order. *)
Definition directories : list string :=
  [ "data/uploads"; "data/results"; "data/temp" ].

(** [major < 3 or (major == 3 and minor < 8)]. *)
Definition too_old (version : Z * Z) : bool :=
  ((version.1 <? 3)%Z || ((version.1 =? 3)%Z && (version.2 <? 8)%Z))%bool.

Section OnHost.
Variable host : Host.

Definition echo (msg : string) : M unit := Ran (Returned tt) [Act (Echo msg)].

(** One action of the generator: a message always gets out, a write or
    a chmod may be refused. *)
Definition perform (a : action) : M unit :=
  match a with
  | Echo _ => Ran (Returned tt) [Act a]
  | _ => Ran (if refused host (Act a) then Raised OtherError else Returned tt) [Act a]
  end.

(** Whether the host lets an action through. *)
Definition permitted (a : action) : bool :=
  match a with
  | Echo _ => true
  | _ => negb (refused host (Act a))
  end.

Fixpoint perform_all (todo : list action) : M unit :=
  match todo with
  | [] => mret tt
  | a :: rest => perform a;; perform_all rest
  end.

Definition header (message : string) : M unit := perform_all (print_header message).

Definition exists_path (path : string) : M bool :=
  Ran (Returned (path_exists host path)) [PathExists path].

Definition makedirs (path : string) : M unit :=
  Ran (if refused host (MakeDirs path) then Raised OtherError else Returned tt)
      [MakeDirs path].

(** [subprocess.run(argv, check=True)]. *)
Definition run_checked (argv : list string) : M unit :=
  Ran (match subprocess_run host argv with
       | Exited code => if (code =? 0)%Z then Returned tt else Raised CalledProcessError
       | NotFound => Raised FileNotFoundError
       | Failed => Raised OtherError
       end) [Run argv].

(** [subprocess.run(argv, stdout=PIPE, stderr=PIPE, text=True).returncode]. *)
Definition run_captured (argv : list string) : M Z :=
  Ran (match subprocess_run host argv with
       | Exited code => Returned code
       | NotFound => Raised FileNotFoundError
       | Failed => Raised OtherError
       end) [Run argv].

(** [check_python_version()]. *)
Definition check_python_version : M bool :=
  header "Verificando versão do Python";;
  let major := (version_info host).1 in
  let minor := (version_info host).2 in
  if too_old (version_info host) then
    echo ("[ERRO] Python 3.8 ou superior é necessário. Versão atual: "
            +:+ pretty major +:+ "." +:+ pretty minor);;
    echo "Por favor, instale uma versão mais recente do Python.";;
    mret false
  else
    echo ("[OK] Versão do Python: " +:+ pretty major +:+ "." +:+ pretty minor);;
    mret true.

(** The command that creates the virtual environment. *)
Definition venv_command : list string := [executable host; "-m"; "venv"; "venv"].

(** [create_virtual_environment()]. *)
Definition create_virtual_environment : M bool :=
  header "Configurando ambiente virtual";;
  found ← exists_path "venv";
  if (found : bool) then
    echo "[INFO] Ambiente virtual já existe.";;
    mret true
  else
    try_except
      (run_checked venv_command;;
       echo "[OK] Ambiente virtual criado com sucesso.";;
       mret true)
      CalledProcessError
      (echo "[ERRO] Falha ao criar ambiente virtual.";;
       mret false).

(** [os.path.join("venv", "Scripts", "pip")] on Windows,
    [os.path.join("venv", "bin", "pip")] elsewhere. *)
Definition pip_path : string :=
  if Stdlib.Strings.String.eqb (system host) "Windows" then "venv\Scripts\pip"
  else "venv/bin/pip".

Definition upgrade_command : list string := [pip_path; "install"; "--upgrade"; "pip"].

Definition install_command (package : string) : list string :=
  [pip_path; "install"; package].

(** How a command run with [check=True] ends: with [True] for the
    return code zero, with [False] for [CalledProcessError] caught. *)
Definition checked (c : completion) : outcome bool :=
  match c with
  | Exited code => Returned (code =? 0)%Z
  | NotFound => Raised FileNotFoundError
  | Failed => Raised OtherError
  end.

(** The body of the loop [for package in requirements]: an installation
    that fails with [CalledProcessError] makes the function return
    [False], which is told here by [false]. *)
Definition install_one (package : string) : M bool :=
  try_except
    (echo ("Instalando " +:+ package +:+ "...");;
     run_checked (install_command package);;
     echo ("[OK] " +:+ package +:+ " instalado.");;
     mret true)
    CalledProcessError
    (echo ("[ERRO] Falha ao instalar " +:+ package +:+ ".");;
     mret false).

(** The loop, and what follows it. *)
Fixpoint install_each (packages : list string) : M bool :=
  match packages with
  | [] =>
      echo "[OK] Todas as dependências foram instaladas.";;
      mret true
  | package :: rest =>
      installed ← install_one package;
      if (installed : bool) then install_each rest else mret false
  end.

(** [install_dependencies()]. *)
Definition install_dependencies : M bool :=
  header "Instalando dependências";;
  try_except
    (run_checked upgrade_command;;
     echo "[OK] Pip atualizado.")
    CalledProcessError
    (echo "[AVISO] Falha ao atualizar pip, continuando com a versão atual.");;
  install_each requirements.

(** The advice [check_ffmpeg] ends with, by platform. *)
Definition ffmpeg_advice : M unit :=
  if Stdlib.Strings.String.eqb (system host) "Windows" then
    echo "  1. Baixe em: https://ffmpeg.org/download.html";;
    echo "  2. Adicione ao PATH do sistema"
  else if Stdlib.Strings.String.eqb (system host) "Darwin" then
    echo "  Execute: brew install ffmpeg"
  else
    echo "  Execute: sudo apt-get install ffmpeg".

(** [check_ffmpeg()]. The [try] block returns [True] on a zero return
    code; otherwise, and after [FileNotFoundError], control reaches the
    warning. *)
Definition check_ffmpeg : M bool :=
  header "Verificando FFmpeg (opcional)";;
  found ← try_except
    (returncode ← run_captured ["ffmpeg"; "-version"];
     if (returncode =? 0)%Z then
       echo "[OK] FFmpeg está instalado.";;
       mret true
     else mret false)
    FileNotFoundError
    (mret false);
  if (found : bool) then mret true
  else
    echo "[AVISO] FFmpeg não encontrado. A análise de vídeo não estará disponível.";;
    echo "Para instalar o FFmpeg:";;
    ffmpeg_advice;;
    mret false.

(** The loop [for directory in directories]. *)
Fixpoint make_each (dirs : list string) : M unit :=
  match dirs with
  | [] => mret tt
  | directory :: rest =>
      makedirs directory;;
      echo ("[OK] Diretório criado: " +:+ directory);;
      make_each rest
  end.

(** [create_directories()]. *)
Definition create_directories : M bool :=
  header "Criando diretórios";;
  make_each directories;;
  mret true.

(** [create_wrapper_scripts()], carried out on the host. *)
Definition create_wrapper_scripts : M bool :=
  perform_all (Setup.create_wrapper_scripts (system host)).1;;
  mret (Setup.create_wrapper_scripts (system host)).2.

(** [main()]. *)
Definition main : M bool :=
  header "Configuração da IA de Análise de Replays";;
  python ← check_python_version;
  if negb python then mret false else
  venv ← create_virtual_environment;
  if negb venv then mret false else
  dependencies ← install_dependencies;
  if negb dependencies then mret false else
  check_ffmpeg;;
  made ← create_directories;
  if negb made then mret false else
  scripts ← create_wrapper_scripts;
  if negb scripts then mret false else
  header "Configuração concluída com sucesso!";;
  echo (nl +:+ "Para analisar um replay:");;
  echo "  python analisar_replay.py --arquivo caminho/para/seu/replay.replay";;
  echo (nl +:+ "Para iniciar a interface web:");;
  echo "  python iniciar_interface.py";;
  echo (nl +:+ "Para analisar um vídeo (requer FFmpeg):");;
  echo "  python analisar_video.py --arquivo caminho/para/seu/video.mp4";;
  mret true.

End OnHost.

(** An effect that changes the disk: a directory made, a file written,
    a mode changed. *)
Definition touches_disk (e : effect) : bool :=
  match e with
  | MakeDirs _ | Act (WriteFile _ _) | Act (Chmod _ _) => true
  | _ => false
  end.

(** Effects that are messages only. *)
Definition silent (t : list effect) : Prop :=
  Forall (λ e, ∃ msg, e = Act (Echo msg)) t.

(** The commands among the effects, in order. *)
Definition commands (trace : list effect) : list (list string) :=
  omap (λ e, match e with Run argv => Some argv | _ => None end) trace.

(** A Linux host with Python 3.11 on which every command succeeds,
    except the installation of the packages listed in [failing] and
    [ffmpeg], which is not installed. *)
Definition linux_host (failing : list string) : Host :=
  {| version_info := (3, 11)%Z;
     executable := "/usr/bin/python3";
     system := "Linux";
     path_exists := λ _, false;
     subprocess_run := λ argv,
       match argv with
       | [_; "install"; package] =>
           if bool_decide (package ∈ failing) then Exited 1 else Exited 0
       | ["ffmpeg"; _] => NotFound
       | _ => Exited 0
       end;
     refused := λ _, false |}.

End Installer.

(** ** The checked-in wrapper scripts ([analisar_replay.py], [analisar_video.py]) *)

Module Wrappers.
Import Setup.

(** [choices=['rocket_league', 'rainbow_six']]: the values [--jogo] takes. *)
Inductive Game : Type := rocket_league | rainbow_six.

Definition game_name (g : Game) : string :=
  match g with
  | rocket_league => "rocket_league"
  | rainbow_six => "rainbow_six"
  end.

(** What [parser.parse_args()] returns in both scripts. *)
Record Args : Type := {
  arquivo : string;   (* --arquivo, required *)
  jogo : Game;        (* --jogo, default rocket_league *)
  saida : string      (* --saida, default data/results *)
}.

(** What a script does to its surroundings. *)
Inductive effect : Type :=
| Print (msg : string)
| IsFile (path : string)       (* os.path.isfile *)
| System (command : string).   (* os.system *)

(** How the script ends: [main] returns, or [sys.exit(status)]. *)
Inductive ending : Type :=
| Finished
| Exit (status : Z).

(** The machine a script runs on. *)
Record Host : Type := {
  win32 : bool;                 (* sys.platform == 'win32' *)
  isfile : string → bool;       (* os.path.isfile *)
  system : string → Z           (* what os.system returns *)
}.

(** The commands among the effects, in order. *)
Definition commands (trace : list effect) : list string :=
  omap (λ e, match e with System command => Some command | _ => None end) trace.

Module AnalisarReplay.

(** [os.path.join('venv', 'Scripts', 'activate')] on Windows,
    [os.path.join('venv', 'bin', 'activate')] elsewhere. *)
Definition activate_script (host : Host) : string :=
  if win32 host then "venv\Scripts\activate" else "venv/bin/activate".

(** The argument of [os.system]. *)
Definition command (host : Host) (args : Args) : string :=
  (if win32 host then "call " else "source ") +:+ activate_script host
    +:+ " && python integrador.py --replay " +:+ arquivo args
    +:+ " --game " +:+ game_name (jogo args)
    +:+ " --output " +:+ saida args.

(** [main()], from the parsed arguments on. What [os.system] returns
    is dropped. *)
Definition main (host : Host) (args : Args) : ending * list effect :=
  (Finished, [System (command host args)]).

End AnalisarReplay.

Module AnalisarVideo.

(** [os.path.join('venv', 'Scripts', 'python.exe')] on Windows,
    [os.path.join('venv', 'bin', 'python')] elsewhere. *)
Definition python_exec (host : Host) : string :=
  if win32 host then "venv\Scripts\python.exe" else "venv/bin/python".

(** [cmd]. *)
Definition command (host : Host) (args : Args) : string :=
  dq +:+ python_exec host +:+ dq
    +:+ " video_analysis/gameplay_video_processor.py --video "
    +:+ dq +:+ arquivo args +:+ dq
    +:+ " --game " +:+ dq +:+ game_name (jogo args) +:+ dq
    +:+ " --output " +:+ dq +:+ saida args +:+ dq.

(** [main()], from the parsed arguments on. *)
Definition main (host : Host) (args : Args) : ending * list effect :=
  let opening :=
    [ Print ("Iniciando análise do vídeo: " +:+ arquivo args);
      Print ("Tipo de jogo: " +:+ game_name (jogo args));
      Print ("Diretório de saída dos resultados: " +:+ saida args);
      IsFile (python_exec host) ] in
  if negb (isfile host (python_exec host)) then
    (Exit 1,
     opening ++
     [ Print ("Erro: Não foi encontrado o Python do ambiente virtual em: "
                +:+ python_exec host);
       Print "Certifique-se de que o ambiente virtual foi criado (venv) e instalado corretamente." ])
  else
    let cmd := command host args in
    let exit_code := system host cmd in
    (Finished,
     opening ++
     [ Print ("Executando comando: " +:+ cmd);
       System cmd;
       if (exit_code =? 0)%Z then Print "Processamento concluído com sucesso!"
       else Print ("Ocorreu um erro ao processar o vídeo. Código de saída: "
                     +:+ pretty exit_code) ]).

End AnalisarVideo.

End Wrappers.

(** ** The data model of the pipeline *)

Module Telemetry.

(** Modelled from the spec: section 3, the data model. The types below
    are what the absent parser hands to the rest of the pipeline.
    Numbers are rationals. *)
Definition vec3 : Type := Q * Q * Q.

(** Modelled from the spec: [FrameSample], a time-stamped snapshot of
    one entity's physical state: position, velocity, orientation and the
    entity-specific scalar. *)
Record FrameSample : Type := {
  timestamp : Q;               (* seconds *)
  position : vec3;
  velocity : vec3;
  orientation : vec3;
  scalar : Q                   (* boost or resource amount *)
}.

(** Modelled from the spec: the type tag of an event. *)
Inductive EventType : Type :=
| Goal
| Save
| Demolition
| RoundEnd
| OtherEvent (tag : N).

(** Modelled from the spec: [GameEvent], a discrete occurrence with its
    time, its type tag and its payload: actor, target, optional
    detail. *)
Record GameEvent : Type := {
  event_time : Q;
  event_type : EventType;
  actor : N;
  target : option N;
  detail : option string
}.

(** Modelled from the spec: [PlayerRecord]. *)
Record PlayerRecord : Type := {
  player_id : N;
  display_name : string;
  team : N;
  role : string
}.

(** Modelled from the spec: [ReplayMetadata]. *)
Record ReplayMetadata : Type := {
  map_name : string;
  match_type : string;
  duration : Q;                (* seconds *)
  team_composition : list N;   (* players per team *)
  format_version : N
}.

(** Modelled from the spec: whether two type tags are the same. *)
Definition event_type_eqb (a b : EventType) : bool :=
  match a, b with
  | Goal, Goal | Save, Save | Demolition, Demolition | RoundEnd, RoundEnd => true
  | OtherEvent x, OtherEvent y => N.eqb x y
  | _, _ => false
  end.

End Telemetry.

(** ** The binary replay decoder *)

Module Decoder.
Import Telemetry.

Abbreviation byte := Corelib.Init.Byte.byte.

(** Modelled from the spec: the decoder; the repository's
    [parser/rocket_league_parser.py] is not among the sources. The spec
    fixes the container: a magic and a version, a length-prefixed
    metadata block, a count-prefixed roster, a length-prefixed stream of
    tagged frame records, a length-prefixed stream of event records. It
    leaves the byte layout of the fields to the game title; that part is
    the [Schema]. Lengths, counts, versions and tags are taken to be
    32-bit little-endian integers. The fatal errors are those of
    sections 4.1 and 7. *)
Inductive DecodeError : Type :=
| UnsupportedFormat
| Truncated
| ChecksumMismatch
| DuplicatePlayer.

(** Modelled from the spec: [Result<_, DecodeError>]. *)
Inductive result (A : Type) : Type :=
| Ok (a : A)
| Err (e : DecodeError).

Arguments Ok {A} a.
Arguments Err {A} e.

#[global] Instance result_ret : MRet result := λ A a, Ok a.

#[global] Instance result_bind : MBind result := λ A B f r,
  match r with
  | Ok a => f a
  | Err e => Err e
  end.

(** Modelled from the spec: what is specific to a game title and a
    format version (section 6 calls it a versioned schema): the magic,
    the supported versions, the tag of the ball, and the fixed-size
    layouts of the metadata fields, of a roster entry, of the state
    carried by a frame record and of an event record. *)
Record Schema : Type := {
  magic : list byte;
  supported : N → bool;
  ball_tag : N;
  read_metadata : N → list byte → ReplayMetadata;
  player_size : nat;
  read_player : list byte → PlayerRecord;
  sample_size : nat;
  read_sample : list byte → FrameSample;
  event_size : nat;
  read_event : list byte → GameEvent
}.

(** Modelled from the spec: the outcome [Decoded], with the counts of
    the records that were dropped. *)
Record DecodedReplay : Type := {
  metadata : ReplayMetadata;
  roster : list PlayerRecord;
  frames : list (N * FrameSample);     (* entity tag, sample; in stream order *)
  events : list GameEvent;
  dropped_frames : nat;
  dropped_events : nat
}.

(** *** Reading bytes *)

(** Modelled from the spec: the low byte of a number. *)
Definition byte_of_N (n : N) : byte :=
  default Corelib.Init.Byte.x00 (Stdlib.Strings.Byte.of_N (n mod 256)).

(** Modelled from the spec: a 32-bit little-endian integer, as
    written. *)
Definition u32 (n : N) : list byte :=
  [ byte_of_N n; byte_of_N (n / 256); byte_of_N (n / 256 / 256);
    byte_of_N (n / 256 / 256 / 256) ].

(** Modelled from the spec: [n] bytes off the front; asking for more
    than the buffer still holds is [Truncated]. *)
Definition take_exact (n : nat) (bs : list byte) : result (list byte * list byte) :=
  if (length bs <? n)%nat then Err Truncated else Ok (take n bs, drop n bs).

(** Modelled from the spec: a 32-bit little-endian integer, as read. *)
Definition read_u32 (bs : list byte) : result (N * list byte) :=
  '(field, rest) ← take_exact 4 bs;
  match field with
  | [b0; b1; b2; b3] =>
      Ok (Stdlib.Strings.Byte.to_N b0 + 256 * (Stdlib.Strings.Byte.to_N b1 + 256 * (Stdlib.Strings.Byte.to_N b2
            + 256 * Stdlib.Strings.Byte.to_N b3)), rest)%N
  | _ => Err Truncated
  end.

(** Modelled from the spec: whether two byte strings are the same. *)
Definition bytes_eqb (a b : list byte) : bool :=
  bool_decide (Stdlib.Strings.Byte.to_N <$> a = Stdlib.Strings.Byte.to_N <$> b).

(** *** The sections of a replay *)

(** Modelled from the spec: the fixed magic and the format version. A
    buffer that ends inside the header is [Truncated]; another magic or
    a version outside the supported range is [UnsupportedFormat]. *)
Definition read_header (sch : Schema) (bs : list byte) : result (N * list byte) :=
  '(m, rest) ← take_exact (length (magic sch)) bs;
  if negb (bytes_eqb m (magic sch)) then Err UnsupportedFormat
  else
    '(version, rest) ← read_u32 rest;
    if supported sch version then Ok (version, rest) else Err UnsupportedFormat.

(** Modelled from the spec: a length-prefixed block; a length that
    exceeds what is left of the buffer is [Truncated]. *)
Definition read_block (bs : list byte) : result (list byte * list byte) :=
  '(len, rest) ← read_u32 bs;
  take_exact (N.to_nat len) rest.

(** Modelled from the spec: [count] roster entries. *)
Fixpoint read_players (sch : Schema) (count : nat) (bs : list byte)
    : result (list PlayerRecord * list byte) :=
  match count with
  | O => Ok ([], bs)
  | S count' =>
      '(field, rest) ← take_exact (player_size sch) bs;
      '(players, rest) ← read_players sch count' rest;
      Ok (read_player sch field :: players, rest)
  end.

(** Modelled from the spec: whether an identifier occurs twice. *)
Fixpoint has_duplicate (ids : list N) : bool :=
  match ids with
  | [] => false
  | i :: rest => existsb (N.eqb i) rest || has_duplicate rest
  end.

(** Modelled from the spec: the count-prefixed roster; two entries with
    one identifier are [DuplicatePlayer]. *)
Definition read_roster (sch : Schema) (bs : list byte)
    : result (list PlayerRecord * list byte) :=
  '(count, rest) ← read_u32 bs;
  '(players, rest) ← read_players sch (N.to_nat count) rest;
  if has_duplicate (player_id <$> players) then Err DuplicatePlayer
  else Ok (players, rest).

(** Modelled from the spec: an entity tag is known when it is the
    ball's or a roster player's. *)
Definition known_entity (sch : Schema) (players : list PlayerRecord) (tag : N) : bool :=
  N.eqb tag (ball_tag sch) || existsb (N.eqb tag) (player_id <$> players).

(** Modelled from the spec: an actor is known when it is a roster
    player. *)
Definition known_actor (players : list PlayerRecord) (id : N) : bool :=
  existsb (N.eqb id) (player_id <$> players).

(** Modelled from the spec: the frame stream, record after record. A
    record is its entity tag followed by the state in the schema's
    layout. A record with an unknown tag is skipped and counted; the
    stream goes on. [fuel] bounds the number of records; the length of
    the stream is always enough, a record being at least four bytes. *)
Fixpoint read_frames (sch : Schema) (players : list PlayerRecord)
    (fuel : nat) (bs : list byte) : result (list (N * FrameSample) * nat) :=
  match bs with
  | [] => Ok ([], O)
  | _ :: _ =>
      match fuel with
      | O => Err Truncated
      | S fuel' =>
          '(tag, rest) ← read_u32 bs;
          '(field, rest) ← take_exact (sample_size sch) rest;
          '(samples, dropped) ← read_frames sch players fuel' rest;
          if known_entity sch players tag
          then Ok ((tag, read_sample sch field) :: samples, dropped)
          else Ok (samples, S dropped)
      end
  end.

(** Modelled from the spec: the event stream. An event whose actor is
    not in the roster is dropped and counted; the stream goes on. *)
Fixpoint read_events (sch : Schema) (players : list PlayerRecord)
    (fuel : nat) (bs : list byte) : result (list GameEvent * nat) :=
  match bs with
  | [] => Ok ([], O)
  | _ :: _ =>
      match fuel with
      | O => Err Truncated
      | S fuel' =>
          '(field, rest) ← take_exact (event_size sch) bs;
          '(evs, dropped) ← read_events sch players fuel' rest;
          let ev := read_event sch field in
          if known_actor players (actor ev)
          then Ok (ev :: evs, dropped)
          else Ok (evs, S dropped)
      end
  end.

(** Modelled from the spec: [decode(raw_bytes)]. Either everything is
    decoded, possibly with dropped records that are counted, or the
    result is a fatal error and nothing else. *)
Definition decode (sch : Schema) (raw : list byte) : result DecodedReplay :=
  '(version, rest) ← read_header sch raw;
  '(meta_block, rest) ← read_block rest;
  '(players, rest) ← read_roster sch rest;
  '(frame_block, rest) ← read_block rest;
  '(samples, lost_frames) ← read_frames sch players (length frame_block) frame_block;
  '(event_block, rest) ← read_block rest;
  '(evs, lost_events) ← read_events sch players (length event_block) event_block;
  Ok {| metadata := read_metadata sch version meta_block;
        roster := players;
        frames := samples;
        events := evs;
        dropped_frames := lost_frames;
        dropped_events := lost_events |}.

(** *** Writing a replay *)

(** Modelled from the spec: a frame record as written: the tag, then
    the state. *)
Definition frame_record (r : N * list byte) : list byte := u32 r.1 ++ r.2.

(** Modelled from the spec: a length-prefixed block as written. *)
Definition block (content : list byte) : list byte :=
  u32 (N.of_nat (length content)) ++ content.

(** Modelled from the spec: the reference encoder of section 8, at the
    level of the container: it lays out fields that are already in the
    schema's byte layout. *)
Definition assemble (sch : Schema) (version : N) (meta_block : list byte)
    (player_fields : list (list byte)) (frame_fields : list (N * list byte))
    (event_fields : list (list byte)) : list byte :=
  magic sch ++ u32 version
  ++ block meta_block
  ++ u32 (N.of_nat (length player_fields)) ++ concat player_fields
  ++ block (concat (frame_record <$> frame_fields))
  ++ block (concat event_fields).

(** Modelled from the spec: the samples of the frame fields whose tag
    is known, in stream order. *)
Definition kept_frames (sch : Schema) (players : list PlayerRecord)
    (frame_fields : list (N * list byte)) : list (N * FrameSample) :=
  (λ r, (r.1, read_sample sch r.2))
    <$> List.filter (λ r, known_entity sch players r.1) frame_fields.

(** Modelled from the spec: the number of frame fields whose tag is
    unknown. *)
Definition unknown_frames (sch : Schema) (players : list PlayerRecord)
    (frame_fields : list (N * list byte)) : nat :=
  length (List.filter (λ r, negb (known_entity sch players r.1)) frame_fields).

(** Modelled from the spec: the events whose actor is known. *)
Definition kept_events (sch : Schema) (players : list PlayerRecord)
    (event_fields : list (list byte)) : list GameEvent :=
  List.filter (λ ev, known_actor players (actor ev)) (read_event sch <$> event_fields).

(** Modelled from the spec: the number of events whose actor is
    unknown. *)
Definition unknown_events (sch : Schema) (players : list PlayerRecord)
    (event_fields : list (list byte)) : nat :=
  length (List.filter (λ ev, negb (known_actor players (actor ev)))
            (read_event sch <$> event_fields)).

End Decoder.

(** ** The telemetry normalizer *)

Module Normalizer.
Import Telemetry.

#[local] Open Scope Q_scope.

(** Modelled from the spec: the options of section 4.2, the canonical
    tick rate and the largest gap, in ticks, that is still interpolated
    across. *)
Record Config : Type := {
  tick_rate_hz : Q;
  max_gap_ticks : Q
}.

(** Modelled from the spec: the normalization anomalies of section 7,
    which travel with the series. *)
Record Diagnostics : Type := {
  insufficient_samples : bool;
  rejected_duplicates : nat;
  discontinuities : nat
}.

(** Modelled from the spec: the normalized series of one entity, as the
    contiguous segments it was split into. *)
Record NormalizedTimeSeries : Type := {
  segments : list (list FrameSample)
}.

(** Modelled from the spec: the samples of a series, pooled over its
    segments. *)
Definition samples (s : NormalizedTimeSeries) : list FrameSample :=
  concat (segments s).

(** Modelled from the spec: the stable sort by timestamp. A sample goes
    in front of the first one that is not earlier than it, so samples
    with one timestamp keep their record order. *)
Fixpoint insert_sample (x : FrameSample) (sorted : list FrameSample)
    : list FrameSample :=
  match sorted with
  | [] => [x]
  | y :: rest =>
      if Qle_bool (timestamp x) (timestamp y) then x :: sorted
      else y :: insert_sample x rest
  end.

(** Modelled from the spec: the samples of an entity sorted by
    timestamp. *)
Definition sort_samples (raw : list FrameSample) : list FrameSample :=
  foldr insert_sample [] raw.

(** Modelled from the spec: duplicates at identical timestamps are
    rejected; of the samples that share a timestamp the first in record
    order is kept. [last_kept] is the timestamp of the sample kept
    last. *)
Fixpoint reject_duplicates (last_kept : option Q) (sorted : list FrameSample)
    : list FrameSample :=
  match sorted with
  | [] => []
  | x :: rest =>
      match last_kept with
      | Some t =>
          if Qeq_bool t (timestamp x) then reject_duplicates last_kept rest
          else x :: reject_duplicates (Some (timestamp x)) rest
      | None => x :: reject_duplicates (Some (timestamp x)) rest
      end
  end.

(** Modelled from the spec: the value at fraction [w] of the way from
    [a] to [b]. *)
Definition lerp (w a b : Q) : Q := a + w * (b - a).

(** Modelled from the spec: the same, coordinate by coordinate. *)
Definition lerp3 (w : Q) (a b : vec3) : vec3 :=
  (lerp w a.1.1 b.1.1, lerp w a.1.2 b.1.2, lerp w a.2 b.2).

(** Modelled from the spec: linear interpolation between two real
    samples [a] and [b], at a time [t] strictly between theirs. *)
Definition interpolate (a b : FrameSample) (t : Q) : FrameSample :=
  let w := (t - timestamp a) / (timestamp b - timestamp a) in
  {| timestamp := t;
     position := lerp3 w (position a) (position b);
     velocity := lerp3 w (velocity a) (velocity b);
     orientation := lerp3 w (orientation a) (orientation b);
     scalar := lerp w (scalar a) (scalar b) |}.

(** Modelled from the spec: a real sample, stamped with the tick time
    at which it was taken. *)
Definition at_time (t : Q) (s : FrameSample) : FrameSample :=
  {| timestamp := t;
     position := position s;
     velocity := velocity s;
     orientation := orientation s;
     scalar := scalar s |}.

(** Modelled from the spec: the two real samples nearest to [t], for
    [t] not before the first sample of [real]. *)
Fixpoint nearest (real : list FrameSample) (t : Q) : option (FrameSample * FrameSample) :=
  match real with
  | a :: (b :: _) as rest =>
      if Qle_bool t (timestamp b) then Some (a, b) else nearest rest t
  | _ => None
  end.

(** Modelled from the spec: a gap of more than [max_gap_ticks] ticks
    between two real samples. *)
Definition is_gap (cfg : Config) (a b : FrameSample) : bool :=
  negb (Qle_bool ((timestamp b - timestamp a) * tick_rate_hz cfg) (max_gap_ticks cfg)).

(** Modelled from the spec: the sample of the series at tick time [t].
    A real sample taken at [t] is used as it is; between two real
    samples the state is interpolated, unless they are a gap apart:
    nothing is interpolated across a gap. *)
Definition resample_at (cfg : Config) (real : list FrameSample) (t : Q)
    : option FrameSample :=
  match nearest real t with
  | Some (a, b) =>
      if Qeq_bool t (timestamp a) then Some (at_time t a)
      else if Qeq_bool t (timestamp b) then Some (at_time t b)
      else if is_gap cfg a b then None
      else Some (interpolate a b t)
  | None => None
  end.

(** Modelled from the spec: the tick times of an entity whose first and
    last real samples are at [first] and [final]: one every
    [1 / tick_rate_hz] from [first] on, none after [final] (no
    extrapolation). *)
Definition tick_count (cfg : Config) (first final : Q) : nat :=
  Z.to_nat (Qfloor ((final - first) * tick_rate_hz cfg)).

(** Modelled from the spec: the time of tick [k]. *)
Definition tick_time (cfg : Config) (first : Q) (k : nat) : Q :=
  first + inject_Z (Z.of_nat k) / tick_rate_hz cfg.

(** Modelled from the spec: the tick times, in order. *)
Definition tick_times (cfg : Config) (first final : Q) : list Q :=
  tick_time cfg first <$> seq 0 (S (tick_count cfg first final)).

(** Modelled from the spec: one more tick in front of the segments
    found so far; a tick without a sample closes a segment. *)
Definition add_to_segments (s : option FrameSample) (acc : list (list FrameSample))
    : list (list FrameSample) :=
  match s with
  | Some x =>
      match acc with
      | seg :: rest => (x :: seg) :: rest
      | [] => [[x]]
      end
  | None =>
      match acc with
      | [] :: _ => acc
      | _ => [] :: acc
      end
  end.

(** Modelled from the spec: the contiguous segments, the maximal runs
    of ticks that have a sample. *)
Definition split_segments (ticks : list (option FrameSample)) : list (list FrameSample) :=
  List.filter (λ seg, negb (Nat.eqb (length seg) 0)) (foldr add_to_segments [] ticks).

(** Modelled from the spec: the time of the last real sample. *)
Definition final_timestamp (first : FrameSample) (rest : list FrameSample) : Q :=
  timestamp (List.last rest first).

(** Modelled from the spec: the normalization of one entity. Fewer than
    two samples give the empty series, flagged, and no error. *)
Definition normalize_entity (cfg : Config) (raw : list FrameSample)
    : NormalizedTimeSeries * Diagnostics :=
  let sorted := sort_samples raw in
  let real := reject_duplicates None sorted in
  let rejected := (length sorted - length real)%nat in
  match real with
  | first :: (_ :: _) as rest =>
      let ticks :=
        resample_at cfg real
          <$> tick_times cfg (timestamp first) (final_timestamp first rest) in
      let segs := split_segments ticks in
      ({| segments := segs |},
       {| insufficient_samples := false;
          rejected_duplicates := rejected;
          discontinuities := Nat.pred (length segs) |})
  | _ =>
      ({| segments := [] |},
       {| insufficient_samples := true;
          rejected_duplicates := rejected;
          discontinuities := O |})
  end.

(** Modelled from the spec: the raw samples of one entity, in record
    order. *)
Definition samples_of (tag : N) (frames : list (N * FrameSample)) : list FrameSample :=
  snd <$> List.filter (λ r, N.eqb r.1 tag) frames.

(** Modelled from the spec: [normalize], entity by entity. *)
Definition normalize (cfg : Config) (entities : list N) (frames : list (N * FrameSample))
    : list (N * (NormalizedTimeSeries * Diagnostics)) :=
  (λ tag, (tag, normalize_entity cfg (samples_of tag frames))) <$> entities.

(** Modelled from the spec: [a] is not later than [b]. *)
Definition not_later (a b : FrameSample) : Prop :=
  (timestamp a <= timestamp b)%Q.

(** Modelled from the spec: strictly increasing timestamps, the
    invariant of a normalized series. *)
Definition strictly_increasing (s : list FrameSample) : Prop :=
  StronglySorted Qlt (timestamp <$> s).

End Normalizer.

(** ** The analysis engine *)

Module Engine.
Import Telemetry Normalizer.

#[local] Open Scope Q_scope.

(** Modelled from the spec: the performance dimensions of section 4.3,
    as a closed set, in the fixed order in which they are reported. *)
Inductive Category : Type :=
| Positioning
| ResourceManagement
| MechanicalExecution
| EventContribution.

(** Modelled from the spec: the categories in reporting order. *)
Definition categories : list Category :=
  [ Positioning; ResourceManagement; MechanicalExecution; EventContribution ].

(** Modelled from the spec: whether two categories are the same. *)
Definition category_eqb (a b : Category) : bool :=
  match a, b with
  | Positioning, Positioning | ResourceManagement, ResourceManagement
  | MechanicalExecution, MechanicalExecution
  | EventContribution, EventContribution => true
  | _, _ => false
  end.

(** Modelled from the spec: a computed number: a rational, or the
    not-a-number of section 8, which a division by zero yields and every
    later operation carries along. *)
Inductive num : Type :=
| Num (q : Q)
| NaN.

(** Modelled from the spec: division. *)
Definition ndiv (a b : Q) : num :=
  if Qeq_bool b 0 then NaN else Num (a / b).

(** Modelled from the spec: addition. *)
Definition nadd (a b : num) : num :=
  match a, b with
  | Num x, Num y => Num (x + y)
  | _, _ => NaN
  end.

(** Modelled from the spec: multiplication by a weight. *)
Definition nscale (w : Q) (a : num) : num :=
  match a with
  | Num x => Num (w * x)
  | NaN => NaN
  end.

(** Modelled from the spec: the sum of a list of computed numbers. *)
Definition nsum (l : list num) : num := foldr nadd (Num 0) l.

(** Modelled from the spec: the sum of a list of rationals. *)
Definition sumQ (l : list Q) : Q := foldr Qplus 0 l.

(** Modelled from the spec: the mean of a list; of the empty list it is
    not a number. *)
Definition nmean (l : list num) : num :=
  match nsum l with
  | Num s => ndiv s (inject_Z (Z.of_nat (length l)))
  | NaN => NaN
  end.

(** Modelled from the spec: the mean of the values weighted by their
    weights; with a zero total weight it is not a number. *)
Definition weighted_mean (l : list (Q * num)) : num :=
  match nsum ((λ wv, nscale wv.1 wv.2) <$> l) with
  | Num s => ndiv s (sumQ (fst <$> l))
  | NaN => NaN
  end.

(** Modelled from the spec: a score on the 0 to 100 scale, or the
    sentinel for a score that has no data to be computed from. *)
Inductive Score : Type :=
| NotApplicable
| Scored (value : num).

(** Modelled from the spec: whether a score is the sentinel. *)
Definition is_not_applicable (s : Score) : bool :=
  match s with NotApplicable => true | Scored _ => false end.

(** Modelled from the spec: the values of the scores that are not the
    sentinel. *)
Definition applicable (l : list Score) : list num :=
  omap (λ s, match s with Scored v => Some v | NotApplicable => None end) l.

(** Modelled from the spec: a threshold rule: when the score of the
    category is below the threshold, the finding is reported. *)
Record Rule : Type := {
  rule_category : Category;
  severity : nat;
  threshold : Q;
  finding : string
}.

(** Modelled from the spec: the policy table of sections 4.3 and 9. The
    spec gives no formula: the raw metric of each category is an entry
    of the table, with the bounds it is scaled against, the weight of
    the category, the threshold rules and the advice for each finding. A
    raw metric is computed from the player's series, the ball's series,
    the events attributed to the player and the metadata. *)
Record Policy : Type := {
  metric : Category → NormalizedTimeSeries → NormalizedTimeSeries →
           list GameEvent → ReplayMetadata → Q;
  lower : Category → Q;
  upper : Category → Q;
  weight : Category → Q;
  rules : list Rule;
  advice : list (string * string)
}.

(** Modelled from the spec: a table that can be used: bounds in the
    right order and positive weights. *)
Definition valid (pol : Policy) : Prop :=
  ∀ c, lower pol c < upper pol c ∧ 0 < weight pol c.

(** Modelled from the spec: a number cut to the 0 to 100 scale. *)
Definition clamp (q : Q) : Q :=
  if Qle_bool q 0 then 0 else if Qle_bool 100 q then 100 else q.

(** Modelled from the spec: linear scaling of a raw metric against the
    known bounds, onto the 0 to 100 scale. *)
Definition scale (pol : Policy) (c : Category) (m : Q) : num :=
  match ndiv (100 * (m - lower pol c)) (upper pol c - lower pol c) with
  | Num q => Num (clamp q)
  | NaN => NaN
  end.

(** Modelled from the spec: the events attributed to a player are those
    whose payload names the player as the actor. *)
Definition attributed (player : N) (evs : list GameEvent) : list GameEvent :=
  List.filter (λ ev, N.eqb (actor ev) player) evs.

(** Modelled from the spec: the events of one type. *)
Definition of_type (ty : EventType) (evs : list GameEvent) : list GameEvent :=
  List.filter (λ ev, event_type_eqb (event_type ev) ty) evs.

(** Modelled from the spec: the series of an entity; an entity without
    one has the empty series. *)
Definition series_of (tag : N) (all : list (N * NormalizedTimeSeries))
    : NormalizedTimeSeries :=
  default {| segments := [] |} (snd <$> List.find (λ r, N.eqb r.1 tag) all).

(** Modelled from the spec: the score of one player in one category. An
    empty series is insufficient data: the score is the sentinel and the
    metric is not evaluated. *)
Definition player_score (pol : Policy) (c : Category)
    (own ball : NormalizedTimeSeries) (own_events : list GameEvent)
    (meta : ReplayMetadata) : Score :=
  match samples own with
  | [] => NotApplicable
  | _ :: _ => Scored (scale pol c (metric pol c own ball own_events meta))
  end.

(** Modelled from the spec: the mean of the scores that are not the
    sentinel; the sentinel when there is none, so that missing data does
    not skew the aggregate. *)
Definition mean_score (l : list Score) : Score :=
  match applicable l with
  | [] => NotApplicable
  | v :: vs => Scored (nmean (v :: vs))
  end.

(** Modelled from the spec: the metric bundle of a category: the
    sub-score of each player, the score of the category, and whether
    some player had insufficient data. *)
Record MetricBundle : Type := {
  per_player : list (N * Score);
  category_score : Score;
  insufficient_data : bool
}.

(** Modelled from the spec: the analysis result. *)
Record AnalysisResult : Type := {
  bundles : list (Category * MetricBundle);
  attributions : list (N * list GameEvent);
  findings : list string;
  recommendations : list (string * string)
}.

(** Modelled from the spec: the overall score with its breakdown; the
    fields [main] prints. *)
Record OverallScore : Type := {
  overall_score : Score;
  category_scores : list (Category * Score)
}.

(** Modelled from the spec: what the engine is given: the series, the
    events and the metadata, with the tags of the players and of the
    ball. *)
Record Inputs : Type := {
  players : list N;
  ball : N;
  series : list (N * NormalizedTimeSeries);
  game_events : list GameEvent;
  game_metadata : ReplayMetadata
}.

(** Modelled from the spec: the metric bundle of a category, computed. *)
Definition bundle_of (pol : Policy) (inp : Inputs) (c : Category) : MetricBundle :=
  let subs :=
    (λ p, (p, player_score pol c (series_of p (series inp))
                 (series_of (ball inp) (series inp))
                 (attributed p (game_events inp)) (game_metadata inp)))
      <$> players inp in
  {| per_player := subs;
     category_score := mean_score (snd <$> subs);
     insufficient_data := existsb is_not_applicable (snd <$> subs) |}.

(** Modelled from the spec: a rule put among rules sorted by decreasing
    severity; rules of one severity keep the order of the table. *)
Fixpoint insert_rule (r : Rule) (sorted : list Rule) : list Rule :=
  match sorted with
  | [] => [r]
  | r' :: rest =>
      if (severity r' <=? severity r)%nat then r :: sorted
      else r' :: insert_rule r rest
  end.

(** Modelled from the spec: the rules by decreasing severity. *)
Definition by_severity (rs : list Rule) : list Rule := foldr insert_rule [] rs.

(** Modelled from the spec: a rule is triggered by a numeric score below
    its threshold. *)
Definition triggered (s : Score) (r : Rule) : bool :=
  match s with
  | Scored (Num q) => negb (Qle_bool (threshold r) q)
  | _ => false
  end.

(** Modelled from the spec: the findings, category by category in the
    fixed order, and within a category by severity. *)
Definition findings_of (pol : Policy) (scores : list (Category * Score)) : list string :=
  scores ≫= λ cs,
    finding <$> List.filter (triggered cs.2)
      (by_severity (List.filter (λ r, category_eqb (rule_category r) cs.1) (rules pol))).

(** Modelled from the spec: the advice for each finding, looked up in
    the table. *)
Definition recommendations_of (pol : Policy) (fs : list string) : list (string * string) :=
  (λ f, (f, default "" (snd <$> List.find (λ a, Stdlib.Strings.String.eqb a.1 f) (advice pol))))
    <$> fs.

(** Modelled from the spec: [analyze(series, events, metadata)]. *)
Definition analyze (pol : Policy) (inp : Inputs) : AnalysisResult :=
  let bs := (λ c, (c, bundle_of pol inp c)) <$> categories in
  let fs := findings_of pol ((λ cb, (cb.1, category_score cb.2)) <$> bs) in
  {| bundles := bs;
     attributions := (λ p, (p, attributed p (game_events inp))) <$> players inp;
     findings := fs;
     recommendations := recommendations_of pol fs |}.

(** Modelled from the spec: the weights and values of the categories
    that have a score. *)
Definition weighted_scores (pol : Policy) (scores : list (Category * Score))
    : list (Q * num) :=
  omap (λ cs, match cs.2 with
              | Scored v => Some (weight pol cs.1, v)
              | NotApplicable => None
              end) scores.

(** Modelled from the spec: the overall score, the weighted combination
    of the category scores. Categories without a score do not enter it;
    when none has a score the overall score is the sentinel. *)
Definition overall (pol : Policy) (res : AnalysisResult) : OverallScore :=
  let scores := (λ cb, (cb.1, category_score cb.2)) <$> bundles res in
  {| overall_score :=
       match weighted_scores pol scores with
       | [] => NotApplicable
       | wv :: rest => Scored (weighted_mean (wv :: rest))
       end;
     category_scores := scores |}.

(** Modelled from the spec: a number between 0 and 100. *)
Definition num_on_scale (v : num) : Prop :=
  ∃ q, v = Num q ∧ 0 <= q <= 100.

(** Modelled from the spec: a score that is a number between 0 and
    100. *)
Definition in_scale (s : Score) : Prop :=
  ∃ v, s = Scored v ∧ num_on_scale v.

(** Modelled from the spec: a score that is the sentinel or a number
    between 0 and 100: never a not-a-number. *)
Definition sound (s : Score) : Prop :=
  s = NotApplicable ∨ in_scale s.

(** Modelled from the spec: the sub-score of a player in a category,
    when the result has one. *)
Definition sub_score (res : AnalysisResult) (c : Category) (player : N) : option Score :=
  '(_, b) ← List.find (λ cb, category_eqb cb.1 c) (bundles res);
  snd <$> List.find (λ ps, N.eqb ps.1 player) (per_player b).

End Engine.

(** ** The pipeline *)

Module Pipeline.
Import Telemetry Decoder Normalizer Engine.

(** Modelled from the spec: what a run hands to the export adapter: the
    decoded data, the normalized series with their diagnostics, the
    analysis and the counts of dropped records. *)
Record Report : Type := {
  report_metadata : ReplayMetadata;
  report_roster : list PlayerRecord;
  report_series : list (N * (NormalizedTimeSeries * Diagnostics));
  report_events : list GameEvent;
  report_analysis : AnalysisResult;
  report_score : OverallScore;
  lost_frames : nat;
  lost_events : nat
}.

(** Modelled from the spec: what the normalizer hands to the engine. *)
Definition engine_inputs (sch : Schema) (cfg : Config) (d : DecodedReplay) : Inputs :=
  let ids := player_id <$> roster d in
  {| players := ids;
     ball := ball_tag sch;
     series := (λ r, (r.1, r.2.1)) <$> normalize cfg (ball_tag sch :: ids) (frames d);
     game_events := events d;
     game_metadata := metadata d |}.

(** Modelled from the spec: normalizer, then analysis engine, on a
    decoded replay. *)
Definition report_of (sch : Schema) (cfg : Config) (pol : Policy) (d : DecodedReplay)
    : Report :=
  let res := analyze pol (engine_inputs sch cfg d) in
  {| report_metadata := metadata d;
     report_roster := roster d;
     report_series := normalize cfg (ball_tag sch :: (player_id <$> roster d)) (frames d);
     report_events := events d;
     report_analysis := res;
     report_score := overall pol res;
     lost_frames := dropped_frames d;
     lost_events := dropped_events d |}.

(** Modelled from the spec: decoder, normalizer, analysis engine; a
    fatal decode error ends the run before the normalizer. *)
Definition run_pipeline (sch : Schema) (cfg : Config) (pol : Policy) (raw : list byte)
    : result Report :=
  d ← decode sch raw;
  Ok (report_of sch cfg pol d).

(** Modelled from the spec: an entity has full telemetry coverage of a
    match of [length_s] seconds when it has a sample at the start and
    one at the end. *)
Definition covers (frames : list (N * FrameSample)) (length_s : Q) (tag : N) : Prop :=
  ∃ a b, a ∈ samples_of tag frames ∧ b ∈ samples_of tag frames
         ∧ (timestamp a == 0)%Q ∧ (timestamp b == length_s)%Q.

(** Modelled from the spec: the scenario of section 8: two players,
    sixty seconds that both players cover, and one event, a goal by
    [scorer] at thirty seconds. *)
Definition synthetic_match (d : DecodedReplay) (scorer other : N) : Prop :=
  player_id <$> roster d ≡ₚ [scorer; other]
  ∧ scorer ≠ other
  ∧ (duration (metadata d) == 60)%Q
  ∧ covers (frames d) 60 scorer
  ∧ covers (frames d) 60 other
  ∧ ∃ goal, events d = [goal] ∧ event_type goal = Goal
            ∧ (event_time goal == 30)%Q ∧ actor goal = scorer.

End Pipeline.

(** ** A schema, a policy and a synthetic replay to run the pipeline on *)

Module Scenario.
Import Telemetry Decoder Normalizer Engine Pipeline.

(** The 32-bit integer at offset [i] of a field. *)
Definition u32_at (i : nat) (field : list byte) : N :=
  match read_u32 (drop i field) with
  | Ok (n, _) => n
  | Err _ => 0%N
  end.

Definition Q_of_N (n : N) : Q := inject_Z (Z.of_N n).

Definition demo_event_type (code : N) : EventType :=
  match code with
  | 0%N => Goal
  | 1%N => Save
  | 2%N => Demolition
  | 3%N => RoundEnd
  | _ => OtherEvent code
  end.

(** A schema with integer fields: times in milliseconds, the ball under
    tag 0. *)
Definition demo_schema : Schema :=
  {| magic := [Corelib.Init.Byte.x52; Corelib.Init.Byte.x4c;
               Corelib.Init.Byte.x52; Corelib.Init.Byte.x50];
     supported := λ v, (N.leb 1 v && N.leb v 3)%bool;
     ball_tag := 0%N;
     read_metadata := λ v field,
       {| map_name := ""; match_type := ""; duration := Q_of_N (u32_at 0 field);
          team_composition := [u32_at 4 field; u32_at 8 field];
          format_version := v |};
     player_size := 8;
     read_player := λ field,
       {| player_id := u32_at 0 field; display_name := "";
          team := u32_at 4 field; role := "" |};
     sample_size := 20;
     read_sample := λ field,
       {| timestamp := (Q_of_N (u32_at 0 field) / 1000)%Q;
          position := (Q_of_N (u32_at 4 field), Q_of_N (u32_at 8 field),
                       Q_of_N (u32_at 12 field));
          velocity := (0, 0, 0)%Q;
          orientation := (0, 0, 0)%Q;
          scalar := Q_of_N (u32_at 16 field) |};
     event_size := 12;
     read_event := λ field,
       {| event_time := (Q_of_N (u32_at 0 field) / 1000)%Q;
          event_type := demo_event_type (u32_at 4 field);
          actor := u32_at 8 field;
          target := None;
          detail := None |} |}.

Definition sample_field (ms x y z amount : N) : list byte :=
  u32 ms ++ u32 x ++ u32 y ++ u32 z ++ u32 amount.

(** The three frame records of second [s]: player 1, player 2, ball. *)
Definition second_records (s : nat) : list (N * list byte) :=
  let ms := (1000 * N.of_nat s)%N in
  [ (1%N, sample_field ms (N.of_nat s) 10 0 50);
    (2%N, sample_field ms (60 - N.of_nat s) 20 0 40);
    (0%N, sample_field ms 30 15 (N.of_nat s) 0) ].

(** Sixty seconds, two players, one goal by player 1 at thirty
    seconds. *)
Definition synthetic_frames : list (N * list byte) :=
  seq 0 61 ≫= second_records.

Definition synthetic_metadata : list byte := u32 60 ++ u32 1 ++ u32 1.

Definition synthetic_players : list (list byte) :=
  [ u32 1 ++ u32 0; u32 2 ++ u32 1 ].

Definition synthetic_events : list (list byte) :=
  [ u32 30000 ++ u32 0 ++ u32 1 ].

Definition synthetic_replay : list byte :=
  assemble demo_schema 1 synthetic_metadata synthetic_players
    synthetic_frames synthetic_events.

(** The same match with three more frame records, tagged with entities
    that are not in the roster. *)
Definition tolerant_frames : list (N * list byte) :=
  [ (7%N, sample_field 0 0 0 0 0) ] ++ synthetic_frames
  ++ [ (9%N, sample_field 500 1 1 1 1); (7%N, sample_field 60000 0 0 0 0) ].

Definition tolerant_replay : list byte :=
  assemble demo_schema 1 synthetic_metadata synthetic_players
    tolerant_frames synthetic_events.

Definition mean_of (f : FrameSample → Q) (s : NormalizedTimeSeries) : Q :=
  (sumQ (f <$> samples s) / Q_of_N (N.of_nat (length (samples s))))%Q.

(** A policy table for the examples. *)
Definition demo_policy : Policy :=
  {| metric := λ c own ball_series own_events _,
       match c with
       | Positioning => mean_of (λ x, (position x).1.1) own
       | ResourceManagement => mean_of scalar own
       | MechanicalExecution => Q_of_N (N.of_nat (length (segments own)))
       | EventContribution =>
           (25 * Q_of_N (N.of_nat (length (of_type Goal own_events))))%Q
       end;
     lower := λ _, 0%Q;
     upper := λ c, match c with MechanicalExecution => 4%Q | _ => 100%Q end;
     weight := λ c, match c with Positioning => 2%Q | _ => 1%Q end;
     rules :=
       [ {| rule_category := ResourceManagement; severity := 1;
            threshold := 48%Q; finding := "Boost reserves run low" |};
         {| rule_category := EventContribution; severity := 2;
            threshold := 10%Q; finding := "No goal contribution" |} ];
     advice :=
       [ ("Boost reserves run low", "Collect small pads on rotation");
         ("No goal contribution", "Position for rebounds") ] |}.

Definition demo_config : Config :=
  {| tick_rate_hz := 2%Q; max_gap_ticks := 4%Q |}.

(** A sample at time [t] with first coordinate [x]. *)
Definition spot (t x : Q) : FrameSample :=
  {| timestamp := t; position := (x, 0, 0)%Q; velocity := (0, 0, 0)%Q;
     orientation := (0, 0, 0)%Q; scalar := 0%Q |}.

(** A few frame records out of order, one of them a duplicate, and an
    entity with a single sample. *)
Definition short_frames : list (N * FrameSample) :=
  [ (1%N, spot 1 10); (1%N, spot 0 0); (2%N, spot 0 5);
    (1%N, spot (5 # 2) 40); (1%N, spot 1 99) ].

(** The synthetic replay, decoded. *)
Definition empty_replay : DecodedReplay :=
  {| metadata := {| map_name := ""; match_type := ""; duration := 0%Q;
                    team_composition := []; format_version := 0%N |};
     roster := []; frames := []; events := [];
     dropped_frames := 0; dropped_events := 0 |}.

Definition synthetic_decoded : DecodedReplay :=
  match decode demo_schema synthetic_replay with
  | Ok d => d
  | Err _ => empty_replay
  end.


End Scenario.

(** * Properties *)
Module IntegradorFacts.
Import Integrador.

Section Runs.
Context {DataFrame : Type}.
Implicit Types (w : World DataFrame) (self : Integrator) (n : nat).
Implicit Types (log : list (entry DataFrame)) (c : call DataFrame).

Ltac program_form :=
  cbn [bind mbind prog_bind mret prog_ret exec print ask_bool ask_json
       ask_frame ask_text negb].

(** ** The log of any program *)

Lemma steps_of_cons_call c en log :
  is_print c = false → steps_of ((c, en) :: log) = name_of c :: steps_of log.
Proof. intros Hc. unfold steps_of. cbn. rewrite Hc. reflexivity. Qed.

Lemma steps_of_single c en :
  is_print c = false → steps_of [(c, en)] = [name_of c].
Proof. intros Hc. rewrite steps_of_cons_call by done. reflexivity. Qed.

Lemma in_order_run {A} w (p : prog DataFrame A) names :
  in_order names p → ∀ n, steps_of (run w n p).2 `prefix_of` names.
Proof.
  induction 1 as [names a|names|names msg k _ IH|names c k Hc _ IH
                 |names c k Hc _ IH|names c k Hc _ IH|names c k Hc _ IH
                 |names c k Hc _ IH]; intros n; cbn [run];
    [apply prefix_nil|apply prefix_nil|apply IH|..];
    (destruct (raises w n c);
     [ cbn [snd]; rewrite steps_of_single by done;
       apply prefix_cons, prefix_nil
     | cbn [after snd]; rewrite steps_of_cons_call by done;
       apply prefix_cons, IH ]).
Qed.

Lemma winds_up_run {A} w (p : prog DataFrame A) :
  winds_up p → ∀ n, only_messages (run w n p).2 = true.
Proof.
  induction 1 as [a| |msg k _ IH]; intros n; cbn [run after snd]; try reflexivity.
  unfold only_messages in *. cbn. apply IH.
Qed.

Lemma gives_up_run {A} w (p : prog DataFrame A) :
  gives_up_on_falsy p → ∀ n, stops_at_failure (run w n p).2 = true.
Proof.
  induction 1 as [a| |msg k _ IH|c k _ IH|c k _ IH Hfalse|c k _ IH|c k _ IH|c k _ IH];
    intros n; cbn [run]; try reflexivity;
    try (destruct (raises w n c); [reflexivity|]);
    cbn [after snd stops_at_failure failed]; try apply IH.
  destruct (truth w n c); cbn [snd]; [apply IH|].
  by apply winds_up_run.
Qed.

Lemma tests_nothing_run {A} w (p : prog DataFrame A) :
  tests_nothing p → ∀ n e, e ∈ (run w n p).2 → e.2 ≠ ReturnedFalsy.
Proof.
  induction 1 as [a| |msg k _ IH|c k _ IH|c k _ IH|c k _ IH|c k _ IH];
    intros n e; cbn [run];
    try (destruct (raises w n c);
         [cbn [snd]; intros ->%list_elem_of_singleton; discriminate|]);
    cbn [after snd]; try (intros []%elem_of_nil);
    intros [->|Hin]%elem_of_cons; try discriminate; by eapply IH.
Qed.

Lemma only_messages_Forall log :
  only_messages log = true → Forall (λ x, is_print x.1 = true) log.
Proof.
  induction log as [|e log IH]; cbn; [constructor|].
  intros [He Hlog]%andb_prop. constructor; [done|by apply IH].
Qed.

(** What [stops_at_failure] checks: whatever follows a failed step is a
    console message. *)
Lemma stops_at_failure_spec log :
  stops_at_failure log = true →
  ∀ pre e post, log = pre ++ e :: post → e.2 ≠ Completed →
    Forall (λ x, is_print x.1 = true) post.
Proof.
  induction log as [|e0 log IH]; intros Hstop pre e post Hsplit Hfail.
  - by destruct pre.
  - cbn [stops_at_failure] in Hstop. destruct pre as [|e1 pre]; simplify_eq/=.
    + unfold failed in Hstop. apply only_messages_Forall.
      by destruct (e.2).
    + destruct (failed e1) eqn:He1.
      * apply only_messages_Forall in Hstop.
        apply Forall_app in Hstop as [_ Hstop]. by inversion Hstop.
      * by eapply IH.
Qed.

(** ** [process_replay] *)

Lemma process_replay_in_order w self replay_path result_id :
  in_order pipeline (process_replay w self replay_path result_id).
Proof.
  unfold process_replay.
  destruct (fs_exists w replay_path); program_form.
  - unfold pipeline, prepare_steps, decode_steps, analysis_steps,
      visualization_steps, closing_steps. cbn [app].
    repeat first
      [ apply in_order_say
      | apply in_order_ret
      | match goal with
        | |- in_order _ (Exec ?x _) =>
            apply (in_order_exec DataFrame) with (c := x); [reflexivity|]
        | |- in_order _ (AskJson ?x _) =>
            apply (in_order_json DataFrame) with (c := x); [reflexivity|];
            intros ?; program_form
        | |- in_order _ (AskFrame ?x _) =>
            apply (in_order_frame DataFrame) with (c := x); [reflexivity|];
            intros ?; program_form
        | |- in_order _ (AskBool ?x _) =>
            apply (in_order_bool DataFrame) with (c := x); [reflexivity|];
            intros []; program_form
        end ].
  - apply in_order_say, in_order_ret.
Qed.

Lemma process_replay_gives_up w self replay_path result_id :
  gives_up_on_falsy (process_replay w self replay_path result_id).
Proof.
  unfold process_replay.
  destruct (fs_exists w replay_path); program_form;
    repeat first
      [ apply gives_up_say
      | apply gives_up_ret
      | apply gives_up_exec
      | apply gives_up_json; intros ?; program_form
      | apply gives_up_frame; intros ?; program_form
      | apply gives_up_bool; program_form
      | apply winds_up_say
      | apply winds_up_ret ].
Qed.

Lemma process_replay_stops w self replay_path result_id n :
  stops_at_failure (run w n (process_replay w self replay_path result_id)).2 = true.
Proof. apply gives_up_run, process_replay_gives_up. Qed.

(** When the file exists, no call throws and [parse] answers truthy, the
    run goes through the whole sequence and returns the results dict. *)
Lemma process_replay_complete_run w self replay_path result_id n :
  fs_exists w replay_path = true →
  (∀ k c, raises w k c = false) →
  (∀ k, truth w k Parse = true) →
  let r := run w n (process_replay w self replay_path result_id) in
  let result_dir :=
    PyStr.path_join (results_dir self) (effective_id w replay_path result_id) in
  steps_of r.2 = pipeline
  ∧ ∃ results, r.1 = Returned (Some results)
      ∧ res_id results = effective_id w replay_path result_id
      ∧ res_replay_path results = replay_path
      ∧ res_result_dir results = result_dir
      ∧ res_visualizations results = visualization_paths result_dir.
Proof.
  intros Hexists Hquiet Hparsed. cbn zeta. unfold process_replay.
  rewrite Hexists. program_form. cbn [run]. rewrite !Hquiet, Hparsed.
  cbn [negb]. cbn [run]. rewrite !Hquiet.
  split; [reflexivity|]. eexists. split; [reflexivity|]. by cbn.
Qed.

(** C9. When the replay path does not exist, [process_replay] returns
    [None] and its whole log is the error message: no result directory
    is created, and nothing is parsed, analysed or drawn. *)
Theorem process_replay_missing_file w self replay_path result_id n :
  fs_exists w replay_path = false →
  run w n (process_replay w self replay_path result_id)
  = (Returned None,
     [(Print ("Erro: Arquivo " +:+ replay_path +:+ " não encontrado."), Completed)]).
Proof.
  intros Hmissing. unfold process_replay. rewrite Hmissing. reflexivity.
Qed.

(** C1. When decoding fails, that is when [parse()] is called and
    answers a falsy value, [process_replay] returns [None]; the log
    holds the preparation of the result directory, the construction of
    the parser, the failed [parse] and the failure message, and
    therefore no analysis step, no write of analysis results and no
    chart. *)
Theorem process_replay_failed_decode w self replay_path result_id n :
  let r := run w n (process_replay w self replay_path result_id) in
  let result_dir :=
    PyStr.path_join (results_dir self) (effective_id w replay_path result_id) in
  (Parse, ReturnedFalsy) ∈ r.2 →
  r.1 = Returned None
  ∧ r.2 = [ (MakeDirs result_dir, Completed);
            (SetOutputDir result_dir, Completed);
            (Print ("Analisando replay: " +:+ replay_path), Completed);
            (NewParser replay_path, Completed);
            (Parse, ReturnedFalsy);
            (Print "Falha ao analisar o replay.", Completed) ]
  ∧ Forall (λ e, is_analysis_step e.1 = false ∧ is_chart_step e.1 = false) r.2.
Proof.
  cbn zeta. unfold process_replay.
  destruct (fs_exists w replay_path); program_form; cbn [run].
  2: { cbn [after snd]. intros [=]%list_elem_of_singleton. }
  destruct (raises w n _);
    [cbn [snd]; intros [=]%list_elem_of_singleton|].
  destruct (raises w (S n) _);
    [cbn [after snd]; rewrite !elem_of_cons, elem_of_nil; intros H; exfalso;
     intuition discriminate|].
  destruct (raises w (S (S (S n))) _);
    [cbn [after snd]; rewrite !elem_of_cons, elem_of_nil; intros H; exfalso;
     intuition discriminate|].
  destruct (raises w (S (S (S (S n)))) _);
    [cbn [after snd]; rewrite !elem_of_cons, elem_of_nil; intros H; exfalso;
     intuition discriminate|].
  destruct (truth w (S (S (S (S n)))) _); cbn [negb].
  - cbn [after snd]. rewrite !elem_of_cons. intros Hin. exfalso.
    destruct Hin as [[=]|[[=]|[[=]|[[=]|[[=]|Hin]]]]].
    eapply tests_nothing_run in Hin; [by apply Hin|].
    repeat first
      [ apply tests_nothing_say | apply tests_nothing_ret
      | apply tests_nothing_exec
      | apply tests_nothing_json; intros ?
      | apply tests_nothing_frame; intros ? ].
  - intros _. cbn [run after fst snd]. split; [reflexivity|]. split; [reflexivity|].
    repeat constructor.
Qed.

(** A log without a thrown call is the log of the same program in the
    world where no call throws. *)
Lemma run_without_throw {A} w n (p : prog DataFrame A) :
  Forall (λ e, e.2 ≠ Threw) (run w n p).2 →
  run w n p = run (IntegradorCli.unthrowing w) n p.
Proof.
  revert n.
  induction p as [a| |msg k IH|c k IH|c k IH|c k IH|c k IH|c k IH];
    intros n; cbn [run]; try done;
    try (destruct (raises w n c);
         [by intros [[] _]%Forall_cons|]; cbn [IntegradorCli.unthrowing raises]);
    cbn [after snd]; intros [_ Hrest]%Forall_cons; by rewrite <-IH.
Qed.

(** C2. The steps of every run of [process_replay] are an initial
    part of one fixed sequence: preparation, then the decode block, then
    the analysis block, then the visualization block, then the reads for
    the returned dict. After a step that fails (a call that throws, or a
    [parse] that answers falsy) the log holds console messages only: no
    later step runs. And a run on a file that exists in which no step
    fails goes through the whole sequence, every block of it in that
    order, and returns the results dict. *)
Theorem process_replay_stage_order w self replay_path result_id n :
  let r := run w n (process_replay w self replay_path result_id) in
  let log := r.2 in
  steps_of log `prefix_of`
    prepare_steps ++ decode_steps ++ analysis_steps ++ visualization_steps
      ++ closing_steps
  ∧ (∀ pre e post, log = pre ++ e :: post → e.2 ≠ Completed →
      Forall (λ x, is_print x.1 = true) post)
  ∧ (fs_exists w replay_path = true → Forall (λ e, e.2 = Completed) log →
      steps_of log
      = prepare_steps ++ decode_steps ++ analysis_steps ++ visualization_steps
          ++ closing_steps
      ∧ ∃ results, r.1 = Returned (Some results)).
Proof.
  cbn zeta. split; [|split].
  - apply in_order_run, process_replay_in_order.
  - apply stops_at_failure_spec, process_replay_stops.
  - intros Hexists Hdone.
    assert (Forall (λ e : entry DataFrame, e.2 ≠ Threw)
              (run w n (process_replay w self replay_path result_id)).2) as Hquiet.
    { eapply Forall_impl; [exact Hdone|]. by intros e ->. }
    apply run_without_throw in Hquiet. rewrite Hquiet in Hdone |- *.
    revert Hdone. unfold process_replay. rewrite Hexists. program_form.
    cbn [run IntegradorCli.unthrowing raises truth].
    destruct (truth w (S (S (S (S n)))) Parse); cbn [negb].
    + intros _. split; [reflexivity|]. eexists. reflexivity.
    + cbn [run after fst snd]. intros Hdone. exfalso.
      do 4 apply Forall_cons in Hdone as [_ Hdone].
      by apply Forall_cons in Hdone as [[=] _].
Qed.

(** ** [get_result_summary] *)


End Runs.

(** *** The theorems at concrete worlds *)

Lemma process_replay_missing_file_witness :
  fs_exists empty_disk "match.replay" = false
  ∧ run empty_disk 0 (process_replay empty_disk demo_integrator "match.replay" None)
    = (Returned None,
       [(Print "Erro: Arquivo match.replay não encontrado.", Completed)]).
Proof.
  split; [reflexivity|].
  apply (process_replay_missing_file empty_disk demo_integrator "match.replay" None 0).
  reflexivity.
Defined.

Lemma process_replay_failed_decode_witness :
  let r := run (quiet_world false) 0
             (process_replay (quiet_world false) demo_integrator "up/match.replay" None) in
  (Parse, ReturnedFalsy) ∈ r.2 ∧ r.1 = Returned None.
Proof.
  cbn zeta.
  assert ((Parse, ReturnedFalsy) ∈
            (run (quiet_world false) 0
               (process_replay (quiet_world false) demo_integrator
                  "up/match.replay" None)).2) as Hin.
  { vm_compute. do 4 apply list_elem_of_further. apply list_elem_of_here. }
  split; [exact Hin|].
  exact (proj1 (process_replay_failed_decode (quiet_world false) demo_integrator
                  "up/match.replay" None 0 Hin)).
Defined.

Lemma process_replay_stage_order_witness :
  let failing := (run (quiet_world false) 0
                    (process_replay (quiet_world false) demo_integrator
                       "up/match.replay" None)).2 in
  let complete := run (quiet_world true) 0
                    (process_replay (quiet_world true) demo_integrator
                       "up/match.replay" None) in
  (steps_of failing `prefix_of` pipeline
   ∧ Forall (λ x, is_print x.1 = true)
       [(Print "Falha ao analisar o replay.", Completed) : entry unit])
  ∧ (fs_exists (quiet_world true) "up/match.replay" = true
     ∧ Forall (λ e, e.2 = Completed) complete.2
     ∧ steps_of complete.2 = pipeline
     ∧ ∃ results, complete.1 = Returned (Some results)).
Proof.
  cbn zeta. split.
  - destruct (process_replay_stage_order (quiet_world false) demo_integrator
                "up/match.replay" None 0) as (Horder & Hstop & _).
    split; [exact Horder|].
    apply (Hstop
      [ (MakeDirs "/app/data/results/match_20250101120000", Completed);
        (SetOutputDir "/app/data/results/match_20250101120000", Completed);
        (Print "Analisando replay: up/match.replay", Completed);
        (NewParser "up/match.replay", Completed) ]
      (Parse, ReturnedFalsy)).
    + vm_compute. reflexivity.
    + discriminate.
  - assert (Forall (λ e : entry unit, e.2 = Completed)
              (run (quiet_world true) 0
                 (process_replay (quiet_world true) demo_integrator
                    "up/match.replay" None)).2) as Hdone.
    { vm_compute. repeat constructor. }
    split; [reflexivity|]. split; [exact Hdone|].
    exact (proj2 (proj2 (process_replay_stage_order (quiet_world true)
                           demo_integrator "up/match.replay" None 0))
             eq_refl Hdone).
Defined.


End IntegradorFacts.
Module SetupFacts.
Import Setup.

Lemma written_scripts system :
  written system "analisar_replay.py" = Some (unlines analisar_replay_written)
  ∧ written system "analisar_video.py" = Some (unlines analisar_video_written)
  ∧ written system "iniciar_interface.py" = Some (unlines iniciar_interface_written).
Proof.
  unfold written, create_wrapper_scripts. cbn [fst].
  by destruct (Stdlib.Strings.String.eqb system "Windows").
Qed.

Lemma different_texts (a b : string) :
  Stdlib.Strings.String.eqb a b = false → a ≠ b.
Proof. intros Hneq. by apply Stdlib.Strings.String.eqb_neq. Qed.

(** C8, as stated, fails: none of the three texts that
    [create_wrapper_scripts] writes is the checked-in file of that
    name. *)
Lemma written_scripts_differ_from_shipped :
  written "Linux" "analisar_video.py" ≠ shipped "analisar_video.py"
  ∧ written "Linux" "analisar_replay.py" ≠ shipped "analisar_replay.py"
  ∧ written "Linux" "iniciar_interface.py" ≠ shipped "iniciar_interface.py".
Proof.
  repeat split; intros Heq; vm_compute in Heq; discriminate Heq.
Qed.

(** C8, amended. On every platform, the text written to
    [analisar_replay.py] and the one written to [iniciar_interface.py]
    are the checked-in files without their last character: the
    checked-in files end in one more line feed. *)
Theorem wrapper_scripts_against_shipped (system : string) :
  (∃ text, written system "analisar_replay.py" = Some text
           ∧ shipped "analisar_replay.py" = Some (text +:+ nl))
  ∧ (∃ text, written system "iniciar_interface.py" = Some text
             ∧ shipped "iniciar_interface.py" = Some (text +:+ nl)).
Proof.
  destruct (written_scripts system) as (Hreplay & _ & Hinterface).
  split.
  - eexists. split; [exact Hreplay|]. vm_compute. reflexivity.
  - eexists. split; [exact Hinterface|]. vm_compute. reflexivity.
Qed.

(** The text written to [analisar_video.py] is another script than the
    checked-in one, also up to a final line feed: the two share their
    first line and differ on the second. *)
Lemma video_script_rewritten (system : string) :
  ∃ text text', written system "analisar_video.py" = Some text
                ∧ shipped "analisar_video.py" = Some text'
                ∧ text ≠ text' ∧ text +:+ nl ≠ text'
                ∧ take 1 analisar_video_written = take 1 analisar_video_shipped
                ∧ analisar_video_written !! 1%nat ≠ analisar_video_shipped !! 1%nat.
Proof.
  destruct (written_scripts system) as (_ & Hvideo & _).
  eexists _, _. split; [exact Hvideo|]. split; [reflexivity|].
  split; [|split; [|split]].
  - apply different_texts. vm_compute. reflexivity.
  - apply different_texts. vm_compute. reflexivity.
  - reflexivity.
  - intros Heq. vm_compute in Heq. discriminate Heq.
Qed.

End SetupFacts.

Module PyStrFacts.
Import PyStr IntegradorCli.

Lemma occurs_append c (a b : string) :
  occurs c (a +:+ b) = (occurs c a || occurs c b)%bool.
Proof.
  unfold occurs. induction a as [|x a IH]; [done|].
  change (String x a +:+ b) with (String x (a +:+ b)).
  cbn [Stdlib.Strings.String.list_ascii_of_string existsb].
  rewrite <-orb_assoc. f_equal. apply IH.
Qed.

(** The characters of a [str], put together again, are the [str]. *)
Lemma characters_join (s : string) :
  foldr Stdlib.Strings.String.append "" (characters s) = s.
Proof.
  induction s as [|c rest IH]; [done|]. cbn [characters].
  destruct (characters rest) as [|next others].
  - cbn in IH. by rewrite <-IH.
  - cbn [foldr] in IH. destruct (starts_inside rest); cbn [foldr]; by rewrite <-IH.
Qed.

(** A letter with an accent is one character, of two bytes. *)
Lemma characters_accent : characters "não" = ["n"; "ã"; "o"].
Proof. reflexivity. Qed.

(** A name without separator is its own base name. *)
Lemma basename_plain (name : string) :
  occurs sep name = false → basename name = name.
Proof.
  destruct name as [|c rest]; [done|]. unfold occurs. cbn.
  intros [Hc Hrest]%orb_false_elim.
  rewrite Stdlib.Strings.Ascii.eqb_sym, Hc. by rewrite Hrest.
Qed.

(** The base name of [dir/name]. *)
Lemma basename_join (dir name : string) :
  occurs sep name = false → basename (dir +:+ "/" +:+ name) = name.
Proof.
  intros Hname. induction dir as [|c dir IH].
  - change ("" +:+ "/" +:+ name) with (String sep name).
    cbn [basename]. rewrite Stdlib.Strings.Ascii.eqb_refl.
    by apply basename_plain.
  - change (String c dir +:+ "/" +:+ name) with (String c (dir +:+ "/" +:+ name)).
    cbn [basename]. rewrite IH.
    destruct (Stdlib.Strings.Ascii.eqb c sep); [done|].
    fold (occurs sep (dir +:+ "/" +:+ name)).
    rewrite !occurs_append.
    replace (occurs sep "/") with true by reflexivity.
    by rewrite orb_true_r.
Qed.

(** Dropping [".replay"] leaves a stretch without full stop as it is. *)
Lemma remove_from_plain (stem rest : string) :
  occurs dot stem = false →
  remove_from ".replay" 0 (stem +:+ rest) = stem +:+ remove_from ".replay" 0 rest.
Proof.
  induction stem as [|c stem IH]; [done|]. unfold occurs.
  cbn [Stdlib.Strings.String.list_ascii_of_string existsb].
  intros [Hc Hstem]%orb_false_elim.
  change (String c stem +:+ rest) with (String c (stem +:+ rest)).
  cbn [remove_from].
  replace (Stdlib.Strings.String.prefix ".replay" (String c (stem +:+ rest))) with false.
  - change (String c stem +:+ ?x) with (String c (stem +:+ x)).
    f_equal. by apply IH.
  - cbn [Stdlib.Strings.String.prefix].
    destruct (Stdlib.Strings.Ascii.ascii_dec _ c) as [<-|]; [|done].
    by rewrite Stdlib.Strings.Ascii.eqb_refl in Hc.
Qed.

End PyStrFacts.

Module IntegradorCliFacts.
Import Integrador IntegradorCli.

Section Runs.
Context {DataFrame : Type}.
Implicit Types (w : World DataFrame) (self : Integrator) (n : nat).
Implicit Types (log : list (entry DataFrame)) (c : call DataFrame).

Ltac program_form :=
  cbn [bind mbind prog_bind mret prog_ret exec print ask_bool ask_json
       ask_frame ask_text negb].

(** ** Runs of any program *)

(** The run of [m] followed by [f]: the run of [m] and, when [m] returns,
    the run of [f] from where the log then stands. *)
Lemma run_bind {A B} w n (m : prog DataFrame A) (f : A → prog DataFrame B) :
  run w n (bind m f)
  = match run w n m with
    | (Returned a, log) =>
        ((run w (n + length log) (f a)).1, log ++ (run w (n + length log) (f a)).2)
    | (Raised, log) => (Raised, log)
    end.
Proof.
  revert n.
  induction m as [a| |msg k IH|c k IH|c k IH|c k IH|c k IH|c k IH];
    intros n; cbn [bind run].
  - rewrite Nat.add_0_r. by destruct (run w n (f a)).
  - reflexivity.
  - rewrite IH. destruct (run w (S n) k) as [[a|] log]; cbn [after fst snd length];
      [by rewrite Nat.add_succ_r|done].
  - destruct (raises w n c); [done|]. rewrite IH.
    destruct (run w (S n) k) as [[a|] log]; cbn [after fst snd length];
      [by rewrite Nat.add_succ_r|done].
  - destruct (raises w n c); [done|]. rewrite IH.
    destruct (run w (S n) (k _)) as [[a|] log]; cbn [after fst snd length];
      [by rewrite Nat.add_succ_r|done].
  - destruct (raises w n c); [done|]. rewrite IH.
    destruct (run w (S n) (k _)) as [[a|] log]; cbn [after fst snd length];
      [by rewrite Nat.add_succ_r|done].
  - destruct (raises w n c); [done|]. rewrite IH.
    destruct (run w (S n) (k _)) as [[a|] log]; cbn [after fst snd length];
      [by rewrite Nat.add_succ_r|done].
  - destruct (raises w n c); [done|]. rewrite IH.
    destruct (run w (S n) (k _)) as [[a|] log]; cbn [after fst snd length];
      [by rewrite Nat.add_succ_r|done].
Qed.

Lemma elem_of_dumped_to path doc en log :
  (DumpJson path doc, en) ∈ log → doc ∈ dumped_to path log.
Proof.
  intros Hin. unfold dumped_to. apply list_elem_of_omap.
  exists (DumpJson path doc, en). split; [done|].
  cbn. by rewrite Stdlib.Strings.String.eqb_refl.
Qed.

Lemma every_call_run {A} (P : call DataFrame → Prop) w (p : prog DataFrame A) :
  every_call P p → ∀ n, Forall (λ e, P e.1) (run w n p).2.
Proof.
  induction 1 as [a| |msg k Hc _ IH|c k Hc _ IH|c k Hc _ IH|c k Hc _ IH
                 |c k Hc _ IH|c k Hc _ IH]; intros n; cbn [run];
    try (destruct (raises w n c); [by repeat constructor|]);
    cbn [after snd]; try constructor; try done; apply IH.
Qed.

(** A run that returns met no exception: it is the run of the same
    program in the world where no call throws. *)
Lemma run_returned_unthrowing {A} w n (p : prog DataFrame A) a :
  (run w n p).1 = Returned a → run w n p = run (unthrowing w) n p.
Proof.
  revert n.
  induction p as [a'| |msg k IH|c k IH|c k IH|c k IH|c k IH|c k IH];
    intros n; cbn [run]; try done;
    try (destruct (raises w n c); [done|]; cbn [unthrowing raises]);
    cbn [after fst]; intros Hret; by rewrite <-IH.
Qed.

(** ** [process_replay] *)

(** The run of [process_replay] that returns a dict. *)
Lemma process_replay_returned w self replay_path result_id n results :
  (run w n (process_replay w self replay_path result_id)).1 = Returned (Some results) →
  fs_exists w replay_path = true
  ∧ truth w (4 + n) Parse = true
  ∧ run w n (process_replay w self replay_path result_id)
    = run (unthrowing w) n (process_replay w self replay_path result_id).
Proof.
  intros Hret. pose proof (run_returned_unthrowing _ _ _ _ Hret) as Hrun.
  split; [|split; [|done]].
  - revert Hret. unfold process_replay.
    by destruct (fs_exists w replay_path).
  - rewrite Hrun in Hret. revert Hret. unfold process_replay.
    destruct (fs_exists w replay_path); [|done]. program_form.
    cbn [run unthrowing raises truth plus].
    by destruct (truth w (S (S (S (S n)))) Parse).
Qed.

(** X1. When [process_replay] returns a dict, the replay file exists, the
    log holds the steps of the whole pipeline, in order, each of them
    completed, and the dict names the id in use, the replay path, the
    result directory under [results_dir] and the eight chart paths in
    it. *)
Theorem process_replay_returns_results w self replay_path result_id n results :
  let r := run w n (process_replay w self replay_path result_id) in
  r.1 = Returned (Some results) →
  fs_exists w replay_path = true
  ∧ steps_of r.2 = pipeline
  ∧ Forall (λ e, e.2 = Completed) r.2
  ∧ res_id results = effective_id w replay_path result_id
  ∧ res_replay_path results = replay_path
  ∧ res_result_dir results = PyStr.path_join (results_dir self) (res_id results)
  ∧ res_visualizations results = visualization_paths (res_result_dir results).
Proof.
  cbn zeta. intros Hret.
  destruct (process_replay_returned _ _ _ _ _ _ Hret) as (Hexists & Hparsed & Hrun).
  split; [done|]. rewrite Hrun in Hret |- *. clear Hrun. revert Hret.
  unfold process_replay. rewrite Hexists. program_form.
  cbn [run unthrowing raises truth json_reply frame_reply]. cbn [plus] in Hparsed.
  rewrite Hparsed. cbn [negb]. cbn [run unthrowing raises json_reply frame_reply].
  cbn [after fst snd]. intros [= <-]. cbn [res_id res_replay_path res_result_dir res_visualizations].
  split; [reflexivity|]. split; [|done].
  repeat (constructor; [reflexivity|]). constructor.
Qed.

Ltac found_in_log :=
  repeat first [apply list_elem_of_here | apply list_elem_of_further].

(** X2. [process_replay] returns [None] exactly when the replay file does
    not exist or [parse()] was called and answered a falsy value: any
    other failure leaves the function as an exception. *)
Theorem process_replay_returns_none_iff w self replay_path result_id n :
  let r := run w n (process_replay w self replay_path result_id) in
  r.1 = Returned None ↔
    fs_exists w replay_path = false ∨ (Parse, ReturnedFalsy) ∈ r.2.
Proof.
  cbn zeta. split.
  - intros Hret. pose proof (run_returned_unthrowing _ _ _ _ Hret) as Hrun.
    rewrite Hrun in Hret |- *. clear Hrun. revert Hret.
    unfold process_replay.
    destruct (fs_exists w replay_path); [|by left]. program_form.
    cbn [run unthrowing raises truth json_reply frame_reply].
    destruct (truth w (S (S (S (S n)))) Parse); cbn [negb].
    + cbn [run unthrowing raises json_reply frame_reply after fst]. done.
    + intros _. right. cbn [run after snd]. found_in_log.
  - intros [Hmissing|Hfalsy].
    { unfold process_replay. by rewrite Hmissing. }
    revert Hfalsy. unfold process_replay.
    destruct (fs_exists w replay_path); [|done]. program_form. cbn [run].
    destruct (raises w n _);
      [cbn [snd]; intros [=]%list_elem_of_singleton|].
    destruct (raises w (S n) _);
      [cbn [after snd]; rewrite !elem_of_cons, elem_of_nil; intros H; exfalso;
       intuition discriminate|].
    destruct (raises w (S (S (S n))) _);
      [cbn [after snd]; rewrite !elem_of_cons, elem_of_nil; intros H; exfalso;
       intuition discriminate|].
    destruct (raises w (S (S (S (S n)))) _);
      [cbn [after snd]; rewrite !elem_of_cons, elem_of_nil; intros H; exfalso;
       intuition discriminate|].
    destruct (truth w (S (S (S (S n)))) _); cbn [negb]; [|done].
    cbn [after snd]. rewrite !elem_of_cons. intros Hin. exfalso.
    destruct Hin as [[=]|[[=]|[[=]|[[=]|[[=]|Hin]]]]].
    eapply IntegradorFacts.tests_nothing_run in Hin; [by apply Hin|].
    repeat first
      [ apply tests_nothing_say | apply tests_nothing_ret
      | apply tests_nothing_exec
      | apply tests_nothing_json; intros ?
      | apply tests_nothing_frame; intros ? ].
Qed.

(** What a returned dict says about where the analysis went. *)
Lemma process_replay_stores_core w self replay_path result_id n results :
  let r := run w n (process_replay w self replay_path result_id) in
  r.1 = Returned (Some results) →
  (DumpJson (PyStr.path_join (res_result_dir results) "analysis_results.json")
     (JObj (<["analysis" := res_analysis results]>
           (<["overall_score" := res_overall_score results]>
           (<["findings" := res_findings results]>
           (<["recommendations" := res_recommendations results]> ∅))))),
   Completed) ∈ r.2
  ∧ res_result_dir results = PyStr.path_join (results_dir self) (res_id results)
  ∧ res_visualizations results = visualization_paths (res_result_dir results).
Proof.
  cbn zeta. intros Hret.
  destruct (process_replay_returned _ _ _ _ _ _ Hret) as (Hexists & Hparsed & Hrun).
  rewrite Hrun in Hret |- *. clear Hrun. revert Hret.
  unfold process_replay. rewrite Hexists. program_form.
  cbn [run unthrowing raises truth json_reply frame_reply]. cbn [plus] in Hparsed.
  rewrite Hparsed. cbn [negb]. cbn [run unthrowing raises json_reply frame_reply].
  cbn [after fst snd]. intros [= <-].
  cbn [res_result_dir res_analysis res_overall_score res_findings res_recommendations
       res_id res_visualizations].
  split; [found_in_log|done].
Qed.

(** X3. In a run of [process_replay] that returns a dict, the frames
    written to the two CSV files are the ones handed to the analyzer and
    drawn in the heat map and the ball trajectory, and the document
    written to [analysis_results.json] holds the analysis, overall
    score, findings and recommendations of the returned dict, the
    analysis being the one drawn in the radar chart. *)
Theorem process_replay_stores_what_it_returns w self replay_path result_id n results :
  let r := run w n (process_replay w self replay_path result_id) in
  let result_dir := res_result_dir results in
  r.1 = Returned (Some results) →
  ∃ player_df ball_df,
    (ExportToJson (PyStr.path_join result_dir "replay_data.json"), Completed) ∈ r.2
    ∧ (ToCsv player_df (PyStr.path_join result_dir "player_positions.csv"), Completed) ∈ r.2
    ∧ (ToCsv ball_df (PyStr.path_join result_dir "ball_positions.csv"), Completed) ∈ r.2
    ∧ (LoadDataframes player_df ball_df, Completed) ∈ r.2
    ∧ (CreateHeatmap player_df "heatmap.png", Completed) ∈ r.2
    ∧ (CreateBallTrajectory ball_df "ball_trajectory.png", Completed) ∈ r.2
    ∧ (DumpJson (PyStr.path_join result_dir "analysis_results.json")
         (JObj (<["analysis" := res_analysis results]>
               (<["overall_score" := res_overall_score results]>
               (<["findings" := res_findings results]>
               (<["recommendations" := res_recommendations results]> ∅))))),
       Completed) ∈ r.2
    ∧ (CreateAnalysisRadarChart (res_analysis results) "analysis_radar.png", Completed) ∈ r.2.
Proof.
  cbn zeta. intros Hret.
  destruct (process_replay_returned _ _ _ _ _ _ Hret) as (Hexists & Hparsed & Hrun).
  rewrite Hrun in Hret |- *. clear Hrun. revert Hret.
  unfold process_replay. rewrite Hexists. program_form.
  cbn [run unthrowing raises truth json_reply frame_reply]. cbn [plus] in Hparsed.
  rewrite Hparsed. cbn [negb]. cbn [run unthrowing raises json_reply frame_reply].
  cbn [after fst snd]. intros [= <-].
  cbn [res_result_dir res_analysis res_overall_score res_findings res_recommendations].
  eexists _, _. repeat split; found_in_log.
Qed.

(** ** [get_result_summary] *)

(** The run of [get_result_summary] when the directory and the two files
    exist and each file loads as an object. *)
Lemma get_result_summary_loaded w self result_id n
    (analysis_data replay_data : gmap string json) :
  let result_dir := PyStr.path_join (results_dir self) result_id in
  let analysis_path := PyStr.path_join result_dir "analysis_results.json" in
  let replay_data_path := PyStr.path_join result_dir "replay_data.json" in
  fs_exists w result_dir = true →
  fs_exists w analysis_path = true →
  fs_exists w replay_data_path = true →
  raises w n (LoadJson analysis_path) = false →
  json_reply w n (LoadJson analysis_path) = JObj analysis_data →
  raises w (S n) (LoadJson replay_data_path) = false →
  json_reply w (S n) (LoadJson replay_data_path) = JObj replay_data →
  run w n (get_result_summary w self result_id)
  = (Returned (Some
       {| sum_id := result_id;
          sum_metadata := default (JObj ∅) (replay_data !! "metadata");
          sum_players := default (JArr []) (replay_data !! "players");
          sum_events := default (JArr []) (replay_data !! "events");
          sum_overall_score := default (JObj ∅) (analysis_data !! "overall_score");
          sum_findings := default (JArr []) (analysis_data !! "findings");
          sum_recommendations := default (JObj ∅) (analysis_data !! "recommendations");
          sum_visualizations := visualization_paths result_dir |}),
     [ (LoadJson analysis_path, Completed); (LoadJson replay_data_path, Completed) ]).
Proof.
  cbn zeta. intros Hdir Hanalysis Hreplay Hr1 Hj1 Hr2 Hj2.
  unfold get_result_summary. rewrite Hdir, Hanalysis. cbn [negb]. program_form.
  cbn [run]. rewrite Hr1, Hj1, Hreplay. cbn [negb]. program_form.
  cbn [run]. rewrite Hr2, Hj2. reflexivity.
Qed.

(** X4. What [process_replay] stored, [get_result_summary] gives back:
    if a run returned a dict and, later, its result directory and two
    files exist, [analysis_results.json] loads as the document the run
    dumped and [replay_data.json] loads as an object, then
    [get_result_summary] on the dict's id returns a summary with the
    same id, overall score, findings, recommendations and chart
    paths. *)
Theorem summary_after_process_replay w w' self replay_path result_id n n' results
    (replay_data : gmap string json) :
  let r := run w n (process_replay w self replay_path result_id) in
  let result_dir := res_result_dir results in
  let analysis_path := PyStr.path_join result_dir "analysis_results.json" in
  let replay_data_path := PyStr.path_join result_dir "replay_data.json" in
  r.1 = Returned (Some results) →
  fs_exists w' result_dir = true →
  fs_exists w' analysis_path = true →
  fs_exists w' replay_data_path = true →
  raises w' n' (LoadJson analysis_path) = false →
  (∀ doc, (DumpJson analysis_path doc, Completed) ∈ r.2 →
          json_reply w' n' (LoadJson analysis_path) = doc) →
  raises w' (S n') (LoadJson replay_data_path) = false →
  json_reply w' (S n') (LoadJson replay_data_path) = JObj replay_data →
  ∃ summary,
    (run w' n' (get_result_summary w' self (res_id results))).1 = Returned (Some summary)
    ∧ sum_id summary = res_id results
    ∧ sum_overall_score summary = res_overall_score results
    ∧ sum_findings summary = res_findings results
    ∧ sum_recommendations summary = res_recommendations results
    ∧ sum_visualizations summary = res_visualizations results.
Proof.
  cbn zeta. intros Hret Hdir Hanalysis Hreplay Hr1 Hstored Hr2 Hj2.
  destruct (process_replay_stores_core _ _ _ _ _ _ Hret)
    as (Hdump & Hresult_dir & Hcharts).
  apply Hstored in Hdump. rewrite Hresult_dir in *.
  eexists. split.
  { erewrite get_result_summary_loaded by done. reflexivity. }
  cbn [sum_id sum_overall_score sum_findings sum_recommendations sum_visualizations].
  split; [done|].
  rewrite lookup_insert_ne, lookup_insert_eq by done.
  rewrite !lookup_insert_ne, lookup_insert_eq by done.
  rewrite !lookup_insert_ne, lookup_insert_eq by done.
  by rewrite Hcharts.
Qed.

(** ** Where [process_replay] writes *)

(** X5. With no result id, or an empty one, the id of a replay file
    [stem.replay], alone or in a directory, whose stem holds neither
    separator nor full stop, is the stem, an underscore and the time
    stamp. *)
Theorem generated_id_of_replay_file w (dir stem : string) result_id :
  truthy result_id = false →
  occurs PyStr.sep stem = false →
  occurs dot stem = false →
  effective_id w (dir +:+ "/" +:+ stem +:+ ".replay") result_id
    = stem +:+ "_" +:+ clock w
  ∧ effective_id w (stem +:+ ".replay") result_id = stem +:+ "_" +:+ clock w.
Proof.
  intros Hid Hsep Hdot. unfold effective_id, generated_id. rewrite Hid.
  assert (occurs PyStr.sep (stem +:+ ".replay") = false) as Hname.
  { rewrite PyStrFacts.occurs_append, Hsep. reflexivity. }
  rewrite PyStrFacts.basename_join, PyStrFacts.basename_plain by done.
  unfold PyStr.remove_all. rewrite PyStrFacts.remove_from_plain by done.
  replace (PyStr.remove_from ".replay" 0 ".replay") with "" by reflexivity.
  assert (stem +:+ "" = stem) as ->; [|done].
  clear. induction stem as [|c stem IH]; [done|].
  change (String c stem +:+ "") with (String c (stem +:+ "")). by rewrite IH.
Qed.

Lemma run_two_steps {A} w n c1 c2 (k : prog DataFrame A) pre e post :
  (run w n (Exec c1 (Exec c2 k))).2 = pre ++ e :: post →
  e.1 ≠ c1 → e.1 ≠ c2 →
  (c1, Completed) ∈ pre ∧ (c2, Completed) ∈ pre.
Proof.
  cbn [run]. destruct (raises w n c1); cbn [after snd].
  { intros Heq Hc1 _. destruct pre as [|? [|]]; simplify_eq/=. }
  destruct (raises w (S n) c2); cbn [after snd]; intros Heq Hc1 Hc2.
  - destruct pre as [|? [|? [|]]]; simplify_eq/=.
  - destruct pre as [|? [|? pre]]; simplify_eq/=.
    split; found_in_log.
Qed.

Lemma process_replay_prepared w self replay_path result_id n pre e post :
  let result_dir :=
    PyStr.path_join (results_dir self) (effective_id w replay_path result_id) in
  (run w n (process_replay w self replay_path result_id)).2 = pre ++ e :: post →
  is_print e.1 = false →
  e.1 ≠ MakeDirs result_dir → e.1 ≠ SetOutputDir result_dir →
  (MakeDirs result_dir, Completed) ∈ pre ∧ (SetOutputDir result_dir, Completed) ∈ pre.
Proof.
  cbn zeta. unfold process_replay.
  destruct (fs_exists w replay_path); cbn [negb]; program_form.
  - intros Hlog _. revert Hlog. apply run_two_steps.
  - cbn [run after snd]. intros Heq Hprint. destruct pre as [|? [|]]; simplify_eq/=.
Qed.

Lemma process_replay_placed w self replay_path result_id :
  every_call
    (placed (PyStr.path_join (results_dir self) (effective_id w replay_path result_id)))
    (process_replay w self replay_path result_id).
Proof.
  unfold process_replay.
  destruct (fs_exists w replay_path); cbn [negb]; program_form;
    repeat first
      [ apply every_call_ret
      | apply every_call_say; [by split; intros ? [=]|]
      | apply every_call_exec;
          [split; intros ? [= <-]; unfold output_files, chart_files; cbn [map];
           found_in_log|]
      | apply every_call_json; [by split; intros ? [=]|intros ?; program_form]
      | apply every_call_frame; [by split; intros ? [=]|intros ?; program_form]
      | apply every_call_bool; [by split; intros ? [=]|intros []; program_form] ].
Qed.

(** X6. In every run of [process_replay], a path handed to
    [export_to_json], [to_csv] or [json.dump] is one of the four output
    files in the result directory, and the call comes after
    [os.makedirs] made that directory; a chart is asked for under one
    of the eight chart names, after the visualizer was pointed to the
    result directory. *)
Theorem process_replay_writes_in_result_dir w self replay_path result_id n pre e post :
  let log := (run w n (process_replay w self replay_path result_id)).2 in
  let result_dir :=
    PyStr.path_join (results_dir self) (effective_id w replay_path result_id) in
  log = pre ++ e :: post →
  (∀ path, written_path e.1 = Some path →
     path ∈ map (PyStr.path_join result_dir) output_files
     ∧ (MakeDirs result_dir, Completed) ∈ pre)
  ∧ (∀ name, saved_as e.1 = Some name →
     name ∈ chart_files ∧ (SetOutputDir result_dir, Completed) ∈ pre).
Proof.
  cbn zeta. intros Hlog.
  pose proof (every_call_run _ w _ (process_replay_placed w self replay_path result_id) n)
    as Hplaced.
  rewrite Hlog in Hplaced. apply Forall_app in Hplaced as [_ Hplaced].
  apply Forall_cons in Hplaced as [[Hfile Hchart] _].
  split.
  - intros path Hpath. split; [by apply Hfile|].
    eapply process_replay_prepared; [done|..]; by destruct (e.1).
  - intros name Hname. split; [by apply Hchart|].
    eapply process_replay_prepared; [done|..]; by destruct (e.1).
Qed.

(** ** [create_and_process_demo_replay] *)

(** X7. Whatever the clock and the path of the sample, a run of
    [create_and_process_demo_replay] writes its files into
    [results_dir/demo_replay], after the sample replay was created in
    the uploads directory and the result directory made. *)
Theorem demo_replay_writes_in_demo_directory w self n pre e post :
  let log := (run w n (create_and_process_demo_replay w self)).2 in
  let result_dir := PyStr.path_join (results_dir self) "demo_replay" in
  log = pre ++ e :: post →
  (∀ path, written_path e.1 = Some path →
     path ∈ map (PyStr.path_join result_dir) output_files
     ∧ (CreateSampleReplay (uploads_dir self), Completed) ∈ pre
     ∧ (MakeDirs result_dir, Completed) ∈ pre)
  ∧ (∀ name, saved_as e.1 = Some name →
     name ∈ chart_files ∧ (SetOutputDir result_dir, Completed) ∈ pre).
Proof.
  cbn zeta. unfold create_and_process_demo_replay. program_form. cbn [run].
  destruct (raises w n _); cbn [after snd].
  { intros Heq. destruct pre as [|? [|]]; simplify_eq/=. by split. }
  set (sample := text_reply w n _). intros Hlog.
  destruct pre as [|first pre]; [by injection Hlog as <- _|].
  injection Hlog as <- Hlog.
  pose proof (every_call_run _ w _
                (process_replay_placed w self sample (Some "demo_replay")) (S n))
    as Hplaced.
  rewrite Hlog in Hplaced. apply Forall_app in Hplaced as [_ Hplaced].
  apply Forall_cons in Hplaced as [[Hfile Hchart] _].
  change (effective_id w sample (Some "demo_replay")) with "demo_replay" in *.
  split.
  - intros path Hpath. split; [by apply Hfile|]. split; [found_in_log|].
    apply list_elem_of_further.
    eapply (process_replay_prepared w self sample (Some "demo_replay"));
      [done|..]; by destruct (e.1).
  - intros name Hname. split; [by apply Hchart|].
    apply list_elem_of_further.
    eapply (process_replay_prepared w self sample (Some "demo_replay"));
      [done|..]; by destruct (e.1).
Qed.

(** ** More on [get_result_summary] *)

Lemma get_result_summary_reads w self result_id :
  every_call (reads_from (PyStr.path_join (results_dir self) result_id))
    (get_result_summary w self result_id).
Proof.
  unfold get_result_summary.
  destruct (fs_exists w _); cbn [negb]; program_form;
    [|by repeat constructor].
  destruct (fs_exists w _); cbn [negb]; program_form;
    [|by repeat constructor].
  apply every_call_json; [by left|]. intros analysis_data. program_form.
  destruct (fs_exists w _); cbn [negb]; program_form;
    [|by repeat constructor].
  apply every_call_json; [by right|]. intros replay_data. program_form.
  destruct replay_data, analysis_data; cbn [dict_get bind]; constructor.
Qed.

(** X8. [get_result_summary] only reads: its log holds at most two
    entries, each a console message or a [json.load] of one of the two
    files of the result directory. *)
Theorem get_result_summary_only_reads w self result_id n :
  let log := (run w n (get_result_summary w self result_id)).2 in
  Forall (λ e, reads_from (PyStr.path_join (results_dir self) result_id) e.1) log
  ∧ length log ≤ 2.
Proof.
  cbn zeta. split; [apply every_call_run, get_result_summary_reads|].
  unfold get_result_summary.
  destruct (fs_exists w _); cbn [negb]; program_form; [|cbn; lia].
  destruct (fs_exists w _); cbn [negb]; program_form; [|cbn; lia].
  cbn [run]. destruct (raises w n _); [cbn; lia|].
  destruct (fs_exists w _); cbn [negb]; program_form; [|cbn; lia].
  cbn [run]. destruct (raises w (S n) _); [cbn; lia|].
  cbn [after snd length].
  destruct (json_reply w (S n) _), (json_reply w n _); cbn; lia.
Qed.

(** X9. [get_result_summary] raises exactly when the result directory
    and [analysis_results.json] exist and either that file fails to
    load, or [replay_data.json] exists too and fails to load or one of
    the two documents is not an object. *)
Theorem get_result_summary_raises w self result_id n :
  let result_dir := PyStr.path_join (results_dir self) result_id in
  let analysis_path := PyStr.path_join result_dir "analysis_results.json" in
  let replay_data_path := PyStr.path_join result_dir "replay_data.json" in
  (run w n (get_result_summary w self result_id)).1 = Raised ↔
    fs_exists w result_dir = true
    ∧ fs_exists w analysis_path = true
    ∧ (raises w n (LoadJson analysis_path) = true
       ∨ fs_exists w replay_data_path = true
         ∧ (raises w (S n) (LoadJson replay_data_path) = true
            ∨ is_object (json_reply w (S n) (LoadJson replay_data_path)) = false
            ∨ is_object (json_reply w n (LoadJson analysis_path)) = false)).
Proof.
  cbn zeta. unfold get_result_summary.
  destruct (fs_exists w _); cbn [negb]; program_form; [|cbn [fst is_object]; intuition discriminate].
  destruct (fs_exists w _); cbn [negb]; program_form; [|cbn [fst is_object]; intuition discriminate].
  cbn [run]. destruct (raises w n _); [cbn [fst is_object]; intuition discriminate|].
  destruct (fs_exists w _); cbn [negb]; program_form; [|cbn [fst is_object]; intuition discriminate].
  cbn [run]. destruct (raises w (S n) _); [cbn [fst is_object]; intuition discriminate|].
  cbn [after fst].
  destruct (json_reply w (S n) _), (json_reply w n _); cbn [fst is_object]; intuition discriminate.
Qed.

(** ** [__init__] *)

(** X10. [__init__] makes the uploads, results and visualizations
    directories, in this order, before it builds the analyzer and then
    the visualizer; when it returns, the three directories lie in the
    data directory, which is the argument if that is a non-empty string
    and [base_dir/data] otherwise, and the visualizer was given the
    visualizations directory. *)
Theorem init_creates_layout w n base data_dir_arg :
  let data := if truthy data_dir_arg then default "" data_dir_arg
              else PyStr.path_join base "data" in
  let uploads := PyStr.path_join data "uploads" in
  let results := PyStr.path_join data "results" in
  let visualizations := PyStr.path_join data "visualizations" in
  let r := run w n (init base data_dir_arg) in
  steps_of r.2 `prefix_of`
    [ "os.makedirs"; "os.makedirs"; "os.makedirs"; "RocketLeagueAnalyzer";
      "RocketLeagueVisualizer" ]
  ∧ ∀ self, r.1 = Returned self →
      self = {| base_dir := base; data_dir := data; uploads_dir := uploads;
                results_dir := results; visualizations_dir := visualizations |}
      ∧ r.2 = [ (MakeDirs uploads, Completed); (MakeDirs results, Completed);
                (MakeDirs visualizations, Completed); (NewAnalyzer, Completed);
                (NewVisualizer visualizations, Completed) ].
Proof.
  cbn zeta. unfold init. program_form. cbn [run].
  destruct (raises w n _); [by split; [apply prefix_cons, prefix_nil|]|].
  destruct (raises w (S n) _);
    [by split; [do 2 apply prefix_cons; apply prefix_nil|]|].
  destruct (raises w (S (S n)) _);
    [by split; [do 3 apply prefix_cons; apply prefix_nil|]|].
  destruct (raises w (S (S (S n))) _);
    [by split; [do 4 apply prefix_cons; apply prefix_nil|]|].
  destruct (raises w (S (S (S (S n)))) _);
    [by split; [do 5 apply prefix_cons; apply prefix_nil|]|].
  split; [done|]. by intros self [= <-].
Qed.

End Runs.

Section Main.
Context {DataFrame : Type}.
Context (repr : json → string) (items : gmap string json → list (string * json)).
Context (help_text : string).
Implicit Types (w : World DataFrame) (self : Integrator) (n : nat).

Ltac program_form :=
  cbn [bind mbind prog_bind mret prog_ret exec print ask_bool ask_json
       ask_frame ask_text negb].

#[local] Abbreviation main := (main repr items help_text).
#[local] Abbreviation report := (report repr items).
#[local] Abbreviation format := (format repr).

(** ** [main] *)

Lemma run_for_each_print {X} w n (xs : list X) (body : X → prog DataFrame unit)
    (line : X → string) :
  (∀ x, body x = print (line x)) →
  run w n (for_each xs body)
  = (Returned tt, map (λ x, (Print (line x), Completed)) xs).
Proof.
  intros Hbody. revert n. induction xs as [|x xs IH]; intros n; [done|].
  cbn [for_each]. rewrite Hbody. program_form. cbn [run].
  by rewrite IH.
Qed.

(** X11. Called without [--demo] and without a non-empty [--replay],
    [main] still builds the integrator, which makes the three data
    directories and builds analyzer and visualizer, and then prints the
    help text and returns. *)
Theorem main_without_replay w base args n :
  let data := if truthy (arg_data_dir args) then default "" (arg_data_dir args)
              else PyStr.path_join base "data" in
  arg_demo args = false →
  truthy (arg_replay args) = false →
  (∀ k c, raises w k c = false) →
  run w n (main w base args)
  = (Returned tt,
     [ (MakeDirs (PyStr.path_join data "uploads"), Completed);
       (MakeDirs (PyStr.path_join data "results"), Completed);
       (MakeDirs (PyStr.path_join data "visualizations"), Completed);
       (NewAnalyzer, Completed);
       (NewVisualizer (PyStr.path_join data "visualizations"), Completed);
       (Print help_text, Completed) ]).
Proof.
  cbn zeta. intros Hdemo Hreplay Hquiet. unfold IntegradorCli.main, init.
  program_form. rewrite Hdemo, Hreplay. cbn [run]. by rewrite !Hquiet.
Qed.

(** X12. When [process_replay] returns [None], [main] prints no summary
    and returns normally: its log is that of the construction of the
    integrator followed by that of [process_replay]. *)
Theorem main_returns_normally_on_failure w base args n self log1 log2 path :
  arg_demo args = false →
  arg_replay args = Some path →
  path ≠ "" →
  run w n (init base (arg_data_dir args)) = (Returned self, log1) →
  run w (n + length log1) (process_replay w self path (arg_result_id args))
    = (Returned None, log2) →
  run w n (main w base args) = (Returned tt, log1 ++ log2).
Proof.
  intros Hdemo Hreplay Hpath Hinit Hprocess. unfold IntegradorCli.main.
  unfold mbind, prog_bind. rewrite run_bind, Hinit, Hdemo, Hreplay.
  assert (truthy (Some path) = true) as ->.
  { cbn. by destruct (Stdlib.Strings.String.eqb_spec path ""). }
  cbn [default id]. rewrite run_bind, Hprocess. cbn [report_if fst snd].
  by rewrite app_nil_r.
Qed.

(** ** The summary [main] prints *)

(** The lines of the summary, given what the lookups of [report] find. *)
Lemma report_run w n results (metadata : gmap string json) (players events : nat)
    (overall category_scores : json) (scores : list (string * json))
    (findings : list json) :
  res_metadata results = JObj metadata →
  len (res_players results) = Some players →
  len (res_events results) = Some events →
  subscript (res_overall_score results) "overall_score" = Some overall →
  subscript (res_overall_score results) "category_scores" = Some category_scores →
  dict_items items category_scores = Some scores →
  first_five (res_findings results) = Some findings →
  run w n (report results)
  = (Returned tt,
     map (λ line, (Print line, Completed))
       ([ Setup.nl +:+ "Resumo dos Resultados:";
          "ID: " +:+ res_id results;
          "Mapa: " +:+ format (default (JStr "Desconhecido") (metadata !! "map_name"));
          "Tipo de Partida: "
            +:+ format (default (JStr "Desconhecido") (metadata !! "match_type"));
          "Duração: " +:+ format (default (JInt 0) (metadata !! "duration"))
            +:+ " segundos";
          "Jogadores: " +:+ pretty players;
          "Eventos: " +:+ pretty events;
          "Pontuação Geral: " +:+ format overall +:+ "/100";
          Setup.nl +:+ "Pontuações por Categoria:" ]
        ++ map (λ '(category, score),
                  "  " +:+ category +:+ ": " +:+ format score +:+ "/100") scores
        ++ [ Setup.nl +:+ "Principais Insights:" ]
        ++ map (λ finding, "- " +:+ format finding) findings
        ++ [ Setup.nl +:+ "Visualizações geradas:" ]
        ++ map (λ '(name, path), "- " +:+ name +:+ ": " +:+ path)
             (res_visualizations results))).
Proof.
  intros Hmetadata Hplayers Hevents Hoverall Hcategories Hscores Hfindings.
  unfold IntegradorCli.report.
  rewrite Hmetadata, Hplayers, Hevents, Hoverall, Hcategories, Hfindings.
  cbn [dict_get defined]. program_form. rewrite Hscores.
  cbn [defined]. program_form. cbn [run].
  unfold mbind, prog_bind.
  rewrite run_bind,
    (run_for_each_print _ _ _ _
       (λ '(category, score), "  " +:+ category +:+ ": " +:+ format score +:+ "/100"))
    by (by intros []).
  cbn [fst snd run]. rewrite run_bind,
    (run_for_each_print _ _ _ _ (λ finding, "- " +:+ format finding)) by done.
  cbn [fst snd run].
  rewrite (run_for_each_print _ _ _ _ (λ '(name, path), "- " +:+ name +:+ ": " +:+ path))
    by (by intros []).
  unfold after. cbn [fst snd]. f_equal.
  rewrite !map_app, !map_map. reflexivity.
Qed.

(** X13. For a result whose metadata is a dict, whose players, events
    and findings are lists and whose overall score is a dict with an
    overall score and a dict of category scores, [main] prints, in this
    order, the head lines, a line per category, at most the first five
    findings and a line per chart path. *)
Theorem report_summary_lines w n results (metadata scores categories : gmap string json)
    (players events findings : list json) (overall : json) :
  res_metadata results = JObj metadata →
  res_players results = JArr players →
  res_events results = JArr events →
  res_overall_score results = JObj scores →
  scores !! "overall_score" = Some overall →
  scores !! "category_scores" = Some (JObj categories) →
  res_findings results = JArr findings →
  run w n (report results)
  = (Returned tt,
     map (λ line, (Print line, Completed))
       ([ Setup.nl +:+ "Resumo dos Resultados:";
          "ID: " +:+ res_id results;
          "Mapa: " +:+ format (default (JStr "Desconhecido") (metadata !! "map_name"));
          "Tipo de Partida: "
            +:+ format (default (JStr "Desconhecido") (metadata !! "match_type"));
          "Duração: " +:+ format (default (JInt 0) (metadata !! "duration"))
            +:+ " segundos";
          "Jogadores: " +:+ pretty (length players);
          "Eventos: " +:+ pretty (length events);
          "Pontuação Geral: " +:+ format overall +:+ "/100";
          Setup.nl +:+ "Pontuações por Categoria:" ]
        ++ map (λ '(category, score),
                  "  " +:+ category +:+ ": " +:+ format score +:+ "/100")
             (items categories)
        ++ [ Setup.nl +:+ "Principais Insights:" ]
        ++ map (λ finding, "- " +:+ format finding) (take 5 findings)
        ++ [ Setup.nl +:+ "Visualizações geradas:" ]
        ++ map (λ '(name, path), "- " +:+ name +:+ ": " +:+ path)
             (res_visualizations results))).
Proof.
  intros Hmetadata Hplayers Hevents Hscores Hoverall Hcategories Hfindings.
  apply report_run with (category_scores := JObj categories);
    rewrite ?Hplayers, ?Hevents, ?Hscores, ?Hfindings; done.
Qed.

Lemma len_sized v : is_Some (len v) ↔ sized v = true.
Proof. destruct v; cbn; split; (done || by inversion 1 || by eexists). Qed.

Lemma first_five_sliceable v : is_Some (first_five v) ↔ sliceable v = true.
Proof. destruct v; cbn; split; (done || by inversion 1 || by eexists). Qed.

(** X14. The summary is printed to its end exactly when the metadata is
    a dict, players and events have a length, the overall score is a
    dict with the keys [overall_score] and [category_scores], the
    latter a dict, and the findings can be sliced; otherwise [main]
    ends with an exception. *)
Theorem report_completes_iff w n results :
  (run w n (report results)).1 = Returned tt ↔
    is_object (res_metadata results) = true
    ∧ sized (res_players results) = true
    ∧ sized (res_events results) = true
    ∧ (∃ scores overall categories,
         res_overall_score results = JObj scores
         ∧ scores !! "overall_score" = Some overall
         ∧ scores !! "category_scores" = Some (JObj categories))
    ∧ sliceable (res_findings results) = true.
Proof.
  split.
  - unfold IntegradorCli.report.
    destruct (res_metadata results) as [| | | | | |metadata]; try done.
    destruct (len (res_players results)) as [players|] eqn:Hplayers; [|done].
    destruct (len (res_events results)) as [events|] eqn:Hevents; [|done].
    destruct (res_overall_score results) as [| | | | | |scores]; try done.
    cbn [subscript].
    destruct (scores !! "overall_score") as [overall|] eqn:Hoverall; [|done].
    destruct (scores !! "category_scores") as [[| | | | | |categories]|] eqn:Hcategories;
      try done.
    destruct (first_five (res_findings results)) as [findings|] eqn:Hfindings.
    + intros _. split; [done|].
      split; [by apply len_sized|]. split; [by apply len_sized|].
      split; [by eexists _, _, _|]. by apply first_five_sliceable.
    + cbn [dict_get defined dict_items]. program_form.
      cbn [dict_get defined dict_items]. program_form. cbn [run after fst].
      unfold mbind, prog_bind. rewrite run_bind,
        (run_for_each_print _ _ _ _
           (λ '(category, score), "  " +:+ category +:+ ": " +:+ format score +:+ "/100"))
        by (by intros []).
      done.
  - intros (Hmetadata & Hplayers%len_sized & Hevents%len_sized
            & (scores & overall & categories & Hscores & Hoverall & Hcategories)
            & Hfindings%first_five_sliceable).
    destruct (res_metadata results) as [| | | | | |metadata] eqn:Hm; try done.
    destruct Hplayers as [players Hplayers], Hevents as [events Hevents],
      Hfindings as [findings Hfindings].
    erewrite report_run; [done|done|done|done|..].
    + by rewrite Hscores.
    + by rewrite Hscores.
    + done.
    + done.
Qed.

End Main.
(** *** The theorems at concrete worlds *)

Lemma process_replay_returns_results_witness :
  steps_of (run analyzed_world 0
              (process_replay analyzed_world demo_integrator "up/match.replay"
                 (Some "match1"))).2 = pipeline.
Proof.
  refine (proj1 (proj2 (process_replay_returns_results analyzed_world demo_integrator
                          "up/match.replay" (Some "match1") 0 example_results _))).
  vm_compute. reflexivity.
Defined.

Lemma process_replay_stores_what_it_returns_witness :
  ∃ player_df ball_df : unit,
    (LoadDataframes player_df ball_df, Completed : ending)
      ∈ (run analyzed_world 0
           (process_replay analyzed_world demo_integrator "up/match.replay"
              (Some "match1"))).2.
Proof.
  destruct (process_replay_stores_what_it_returns analyzed_world demo_integrator
              "up/match.replay" (Some "match1") 0 example_results)
    as (player_df & ball_df & _ & _ & _ & Hloaded & _).
  - vm_compute. reflexivity.
  - by exists player_df, ball_df.
Defined.

Lemma summary_after_process_replay_witness :
  ∃ summary,
    (run analyzed_world 0
       (get_result_summary analyzed_world demo_integrator "match1")).1
      = Returned (Some summary)
    ∧ sum_overall_score summary = example_scores
    ∧ sum_findings summary = example_findings.
Proof.
  destruct (summary_after_process_replay analyzed_world analyzed_world demo_integrator
              "up/match.replay" (Some "match1") 0 0 example_results stored_replay)
    as (summary & Hrun & _ & Hscores & Hfindings & _).
  - vm_compute. reflexivity.
  - reflexivity.
  - reflexivity.
  - reflexivity.
  - reflexivity.
  - intros doc Hdoc%elem_of_dumped_to. vm_compute in Hdoc.
    apply list_elem_of_singleton in Hdoc as ->. vm_compute. reflexivity.
  - reflexivity.
  - reflexivity.
  - by exists summary.
Defined.

Lemma generated_id_of_replay_file_witness :
  effective_id analyzed_world "uploads/final.replay" None = "final_20250101120000".
Proof.
  apply (generated_id_of_replay_file analyzed_world "uploads" "final" None);
    reflexivity.
Defined.

Lemma process_replay_writes_in_result_dir_witness :
  "/app/data/results/match1/replay_data.json"
    ∈ map (PyStr.path_join "/app/data/results/match1") output_files
  ∧ (MakeDirs "/app/data/results/match1", Completed : ending)
      ∈ [ (MakeDirs "/app/data/results/match1", Completed);
          (SetOutputDir "/app/data/results/match1", Completed);
          (Print "Analisando replay: up/match.replay", Completed);
          (NewParser "up/match.replay", Completed);
          (Parse, Completed) : entry unit ].
Proof.
  refine (proj1 (process_replay_writes_in_result_dir analyzed_world demo_integrator
                   "up/match.replay" (Some "match1") 0
                   [ (MakeDirs "/app/data/results/match1", Completed);
                     (SetOutputDir "/app/data/results/match1", Completed);
                     (Print "Analisando replay: up/match.replay", Completed);
                     (NewParser "up/match.replay", Completed);
                     (Parse, Completed) ]
                   (ExportToJson "/app/data/results/match1/replay_data.json", Completed)
                   (drop 6 (run analyzed_world 0
                              (process_replay analyzed_world demo_integrator
                                 "up/match.replay" (Some "match1"))).2)
                   _)
            "/app/data/results/match1/replay_data.json" eq_refl).
  vm_compute. reflexivity.
Defined.

Lemma demo_replay_writes_in_demo_directory_witness :
  "/app/data/results/demo_replay/replay_data.json"
    ∈ map (PyStr.path_join "/app/data/results/demo_replay") output_files.
Proof.
  refine (proj1 (proj1 (demo_replay_writes_in_demo_directory analyzed_world
                          demo_integrator 0
                          (take 6 (run analyzed_world 0
                                     (create_and_process_demo_replay analyzed_world
                                        demo_integrator)).2)
                          (ExportToJson "/app/data/results/demo_replay/replay_data.json",
                           Completed)
                          (drop 7 (run analyzed_world 0
                                     (create_and_process_demo_replay analyzed_world
                                        demo_integrator)).2)
                          _)
                   "/app/data/results/demo_replay/replay_data.json" eq_refl)).
  vm_compute. reflexivity.
Defined.

Lemma main_without_replay_witness :
  (run (quiet_world true) 0
     (main (λ _, "") map_to_list "usage: integrador.py" (quiet_world true) "/app"
        {| arg_replay := Some ""; arg_demo := false; arg_result_id := None;
           arg_data_dir := None |})).1 = Returned tt.
Proof.
  rewrite (main_without_replay (λ _, "") map_to_list "usage: integrador.py"
             (quiet_world true) "/app"
             {| arg_replay := Some ""; arg_demo := false; arg_result_id := None;
                arg_data_dir := None |} 0 eq_refl eq_refl (λ _ _, eq_refl)).
  reflexivity.
Defined.

Lemma main_returns_normally_on_failure_witness :
  run empty_disk 0
    (main (λ _, "") map_to_list "usage: integrador.py" empty_disk "/app" example_args)
  = (Returned tt,
     [ (MakeDirs "/app/data/uploads", Completed);
       (MakeDirs "/app/data/results", Completed);
       (MakeDirs "/app/data/visualizations", Completed);
       (NewAnalyzer, Completed);
       (NewVisualizer "/app/data/visualizations", Completed);
       (Print "Erro: Arquivo match.replay não encontrado.", Completed) ]).
Proof.
  apply (main_returns_normally_on_failure (λ _, "") map_to_list "usage: integrador.py"
           empty_disk "/app" example_args 0 demo_integrator
           [ (MakeDirs "/app/data/uploads", Completed);
             (MakeDirs "/app/data/results", Completed);
             (MakeDirs "/app/data/visualizations", Completed);
             (NewAnalyzer, Completed);
             (NewVisualizer "/app/data/visualizations", Completed) ]
           [ (Print "Erro: Arquivo match.replay não encontrado.", Completed) ]
           "match.replay").
  - reflexivity.
  - reflexivity.
  - discriminate.
  - vm_compute. reflexivity.
  - vm_compute. reflexivity.
Defined.

Lemma report_summary_lines_witness :
  (run analyzed_world 0 (report (λ _, "") map_to_list example_results)).2 !! 11%nat
  = Some (Print "- Boost baixo", Completed)
  ∧ length (run analyzed_world 0 (report (λ _, "") map_to_list example_results)).2
    = 25%nat.
Proof.
  rewrite (report_summary_lines (λ _, "") map_to_list analyzed_world 0 example_results
             {[ "map_name" := JStr "DFH Stadium" ]}
             (<["overall_score" := JInt 72]>
                {[ "category_scores" := JObj {[ "positioning" := JInt 80 ]} ]})
             {[ "positioning" := JInt 80 ]}
             [JStr "Blue1"; JStr "Orange1"] []
             [ JStr "Boost baixo"; JStr "Boa rotação"; JStr "Defesa lenta";
               JStr "Chutes fracos"; JStr "Bom posicionamento"; JStr "Poucos passes" ]
             (JInt 72) eq_refl eq_refl eq_refl eq_refl eq_refl eq_refl eq_refl).
  split; vm_compute; reflexivity.
Defined.

End IntegradorCliFacts.

Module InstallerFacts.
Import Setup Installer.

#[local] Existing Instance M_ret.
#[local] Existing Instance M_bind.

Section OnHost.
Variable host : Host.

(** ** Sequencing *)

Lemma result_bind {A B} (m : M A) (f : A → M B) :
  result (m ≫= f)
  = match result m with
    | Returned a => result (f a)
    | Raised e => Raised e
    end.
Proof. unfold mbind, M_bind. by destruct (result m). Qed.

Lemma trace_bind {A B} (m : M A) (f : A → M B) :
  trace (m ≫= f)
  = trace m ++ match result m with
               | Returned a => trace (f a)
               | Raised _ => []
               end.
Proof.
  unfold mbind, M_bind. destruct (result m); cbn [trace]; [done|].
  by rewrite app_nil_r.
Qed.

Lemma result_try_except {A} (body handler : M A) caught :
  result (try_except body caught handler)
  = match result body with
    | Returned a => Returned a
    | Raised e => if exception_eqb e caught then result handler else Raised e
    end.
Proof.
  unfold try_except. destruct (result body) as [a|e] eqn:Hbody; [done|].
  by destruct (exception_eqb e caught).
Qed.

Lemma trace_try_except {A} (body handler : M A) caught :
  trace (try_except body caught handler)
  = trace body ++ match result body with
                  | Returned _ => []
                  | Raised e => if exception_eqb e caught then trace handler else []
                  end.
Proof.
  unfold try_except. destruct (result body) as [a|e] eqn:Hbody;
    [by rewrite app_nil_r|].
  destruct (exception_eqb e caught); [done|by rewrite app_nil_r].
Qed.

Lemma commands_app (t1 t2 : list effect) :
  commands (t1 ++ t2) = commands t1 ++ commands t2.
Proof. apply omap_app. Qed.

Lemma commands_cons (e : effect) (t : list effect) :
  commands (e :: t)
  = match e with Run argv => [argv] | _ => [] end ++ commands t.
Proof. by destruct e. Qed.

(** ** Messages *)

Lemma silent_nil : silent [].
Proof. constructor. Qed.

Lemma silent_app t1 t2 : silent t1 → silent t2 → silent (t1 ++ t2).
Proof. apply Forall_app_2. Qed.

Lemma silent_commands t : silent t → commands t = [].
Proof.
  induction 1 as [|e t [msg ->] _ IH]; [done|]. exact IH.
Qed.

Lemma silent_disk t : silent t → Forall (λ e, touches_disk e = false) t.
Proof. intros Hsilent. eapply Forall_impl; [done|]. by intros e [msg ->]. Qed.

Lemma header_result message : result (header host message) = Returned tt.
Proof. reflexivity. Qed.

Lemma header_silent message : silent (trace (header host message)).
Proof. repeat constructor; by eexists. Qed.

Lemma echo_silent msg : silent (trace (echo msg)).
Proof. repeat constructor; by eexists. Qed.

Ltac messages := repeat constructor; by eexists.

(** ** [check_python_version] *)

Lemma check_python_version_result :
  result (check_python_version host) = Returned (negb (too_old (version_info host))).
Proof.
  unfold check_python_version. rewrite result_bind, header_result.
  by destruct (too_old _).
Qed.

Lemma check_python_version_silent : silent (trace (check_python_version host)).
Proof.
  unfold check_python_version. rewrite trace_bind, header_result.
  apply silent_app; [apply header_silent|]. destruct (too_old _); messages.
Qed.

Lemma too_old_spec (major minor : Z) :
  too_old (major, minor) = false ↔ (3 < major ∨ major = 3 ∧ 8 ≤ minor)%Z.
Proof. unfold too_old. cbn [fst snd]. lia. Qed.

(** X15. [check_python_version] returns [True] exactly for the versions
    from 3.8 on, a later major version included, and [False] exactly
    for the earlier ones; it only prints. *)
Theorem check_python_version_accepts :
  (result (check_python_version host) = Returned true ↔
     (3 < (version_info host).1
      ∨ (version_info host).1 = 3 ∧ 8 ≤ (version_info host).2)%Z)
  ∧ (result (check_python_version host) = Returned false ↔
     ((version_info host).1 < 3
      ∨ (version_info host).1 = 3 ∧ (version_info host).2 < 8)%Z)
  ∧ silent (trace (check_python_version host)).
Proof.
  rewrite check_python_version_result.
  destruct (version_info host) as [major minor]. cbn [fst snd].
  split; [|split; [|apply check_python_version_silent]].
  - rewrite <-too_old_spec. by destruct (too_old _).
  - pose proof (too_old_spec major minor). destruct (too_old _); cbn; split; try done; lia.
Qed.

(** ** [create_virtual_environment] *)

Lemma create_virtual_environment_result :
  result (create_virtual_environment host)
  = if path_exists host "venv" then Returned true
    else match subprocess_run host (venv_command host) with
         | Exited code => Returned (code =? 0)%Z
         | NotFound => Raised FileNotFoundError
         | Failed => Raised OtherError
         end.
Proof.
  unfold create_virtual_environment. rewrite result_bind, header_result.
  rewrite result_bind. cbn [exists_path result].
  destruct (path_exists host "venv"); [done|].
  rewrite result_try_except, !result_bind. cbn [run_checked result].
  destruct (subprocess_run host _) as [code| |]; [|done..].
  by destruct (code =? 0)%Z.
Qed.

Lemma create_virtual_environment_trace :
  ∃ before after,
    trace (create_virtual_environment host)
    = before ++ PathExists "venv"
        :: (if path_exists host "venv" then [] else [Run (venv_command host)]) ++ after
    ∧ silent before ∧ silent after.
Proof.
  exists (trace (header host "Configurando ambiente virtual")).
  unfold create_virtual_environment, try_except, run_checked, exists_path.
  unfold mbind, M_bind. cbn [result trace header perform_all print_header perform].
  destruct (path_exists host "venv").
  { eexists. split; [reflexivity|]. split; messages. }
  cbn [result trace]. 
  destruct (subprocess_run host _) as [code| |]; [destruct (code =? 0)%Z|..];
    cbn [result trace exception_eqb app];
    (eexists; split; [reflexivity|]; split; messages).
Qed.

Lemma create_virtual_environment_commands :
  commands (trace (create_virtual_environment host))
  = if path_exists host "venv" then [] else [venv_command host].
Proof.
  destruct create_virtual_environment_trace as (before & after & -> & Hbefore & Hafter).
  rewrite commands_app, (silent_commands _ Hbefore), commands_cons.
  rewrite commands_app, (silent_commands _ Hafter), app_nil_r.
  by destruct (path_exists host "venv").
Qed.

Lemma create_virtual_environment_disk :
  Forall (λ e, touches_disk e = false) (trace (create_virtual_environment host)).
Proof.
  destruct create_virtual_environment_trace as (before & after & -> & Hbefore & Hafter).
  apply Forall_app_2; [by apply silent_disk|]. constructor; [done|].
  apply Forall_app_2; [|by apply silent_disk].
  destruct (path_exists host "venv"); by repeat constructor.
Qed.

(** X16. When [venv] exists, [create_virtual_environment] returns
    [True] without running a command. Otherwise it runs
    [python -m venv venv] once and returns [True] for the return code
    zero and [False] for any other; an interpreter that is not found,
    or another failure of the call, is not caught. It never changes
    the disk itself. *)
Theorem create_virtual_environment_reuses_existing :
  (path_exists host "venv" = true →
     result (create_virtual_environment host) = Returned true
     ∧ commands (trace (create_virtual_environment host)) = [])
  ∧ (path_exists host "venv" = false →
     commands (trace (create_virtual_environment host)) = [venv_command host]
     ∧ result (create_virtual_environment host)
       = match subprocess_run host (venv_command host) with
         | Exited code => Returned (code =? 0)%Z
         | NotFound => Raised FileNotFoundError
         | Failed => Raised OtherError
         end)
  ∧ Forall (λ e, touches_disk e = false) (trace (create_virtual_environment host)).
Proof.
  rewrite create_virtual_environment_result, create_virtual_environment_commands.
  split; [|split; [|apply create_virtual_environment_disk]]; by intros ->.
Qed.

(** ** [install_dependencies] *)

Lemma install_one_result package :
  result (install_one host package)
  = checked (subprocess_run host (install_command host package)).
Proof.
  unfold install_one. rewrite result_try_except, !result_bind.
  cbn [run_checked echo result].
  destruct (subprocess_run host _) as [code| |]; [|done..].
  cbn [checked]. by destruct (code =? 0)%Z.
Qed.

Lemma install_one_trace package :
  ∃ after,
    trace (install_one host package)
    = Act (Echo ("Instalando " +:+ package +:+ "..."))
        :: Run (install_command host package) :: after
    ∧ silent after.
Proof.
  unfold install_one, try_except, run_checked. unfold mbind, M_bind.
  cbn [result trace echo app].
  destruct (subprocess_run host _) as [code| |]; [destruct (code =? 0)%Z|..];
    cbn [result trace exception_eqb app];
    (eexists; split; [reflexivity|]; messages).
Qed.

Lemma install_each_result packages :
  result (install_each host packages) = Returned true ↔
    ∀ package, package ∈ packages →
      subprocess_run host (install_command host package) = Exited 0.
Proof.
  induction packages as [|package rest IH]; cbn [install_each].
  - split; [by intros _ ? ?%elem_of_nil|done].
  - rewrite result_bind, install_one_result.
    destruct (subprocess_run host (install_command host package)) as [code| |] eqn:Hrun;
      cbn [checked].
    + destruct (Z.eqb_spec code 0) as [->|Hcode].
      * rewrite IH. split.
        -- intros Hrest p [->|Hp]%elem_of_cons; [done|by apply Hrest].
        -- intros Hall p Hp. apply Hall. by right.
      * split; [done|]. intros Hall.
        specialize (Hall package (list_elem_of_here _ _)). congruence.
    + split; [done|]. intros Hall.
      specialize (Hall package (list_elem_of_here _ _)). congruence.
    + split; [done|]. intros Hall.
      specialize (Hall package (list_elem_of_here _ _)). congruence.
Qed.

Lemma install_each_disk packages :
  Forall (λ e, touches_disk e = false) (trace (install_each host packages)).
Proof.
  induction packages as [|package rest IH]; cbn [install_each].
  - by repeat constructor.
  - rewrite trace_bind. apply Forall_app_2.
    + destruct (install_one_trace package) as (after & -> & Hafter).
      do 2 (constructor; [done|]). by apply silent_disk.
    + destruct (result (install_one host package)) as [[]|]; [done|..];
        by repeat constructor.
Qed.

(** The loop runs the installations in order and stops at the first
    one that exits with a code other than zero. *)
Lemma install_each_stops before package after code :
  (∀ p, p ∈ before → subprocess_run host (install_command host p) = Exited 0) →
  subprocess_run host (install_command host package) = Exited code →
  code ≠ 0%Z →
  result (install_each host (before ++ package :: after)) = Returned false
  ∧ commands (trace (install_each host (before ++ package :: after)))
    = map (install_command host) (before ++ [package]).
Proof.
  intros Hbefore Hpackage Hcode.
  induction before as [|p before IH]; cbn [app install_each map].
  - rewrite result_bind, trace_bind, install_one_result, Hpackage. cbn [checked].
    destruct (Z.eqb_spec code 0) as [|_]; [done|]. split; [done|].
    destruct (install_one_trace package) as (rest & -> & Hrest).
    rewrite app_nil_r, !commands_cons, (silent_commands _ Hrest). done.
  - rewrite result_bind, trace_bind, install_one_result.
    rewrite (Hbefore p) by left. cbn [checked Z.eqb].
    destruct IH as [IHresult IHcommands].
    { intros q Hq. apply Hbefore. by right. }
    split; [done|].
    destruct (install_one_trace p) as (rest & -> & Hrest).
    rewrite commands_app, !commands_cons, (silent_commands _ Hrest), IHcommands.
    done.
Qed.

Lemma install_each_commands packages :
  (∀ p, p ∈ packages → subprocess_run host (install_command host p) = Exited 0) →
  commands (trace (install_each host packages)) = map (install_command host) packages.
Proof.
  induction packages as [|p packages IH]; intros Hall; cbn [install_each map].
  - reflexivity.
  - rewrite trace_bind, install_one_result, (Hall p) by left. cbn [checked Z.eqb].
    destruct (install_one_trace p) as (rest & -> & Hrest).
    rewrite commands_app, !commands_cons, (silent_commands _ Hrest), IH; [done|].
    intros q Hq. apply Hall. by right.
Qed.

(** The upgrade of pip: its failure with [CalledProcessError] is
    tolerated. *)
Lemma upgrade_result :
  result (try_except
            (run_checked host (upgrade_command host);; echo "[OK] Pip atualizado.")
            CalledProcessError
            (echo "[AVISO] Falha ao atualizar pip, continuando com a versão atual."))
  = match subprocess_run host (upgrade_command host) with
    | Exited _ => Returned tt
    | NotFound => Raised FileNotFoundError
    | Failed => Raised OtherError
    end.
Proof.
  rewrite result_try_except, !result_bind. cbn [run_checked echo result].
  destruct (subprocess_run host _) as [code| |]; [|done..].
  by destruct (code =? 0)%Z.
Qed.

Lemma upgrade_trace :
  ∃ after,
    trace (try_except
             (run_checked host (upgrade_command host);; echo "[OK] Pip atualizado.")
             CalledProcessError
             (echo "[AVISO] Falha ao atualizar pip, continuando com a versão atual."))
    = Run (upgrade_command host) :: after
    ∧ silent after.
Proof.
  unfold try_except, run_checked. unfold mbind, M_bind.
  cbn [result trace echo app].
  destruct (subprocess_run host _) as [code| |]; [destruct (code =? 0)%Z|..];
    cbn [result trace exception_eqb app];
    (eexists; split; [reflexivity|]; messages).
Qed.

Lemma install_dependencies_result :
  result (install_dependencies host)
  = match subprocess_run host (upgrade_command host) with
    | Exited _ => result (install_each host requirements)
    | NotFound => Raised FileNotFoundError
    | Failed => Raised OtherError
    end.
Proof.
  unfold install_dependencies.
  rewrite result_bind, header_result, result_bind, upgrade_result.
  by destruct (subprocess_run host _).
Qed.

Lemma install_dependencies_disk :
  Forall (λ e, touches_disk e = false) (trace (install_dependencies host)).
Proof.
  unfold install_dependencies. rewrite trace_bind, header_result.
  apply Forall_app_2; [apply silent_disk, header_silent|].
  rewrite trace_bind. destruct upgrade_trace as (after & -> & Hafter).
  apply Forall_app_2; [constructor; [done|by apply silent_disk]|].
  destruct (result _); [apply install_each_disk|constructor].
Qed.

(** X17. [install_dependencies] goes on whatever the return code of the
    upgrade of pip, installs the packages in the order of the list and,
    at the first installation that exits with a code other than zero,
    returns [False] without trying the packages after it. *)
Theorem install_dependencies_stops_at_first_failure before package after upgraded code :
  requirements = before ++ package :: after →
  subprocess_run host (upgrade_command host) = Exited upgraded →
  (∀ p, p ∈ before → subprocess_run host (install_command host p) = Exited 0) →
  subprocess_run host (install_command host package) = Exited code →
  code ≠ 0%Z →
  result (install_dependencies host) = Returned false
  ∧ commands (trace (install_dependencies host))
    = upgrade_command host :: map (install_command host) (before ++ [package]).
Proof.
  intros Hsplit Hupgrade Hbefore Hpackage Hcode.
  destruct (install_each_stops before package after code) as [Hresult Hcommands];
    [done..|].
  rewrite install_dependencies_result, Hupgrade, Hsplit. split; [done|].
  unfold install_dependencies. rewrite trace_bind, header_result, trace_bind.
  rewrite upgrade_result, Hupgrade.
  destruct upgrade_trace as (rest & -> & Hrest).
  rewrite !commands_app, (silent_commands _ (header_silent _)), commands_cons.
  rewrite (silent_commands _ Hrest), Hsplit, Hcommands. done.
Qed.

(** ** [check_ffmpeg] *)

Lemma ffmpeg_advice_silent : silent (trace (ffmpeg_advice host)).
Proof.
  unfold ffmpeg_advice.
  destruct (Stdlib.Strings.String.eqb _ "Windows"); [messages|].
  destruct (Stdlib.Strings.String.eqb _ "Darwin"); messages.
Qed.

Lemma ffmpeg_advice_result : result (ffmpeg_advice host) = Returned tt.
Proof.
  unfold ffmpeg_advice.
  destruct (Stdlib.Strings.String.eqb _ "Windows"); [done|].
  by destruct (Stdlib.Strings.String.eqb _ "Darwin").
Qed.

Lemma check_ffmpeg_result :
  result (check_ffmpeg host)
  = match subprocess_run host ["ffmpeg"; "-version"] with
    | Exited code => Returned (code =? 0)%Z
    | NotFound => Returned false
    | Failed => Raised OtherError
    end.
Proof.
  unfold check_ffmpeg.
  rewrite result_bind, header_result, result_bind, result_try_except, result_bind.
  cbn [run_captured result].
  destruct (subprocess_run host _) as [code| |]; [destruct (code =? 0)%Z|..];
    cbn [exception_eqb result mret M_ret];
    rewrite ?result_bind; cbn [echo result]; rewrite ?result_bind, ?ffmpeg_advice_result;
    done.
Qed.

Lemma check_ffmpeg_trace :
  ∃ before after,
    trace (check_ffmpeg host) = before ++ Run ["ffmpeg"; "-version"] :: after
    ∧ silent before ∧ silent after.
Proof.
  exists (trace (header host "Verificando FFmpeg (opcional)")).
  unfold check_ffmpeg. rewrite trace_bind, header_result.
  rewrite trace_bind, trace_try_except, result_try_except, trace_bind, result_bind.
  cbn [run_captured result trace].
  destruct (subprocess_run host _) as [code| |]; [destruct (code =? 0)%Z|..];
    cbn [result trace exception_eqb app mret M_ret];
    (eexists; split; [reflexivity|]; split; [apply header_silent|]);
    rewrite ?trace_bind; cbn [result trace echo app]; try messages.
  - do 2 (constructor; [by eexists|]). rewrite ffmpeg_advice_result.
    apply silent_app; [apply ffmpeg_advice_silent|constructor].
  - do 2 (constructor; [by eexists|]). rewrite ffmpeg_advice_result.
    apply silent_app; [apply ffmpeg_advice_silent|constructor].
Qed.

Lemma check_ffmpeg_disk :
  Forall (λ e, touches_disk e = false) (trace (check_ffmpeg host)).
Proof.
  destruct check_ffmpeg_trace as (before & after & -> & Hbefore & Hafter).
  apply Forall_app_2; [by apply silent_disk|].
  constructor; [done|by apply silent_disk].
Qed.

(** X18. [check_ffmpeg] runs [ffmpeg -version] and nothing else and
    changes nothing on disk; it returns [True] for the return code
    zero and [False] for any other and when the program is not found,
    and only another failure of the call raises. *)
Theorem check_ffmpeg_tolerates_absence :
  result (check_ffmpeg host)
  = match subprocess_run host ["ffmpeg"; "-version"] with
    | Exited code => Returned (code =? 0)%Z
    | NotFound => Returned false
    | Failed => Raised OtherError
    end
  ∧ commands (trace (check_ffmpeg host)) = [["ffmpeg"; "-version"]]
  ∧ Forall (λ e, touches_disk e = false) (trace (check_ffmpeg host)).
Proof.
  split; [apply check_ffmpeg_result|]. split; [|apply check_ffmpeg_disk].
  destruct check_ffmpeg_trace as (before & after & -> & Hbefore & Hafter).
  by rewrite commands_app, commands_cons, !silent_commands.
Qed.

(** ** [create_directories] and [create_wrapper_scripts] *)

Lemma make_each_result dirs :
  result (make_each host dirs)
  = if forallb (λ d, negb (refused host (MakeDirs d))) dirs
    then Returned tt else Raised OtherError.
Proof.
  induction dirs as [|d dirs IH]; [done|].
  cbn [make_each forallb]. rewrite result_bind. cbn [makedirs result].
  destruct (refused host (MakeDirs d)); [done|].
  by rewrite result_bind.
Qed.

Lemma make_each_trace dirs :
  result (make_each host dirs) = Returned tt →
  ∀ d, d ∈ dirs → MakeDirs d ∈ trace (make_each host dirs).
Proof.
  induction dirs as [|d dirs IH]; [by intros _ ? ?%elem_of_nil|].
  cbn [make_each]. rewrite result_bind, trace_bind. cbn [makedirs result trace].
  destruct (refused host (MakeDirs d)); [done|].
  rewrite result_bind, trace_bind. cbn [echo result trace app].
  intros Hrest d' [->|Hd']%elem_of_cons; [left|].
  do 2 right. by apply IH.
Qed.

Lemma create_directories_result :
  result (create_directories host)
  = if forallb (λ d, negb (refused host (MakeDirs d))) directories
    then Returned true else Raised OtherError.
Proof.
  unfold create_directories.
  rewrite result_bind, header_result, result_bind, make_each_result.
  by destruct (forallb _ _).
Qed.

Lemma perform_all_result todo :
  result (perform_all host todo)
  = if forallb (permitted host) todo then Returned tt else Raised OtherError.
Proof.
  induction todo as [|a todo IH]; [done|].
  cbn [perform_all forallb]. rewrite result_bind.
  destruct a as [msg|name content|name mode]; cbn [perform permitted result]; [done|..];
    by destruct (refused host _).
Qed.

Lemma perform_all_trace todo :
  result (perform_all host todo) = Returned tt →
  trace (perform_all host todo) = map Act todo.
Proof.
  induction todo as [|a todo IH]; [done|].
  cbn [perform_all map]. rewrite result_bind, trace_bind.
  assert (trace (perform host a) = [Act a]) as -> by by destruct a.
  destruct (result (perform host a)); [|done].
  intros Hrest. by rewrite IH.
Qed.

Lemma create_wrapper_scripts_result :
  result (create_wrapper_scripts host)
  = if forallb (permitted host) (Setup.create_wrapper_scripts (system host)).1
    then Returned true else Raised OtherError.
Proof.
  unfold create_wrapper_scripts. rewrite result_bind, perform_all_result.
  by destruct (forallb _ _).
Qed.

(** X19. [create_directories] and [create_wrapper_scripts] never return
    [False]: they return [True] or raise. So [main] returns [False]
    only when the version check, the creation of the virtual
    environment or the installation of the dependencies did. *)
Theorem disk_steps_never_return_false :
  result (create_directories host) ≠ Returned false
  ∧ result (create_wrapper_scripts host) ≠ Returned false
  ∧ (result (main host) = Returned false →
     result (check_python_version host) = Returned false
     ∨ result (create_virtual_environment host) = Returned false
     ∨ result (install_dependencies host) = Returned false).
Proof.
  split; [|split].
  - rewrite create_directories_result. by destruct (forallb _ _).
  - rewrite create_wrapper_scripts_result. by destruct (forallb _ _).
  - unfold main. rewrite result_bind, header_result, result_bind.
    destruct (result (check_python_version host)) as [[]|]; [|by left|done].
    cbn [negb]. rewrite result_bind.
    destruct (result (create_virtual_environment host)) as [[]|];
      [|by right; left|done].
    cbn [negb]. rewrite result_bind.
    destruct (result (install_dependencies host)) as [[]|];
      [|by right; right|done].
    cbn [negb]. rewrite result_bind.
    destruct (result (check_ffmpeg host)); [|done].
    rewrite result_bind, create_directories_result.
    destruct (forallb _ directories); [|done]. cbn [negb].
    rewrite result_bind, create_wrapper_scripts_result.
    destruct (forallb _ _); done.
Qed.

(** ** [main] *)

Lemma closing_result :
  result (header host "Configuração concluída com sucesso!";;
          echo (nl +:+ "Para analisar um replay:");;
          echo "  python analisar_replay.py --arquivo caminho/para/seu/replay.replay";;
          echo (nl +:+ "Para iniciar a interface web:");;
          echo "  python iniciar_interface.py";;
          echo (nl +:+ "Para analisar um vídeo (requer FFmpeg):");;
          echo "  python analisar_video.py --arquivo caminho/para/seu/video.mp4";;
          mret true) = Returned true.
Proof. reflexivity. Qed.

Lemma forallb_elem_of {A} (f : A → bool) (l : list A) :
  forallb f l = true ↔ ∀ x, x ∈ l → f x = true.
Proof.
  rewrite forallb_forall. split; intros H x Hx; apply H;
    by apply list_elem_of_In.
Qed.

Lemma main_returns_true :
  result (main host) = Returned true ↔
    result (check_python_version host) = Returned true
    ∧ result (create_virtual_environment host) = Returned true
    ∧ result (install_dependencies host) = Returned true
    ∧ (∃ found, result (check_ffmpeg host) = Returned found)
    ∧ result (create_directories host) = Returned true
    ∧ result (create_wrapper_scripts host) = Returned true.
Proof.
  unfold main. rewrite result_bind, header_result, result_bind.
  destruct (result (check_python_version host)) as [[]|]; cbn [negb];
    [|by intuition..].
  rewrite result_bind.
  destruct (result (create_virtual_environment host)) as [[]|]; cbn [negb];
    [|by intuition..].
  rewrite result_bind.
  destruct (result (install_dependencies host)) as [[]|]; cbn [negb];
    [|by intuition..].
  rewrite result_bind.
  destruct (result (check_ffmpeg host)) as [found|];
    [|by split; [|intros (_ & _ & _ & [? ?] & _)]].
  rewrite result_bind.
  destruct (result (create_directories host)) as [[]|]; cbn [negb];
    [|by intuition..].
  rewrite result_bind.
  destruct (result (create_wrapper_scripts host)) as [[]|]; cbn [negb];
    [|by intuition..].
  rewrite closing_result. by intuition eauto.
Qed.

Lemma create_virtual_environment_true :
  result (create_virtual_environment host) = Returned true ↔
    path_exists host "venv" = true
    ∨ subprocess_run host (venv_command host) = Exited 0.
Proof.
  rewrite create_virtual_environment_result.
  destruct (path_exists host "venv"); [by intuition|].
  destruct (subprocess_run host _) as [code| |]; [|by intuition..].
  destruct (Z.eqb_spec code 0) as [->|Hcode]; [by intuition|].
  split; [done|]. intros [|[=]]; done.
Qed.

Lemma install_dependencies_true :
  result (install_dependencies host) = Returned true ↔
    (∃ code, subprocess_run host (upgrade_command host) = Exited code)
    ∧ (∀ package, package ∈ requirements →
         subprocess_run host (install_command host package) = Exited 0).
Proof.
  rewrite install_dependencies_result, <-install_each_result.
  destruct (subprocess_run host (upgrade_command host)) as [code| |].
  - split; [by eauto|by intros [_ ?]].
  - split; [done|by intros [[? ?] _]].
  - split; [done|by intros [[? ?] _]].
Qed.

Lemma check_ffmpeg_returns :
  (∃ found, result (check_ffmpeg host) = Returned found) ↔
    subprocess_run host ["ffmpeg"; "-version"] ≠ Failed.
Proof.
  rewrite check_ffmpeg_result.
  destruct (subprocess_run host _) as [code| |].
  - split; [done|by eauto].
  - split; [done|by eauto].
  - split; [by intros [? ?]|done].
Qed.

Lemma create_directories_true :
  result (create_directories host) = Returned true ↔
    ∀ d, d ∈ directories → refused host (MakeDirs d) = false.
Proof.
  rewrite create_directories_result.
  destruct (forallb _ directories) eqn:Hdirs.
  - split; [intros _ d Hd|done]. apply negb_true_iff.
    by eapply forallb_elem_of in Hdirs.
  - split; [done|]. intros Hall.
    assert (forallb (λ d, negb (refused host (MakeDirs d))) directories = true)
      as Hmade; [|congruence].
    apply forallb_elem_of. intros d Hd. apply negb_true_iff. by apply Hall.
Qed.

Lemma create_wrapper_scripts_true :
  result (create_wrapper_scripts host) = Returned true ↔
    ∀ a, a ∈ (Setup.create_wrapper_scripts (system host)).1 → permitted host a = true.
Proof.
  rewrite create_wrapper_scripts_result, <-forallb_elem_of.
  by destruct (forallb _ _).
Qed.

(** X20. [main] returns [True] exactly when the Python version is
    accepted, [venv] exists or its creation exits with zero, the
    upgrade of pip exits with any code, each of the eight packages
    installs with the return code zero, the call of [ffmpeg] does not
    fail otherwise than by the program missing, and no directory,
    script or mode change is refused. Whether FFmpeg is there plays no
    part. *)
Theorem main_succeeds_iff :
  result (main host) = Returned true ↔
    too_old (version_info host) = false
    ∧ (path_exists host "venv" = true
       ∨ subprocess_run host (venv_command host) = Exited 0)
    ∧ (∃ code, subprocess_run host (upgrade_command host) = Exited code)
    ∧ (∀ package, package ∈ requirements →
         subprocess_run host (install_command host package) = Exited 0)
    ∧ subprocess_run host ["ffmpeg"; "-version"] ≠ Failed
    ∧ (∀ d, d ∈ directories → refused host (MakeDirs d) = false)
    ∧ (∀ a, a ∈ (Setup.create_wrapper_scripts (system host)).1 →
         permitted host a = true).
Proof.
  rewrite main_returns_true, check_python_version_result,
    create_virtual_environment_true, install_dependencies_true,
    check_ffmpeg_returns, create_directories_true, create_wrapper_scripts_true.
  destruct (too_old (version_info host)); cbn [negb]; intuition congruence.
Qed.

(** The effects of [main] from [create_directories] on. *)
Lemma main_trace :
  ∃ before after,
    trace (main host) = before ++ after
    ∧ Forall (λ e, touches_disk e = false) before
    ∧ (after = [] ∨
       result (check_python_version host) = Returned true
       ∧ result (create_virtual_environment host) = Returned true
       ∧ result (install_dependencies host) = Returned true
       ∧ ∃ rest, after = trace (create_directories host) ++ rest).
Proof.
  unfold main. rewrite trace_bind, header_result, trace_bind.
  pose proof (silent_disk _ (header_silent "Configuração da IA de Análise de Replays"))
    as Hheader.
  pose proof (silent_disk _ check_python_version_silent) as Hpython.
  pose proof create_virtual_environment_disk as Hvenv.
  pose proof install_dependencies_disk as Hinstall.
  pose proof check_ffmpeg_disk as Hffmpeg.
  set (quiet := Forall (λ e, touches_disk e = false)) in *.
  assert (∀ t : list effect, quiet t → ∃ before after,
            t = before ++ after ∧ quiet before
            ∧ (after = [] ∨
               result (check_python_version host) = Returned true
               ∧ result (create_virtual_environment host) = Returned true
               ∧ result (install_dependencies host) = Returned true
               ∧ ∃ rest, after = trace (create_directories host) ++ rest))
    as Hstopped.
  { intros t Ht. exists t, []. rewrite app_nil_r. by eauto. }
  destruct (result (check_python_version host)) as [[]|]; cbn [negb];
    [|apply Hstopped; rewrite ?app_nil_r; by apply Forall_app_2..].
  rewrite trace_bind.
  destruct (result (create_virtual_environment host)) as [[]|]; cbn [negb];
    [|apply Hstopped; rewrite ?app_nil_r; by repeat (apply Forall_app_2; [done|])..].
  rewrite trace_bind.
  destruct (result (install_dependencies host)) as [[]|]; cbn [negb];
    [|apply Hstopped; rewrite ?app_nil_r; by repeat (apply Forall_app_2; [done|])..].
  rewrite trace_bind.
  destruct (result (check_ffmpeg host)) as [found|];
    [|apply Hstopped; rewrite ?app_nil_r; by repeat (apply Forall_app_2; [done|])].
  rewrite trace_bind.
  set (rest := match result (create_directories host) with
               | Returned _ => _
               | Raised _ => _
               end).
  do 4 rewrite app_assoc.
  eexists _, (trace (create_directories host) ++ rest). split; [reflexivity|].
  split; [|right; by eauto].
  repeat (apply Forall_app_2; [|done]). done.
Qed.

(** X21. [main] makes a directory, writes a script or changes a mode
    only after the Python version was accepted, the virtual
    environment was found or created and all eight packages were
    installed. *)
Theorem main_touches_disk_after_dependencies e :
  e ∈ trace (main host) →
  touches_disk e = true →
  too_old (version_info host) = false
  ∧ (path_exists host "venv" = true
     ∨ subprocess_run host (venv_command host) = Exited 0)
  ∧ (∀ package, package ∈ requirements →
       subprocess_run host (install_command host package) = Exited 0).
Proof.
  destruct main_trace as (before & after & -> & Hbefore & Hafter).
  intros [He|He]%elem_of_app Hdisk.
  { rewrite Forall_forall in Hbefore. specialize (Hbefore e He). congruence. }
  destruct Hafter as [->|(Hpython & Hvenv & Hinstall & _)];
    [by apply elem_of_nil in He|].
  rewrite check_python_version_result in Hpython.
  apply create_virtual_environment_true in Hvenv.
  apply install_dependencies_true in Hinstall as [_ Hinstall].
  split; [|done]. by destruct (too_old _).
Qed.

(** What [content_after] finds was written. *)
Lemma content_after_written name todo held text :
  content_after name todo held = Some text →
  held = Some text ∨ WriteFile name text ∈ todo.
Proof.
  revert held. induction todo as [|a todo IH]; intros held; [by left|].
  destruct a as [msg|name' content|name' mode]; cbn [content_after]; intros Hcontent.
  - destruct (IH _ Hcontent) as [?|?]; [by left|right; by right].
  - destruct (IH _ Hcontent) as [Hheld|?]; [|right; by right].
    destruct (Stdlib.Strings.String.eqb_spec name name') as [<-|_]; [|by left].
    injection Hheld as ->. right. by left.
  - destruct (IH _ Hcontent) as [?|?]; [by left|right; by right].
Qed.

Lemma written_in_scripts system name text :
  written system name = Some text →
  WriteFile name text ∈ (Setup.create_wrapper_scripts system).1
  ∧ (Stdlib.Strings.String.eqb system "Windows" = false →
     Chmod name mode_755 ∈ (Setup.create_wrapper_scripts system).1).
Proof.
  intros [[=]|Hin]%content_after_written. split; [done|].
  intros Hsystem. revert Hin. unfold Setup.create_wrapper_scripts. cbn [fst].
  rewrite Hsystem. unfold print_header. cbn [app].
  rewrite !elem_of_cons, elem_of_nil.
  intros [[=]|[[=]|[[=]|[[= -> _]|[[= -> _]|[[= -> _]|Hrest]]]]]].
  - do 6 right. by left.
  - do 7 right. by left.
  - do 8 right. by left.
  - exfalso. destruct Hrest as [[=]|[[=]|[[=]|[[=]|[]]]]].
Qed.

(** X22. When [main] returns [True], it has made the three data
    directories and written each of the three scripts with the text of
    the generator; on a platform other than Windows it has also set
    each script's mode to 0o755. *)
Theorem main_success_leaves :
  result (main host) = Returned true →
  (∀ d, d ∈ directories → MakeDirs d ∈ trace (main host))
  ∧ (∀ name text, written (system host) name = Some text →
       Act (WriteFile name text) ∈ trace (main host)
       ∧ (system host ≠ "Windows" →
          Act (Chmod name mode_755) ∈ trace (main host))).
Proof.
  intros (Hpython & Hvenv & Hinstall & [found Hffmpeg] & Hdirs & Hscripts)%main_returns_true.
  assert (∀ a, a ∈ (Setup.create_wrapper_scripts (system host)).1 →
               Act a ∈ trace (main host)) as Hdone.
  { unfold main. rewrite trace_bind, header_result, trace_bind, Hpython. cbn [negb].
    rewrite trace_bind, Hvenv. cbn [negb]. rewrite trace_bind, Hinstall. cbn [negb].
    rewrite trace_bind, Hffmpeg, trace_bind, Hdirs. cbn [negb].
    rewrite trace_bind, Hscripts. cbn [negb].
    intros a Ha. do 6 (apply elem_of_app; right). apply elem_of_app; left.
    unfold create_wrapper_scripts in Hscripts |- *.
    rewrite result_bind in Hscripts. rewrite trace_bind.
    apply elem_of_app; left. rewrite perform_all_trace.
    + by apply list_elem_of_fmap_2.
    + by destruct (result (perform_all host _)) as [[]|]. }
  split.
  - unfold main. rewrite trace_bind, header_result, trace_bind, Hpython. cbn [negb].
    rewrite trace_bind, Hvenv. cbn [negb]. rewrite trace_bind, Hinstall. cbn [negb].
    rewrite trace_bind, Hffmpeg, trace_bind, Hdirs. cbn [negb].
    intros d Hd. do 5 (apply elem_of_app; right). apply elem_of_app; left.
    unfold create_directories in Hdirs |- *.
    rewrite result_bind, header_result, result_bind in Hdirs.
    rewrite trace_bind, header_result, trace_bind.
    apply elem_of_app; right. apply elem_of_app; left.
    apply make_each_trace; [|done].
    by destruct (result (make_each host directories)) as [[]|].
  - intros name text [Hwrite Hchmod]%written_in_scripts.
    split; [by apply Hdone|].
    intros Hsystem%Stdlib.Strings.String.eqb_neq. by apply Hdone, Hchmod.
Qed.

End OnHost.
(** *** The theorems on a concrete host *)

Lemma install_dependencies_stops_at_first_failure_witness :
  result (install_dependencies (linux_host ["numpy"])) = Returned false
  ∧ commands (trace (install_dependencies (linux_host ["numpy"])))
    = [ ["venv/bin/pip"; "install"; "--upgrade"; "pip"];
        ["venv/bin/pip"; "install"; "pandas"];
        ["venv/bin/pip"; "install"; "numpy"] ].
Proof.
  apply (install_dependencies_stops_at_first_failure (linux_host ["numpy"])
           ["pandas"] "numpy"
           ["matplotlib"; "seaborn"; "flask"; "opencv-python"; "requests"; "tqdm"]
           0%Z 1%Z).
  - reflexivity.
  - reflexivity.
  - intros p ->%list_elem_of_singleton. reflexivity.
  - reflexivity.
  - discriminate.
Defined.

Lemma main_touches_disk_after_dependencies_witness :
  too_old (version_info (linux_host [])) = false
  ∧ (path_exists (linux_host []) "venv" = true
     ∨ subprocess_run (linux_host []) (venv_command (linux_host [])) = Exited 0)
  ∧ (∀ package, package ∈ requirements →
       subprocess_run (linux_host []) (install_command (linux_host []) package)
       = Exited 0).
Proof.
  apply (main_touches_disk_after_dependencies (linux_host []) (MakeDirs "data/uploads")).
  - apply list_elem_of_In. vm_compute. tauto.
  - reflexivity.
Defined.

Lemma main_success_leaves_witness :
  MakeDirs "data/temp" ∈ trace (main (linux_host []))
  ∧ Act (Chmod "iniciar_interface.py" mode_755) ∈ trace (main (linux_host [])).
Proof.
  destruct (main_success_leaves (linux_host [])) as [Hdirs Hscripts].
  - vm_compute. reflexivity.
  - split.
    + apply Hdirs. unfold directories. do 2 right. left.
    + destruct (Hscripts "iniciar_interface.py" (unlines iniciar_interface_written))
        as [_ Hchmod]; [reflexivity|].
      apply Hchmod. discriminate.
Defined.

End InstallerFacts.

Module WrappersFacts.
Import Wrappers.

(** X23. [analisar_video.py] runs the video processor only when the
    interpreter of the virtual environment is a file: without it the
    script exits with status 1 and runs no command. With it the script
    runs one command and returns normally whatever that command
    returned, printing the success message exactly for the value
    zero. *)
Theorem video_wrapper_needs_environment (host : Host) (args : Args) :
  let r := AnalisarVideo.main host args in
  let found := isfile host (AnalisarVideo.python_exec host) in
  let cmd := AnalisarVideo.command host args in
  (found = false → r.1 = Exit 1 ∧ commands r.2 = [])
  ∧ (found = true →
     r.1 = Finished
     ∧ commands r.2 = [cmd]
     ∧ (Print "Processamento concluído com sucesso!" ∈ r.2 ↔ system host cmd = 0%Z)).
Proof.
  cbn zeta. unfold AnalisarVideo.main.
  destruct (isfile host _); cbn [negb fst snd].
  - split; [done|]. intros _. split; [done|]. cbn [app].
    rewrite !elem_of_cons, elem_of_nil.
    destruct (Z.eqb_spec (system host (AnalisarVideo.command host args)) 0) as [->|Hcode].
    + split; [done|]. split; [done|]. intros _. do 6 right. by left.
    + split; [done|]. split; [|done].
      intros [[=]|[[=]|[[=]|[[=]|[[=]|[[=]|[[=]|[]]]]]]]].
  - split; [|done]. intros _. done.
Qed.

(** X24. On either platform and for all arguments, the one command
    [analisar_replay.py] runs calls [integrador.py] with the options
    [--game] and [--output]; neither is, or abbreviates, an option
    string of the parser of [integrador.py]. *)
Theorem replay_wrapper_passes_undeclared_options (host : Host) (args : Args) :
  (∃ activation,
     AnalisarReplay.main host args
     = (Finished,
        [ System (activation +:+ " && python integrador.py --replay " +:+ arquivo args
                    +:+ " --game " +:+ game_name (jogo args)
                    +:+ " --output " +:+ saida args) ]))
  ∧ Forall (λ option,
              Stdlib.Strings.String.prefix "--game" option = false
              ∧ Stdlib.Strings.String.prefix "--output" option = false)
      IntegradorCli.option_strings.
Proof.
  split.
  - unfold AnalisarReplay.main, AnalisarReplay.command, AnalisarReplay.activate_script.
    destruct (win32 host);
      [by exists "call venv\Scripts\activate"|by exists "source venv/bin/activate"].
  - unfold IntegradorCli.option_strings. repeat constructor.
Qed.

End WrappersFacts.

Module DecoderFacts.
Import Telemetry Decoder.

Section WithSchema.
Variable sch : Schema.

Lemma byte_of_N_to_N (n : N) :
  Stdlib.Strings.Byte.to_N (byte_of_N n) = (n mod 256)%N.
Proof.
  unfold byte_of_N.
  destruct (Stdlib.Strings.Byte.of_N (n mod 256)) as [b|] eqn:Hb.
  - by apply Stdlib.Strings.Byte.to_of_N.
  - apply Stdlib.Strings.Byte.of_N_None_iff in Hb.
    pose proof (N.mod_upper_bound n 256). lia.
Qed.

Lemma take_exact_app (a b : list byte) :
  take_exact (length a) (a ++ b) = Ok (a, b).
Proof.
  unfold take_exact. rewrite length_app.
  destruct (Nat.ltb_spec (length a + length b) (length a)); [lia|].
  by rewrite take_app_length, drop_app_length.
Qed.

Lemma take_exact_app' (n : nat) (a b : list byte) :
  length a = n → take_exact n (a ++ b) = Ok (a, b).
Proof. intros <-. apply take_exact_app. Qed.

Lemma base_256_digits (n q1 q2 q3 r0 r1 r2 : N) :
  (n < 4294967296)%N →
  n = (256 * q1 + r0)%N → q1 = (256 * q2 + r1)%N → q2 = (256 * q3 + r2)%N →
  (q3 < 256)%N ∧ (r0 + 256 * (r1 + 256 * (r2 + 256 * q3)))%N = n.
Proof. lia. Qed.

Lemma u32_value (n : N) :
  (n < 2 ^ 32)%N →
  (n mod 256 + 256 * ((n / 256) mod 256 + 256 * ((n / 256 / 256) mod 256
     + 256 * ((n / 256 / 256 / 256) mod 256))))%N = n.
Proof.
  intros Hn. change (2 ^ 32)%N with 4294967296%N in Hn.
  destruct (base_256_digits n _ _ _ _ _ _ Hn (N.div_mod' n 256)
              (N.div_mod' (n / 256) 256) (N.div_mod' (n / 256 / 256) 256))
    as [Hq3 Hsum].
  by rewrite (N.mod_small (n / 256 / 256 / 256) 256).
Qed.

Lemma read_u32_app (n : N) (rest : list byte) :
  (n < 2 ^ 32)%N → read_u32 (u32 n ++ rest) = Ok (n, rest).
Proof.
  intros Hn. unfold read_u32.
  rewrite (take_exact_app' 4 (u32 n) rest) by reflexivity.
  cbn [mbind result_bind u32]. rewrite !byte_of_N_to_N.
  by rewrite u32_value.
Qed.

Lemma read_block_app (content rest : list byte) :
  (N.of_nat (length content) < 2 ^ 32)%N →
  read_block (block content ++ rest) = Ok (content, rest).
Proof.
  intros Hlen. unfold read_block, block. rewrite <-app_assoc.
  rewrite read_u32_app by done. cbn [mbind result_bind].
  rewrite Nat2N.id. apply take_exact_app.
Qed.

Lemma read_players_app (fields : list (list byte)) (rest : list byte) :
  Forall (λ f, length f = player_size sch) fields →
  read_players sch (length fields) (concat fields ++ rest)
  = Ok (read_player sch <$> fields, rest).
Proof.
  induction 1 as [|f fields Hf _ IH]; [reflexivity|].
  cbn [length concat read_players fmap list_fmap]. rewrite <-app_assoc.
  rewrite (take_exact_app' _ f) by done. cbn [mbind result_bind].
  by rewrite IH.
Qed.

Lemma read_frames_app players (fields : list (N * list byte)) (fuel : nat) :
  Forall (λ r, (r.1 < 2 ^ 32)%N ∧ length r.2 = sample_size sch) fields →
  (length fields ≤ fuel)%nat →
  read_frames sch players fuel (concat (frame_record <$> fields))
  = Ok (kept_frames sch players fields, unknown_frames sch players fields).
Proof.
  intros Hfields. revert fuel.
  induction Hfields as [|[tag field] fields [Htag Hlen] _ IH]; intros fuel Hfuel.
  { by destruct fuel. }
  cbn [fst snd] in Htag, Hlen.
  destruct fuel as [|fuel]; [cbn in Hfuel; lia|].
  cbn [fmap list_fmap concat]. unfold frame_record at 1. cbn [fst snd].
  cbn [u32 app read_frames].
  change (byte_of_N tag :: byte_of_N (tag / 256) :: byte_of_N (tag / 256 / 256)
          :: byte_of_N (tag / 256 / 256 / 256)
          :: field ++ concat (frame_record <$> fields))
    with (u32 tag ++ field ++ concat (frame_record <$> fields)).
  rewrite read_u32_app by done. cbn [mbind result_bind].
  rewrite (take_exact_app' _ field) by done. cbn [mbind result_bind].
  rewrite IH by (cbn in Hfuel; lia). cbn [mbind result_bind].
  unfold kept_frames, unknown_frames. cbn [List.filter fst].
  by destruct (known_entity sch players tag).
Qed.

Lemma read_events_app players (fields : list (list byte)) (fuel : nat) :
  (0 < event_size sch)%nat →
  Forall (λ f, length f = event_size sch) fields →
  (length fields ≤ fuel)%nat →
  read_events sch players fuel (concat fields)
  = Ok (kept_events sch players fields, unknown_events sch players fields).
Proof.
  intros Hsize Hfields. revert fuel.
  induction Hfields as [|field fields Hlen _ IH]; intros fuel Hfuel.
  { by destruct fuel. }
  destruct fuel as [|fuel]; [cbn in Hfuel; lia|].
  cbn [concat]. destruct field as [|b field]; [cbn in Hlen; lia|].
  cbn [app read_events].
  change (b :: field ++ concat fields) with ((b :: field) ++ concat fields).
  rewrite (take_exact_app' _ (b :: field)) by done. cbn [mbind result_bind].
  rewrite IH by (cbn in Hfuel; lia). cbn [mbind result_bind].
  unfold kept_events, unknown_events. cbn [fmap list_fmap List.filter].
  by destruct (known_actor players (actor (read_event sch (b :: field)))).
Qed.

Lemma length_concat_frames (fields : list (N * list byte)) :
  (length fields ≤ length (concat (frame_record <$> fields)))%nat.
Proof.
  induction fields as [|r fields IH]; [done|].
  cbn. rewrite length_app. lia.
Qed.

Lemma length_concat_events (fields : list (list byte)) :
  (0 < event_size sch)%nat →
  Forall (λ f, length f = event_size sch) fields →
  (length fields ≤ length (concat fields))%nat.
Proof.
  intros Hsize. induction 1 as [|f fields Hf _ IH]; [done|].
  cbn. rewrite length_app. lia.
Qed.

(** A replay laid out by the reference encoder from a supported
    version, a roster without duplicates and fields of the schema's
    sizes decodes successfully, whatever the tags of its frame records
    and the actors of its events. *)
Lemma decode_assembled (version : N) (meta_block : list byte)
    (player_fields : list (list byte)) (frame_fields : list (N * list byte))
    (event_fields : list (list byte)) :
  let players := read_player sch <$> player_fields in
  supported sch version = true →
  (version < 2 ^ 32)%N →
  (N.of_nat (length meta_block) < 2 ^ 32)%N →
  (N.of_nat (length player_fields) < 2 ^ 32)%N →
  (N.of_nat (length (concat (frame_record <$> frame_fields))) < 2 ^ 32)%N →
  (N.of_nat (length (concat event_fields)) < 2 ^ 32)%N →
  Forall (λ f, length f = player_size sch) player_fields →
  has_duplicate (player_id <$> players) = false →
  Forall (λ r, (r.1 < 2 ^ 32)%N ∧ length r.2 = sample_size sch) frame_fields →
  (0 < event_size sch)%nat →
  Forall (λ f, length f = event_size sch) event_fields →
  decode sch (assemble sch version meta_block player_fields frame_fields event_fields)
  = Ok {| metadata := read_metadata sch version meta_block;
          roster := players;
          frames := kept_frames sch players frame_fields;
          events := kept_events sch players event_fields;
          dropped_frames := unknown_frames sch players frame_fields;
          dropped_events := unknown_events sch players event_fields |}.
Proof.
  intros players Hsupported Hversion Hmeta Hcount Hframes Hevents Hplayers Hdup
    Hfields Hsize Hevfields.
  unfold decode, assemble, read_header.
  rewrite take_exact_app. cbn [mbind result_bind].
  unfold bytes_eqb. rewrite bool_decide_eq_true_2 by done. cbn [negb].
  rewrite read_u32_app by done. cbn [mbind result_bind]. rewrite Hsupported.
  cbn [mbind result_bind].
  rewrite read_block_app by done. cbn [mbind result_bind].
  unfold read_roster. rewrite read_u32_app by done. cbn [mbind result_bind].
  rewrite Nat2N.id, read_players_app by done. cbn [mbind result_bind].
  fold players. rewrite Hdup. cbn [mbind result_bind].
  rewrite read_block_app by done. cbn [mbind result_bind].
  rewrite read_frames_app by (done || apply length_concat_frames).
  cbn [mbind result_bind].
  rewrite <-(app_nil_r (block (concat event_fields))).
  rewrite read_block_app by done. cbn [mbind result_bind].
  rewrite read_events_app by (done || by apply length_concat_events).
  reflexivity.
Qed.

(** The decoder keeps, for an entity it knows, all the records of that
    entity, in stream order. *)
Lemma kept_frames_complete players (fields : list (N * list byte)) (tag : N) :
  known_entity sch players tag = true →
  Normalizer.samples_of tag (kept_frames sch players fields)
  = read_sample sch <$> (snd <$> List.filter (λ r, N.eqb r.1 tag) fields).
Proof.
  intros Hknown. unfold Normalizer.samples_of, kept_frames.
  induction fields as [|[tag' field] fields IH]; [done|].
  cbn [List.filter fst snd]. destruct (N.eqb_spec tag' tag) as [->|Hne].
  - rewrite Hknown. cbn [fmap list_fmap List.filter fst snd].
    rewrite N.eqb_refl. cbn [fmap list_fmap snd]. by rewrite <-IH.
  - destruct (known_entity sch players tag'); [|done].
    cbn [fmap list_fmap List.filter fst].
    by destruct (N.eqb_spec tag' tag).
Qed.

End WithSchema.

End DecoderFacts.

Module NormalizerFacts.
Import Telemetry Normalizer.

#[local] Open Scope Q_scope.

Section WithConfig.
Variable cfg : Config.

(** ** Sorting and duplicate rejection *)

Lemma length_insert_sample x sorted :
  length (insert_sample x sorted) = S (length sorted).
Proof.
  induction sorted as [|y rest IH]; [done|]. cbn.
  destruct (Qle_bool (timestamp x) (timestamp y)); cbn; by rewrite ?IH.
Qed.

Lemma length_sort_samples raw : length (sort_samples raw) = length raw.
Proof.
  induction raw as [|x raw IH]; [done|].
  change (sort_samples (x :: raw)) with (insert_sample x (sort_samples raw)).
  by rewrite length_insert_sample, IH.
Qed.

Lemma length_reject_duplicates last_kept sorted :
  (length (reject_duplicates last_kept sorted) ≤ length sorted)%nat.
Proof.
  revert last_kept. induction sorted as [|x rest IH]; intros last_kept; [done|].
  cbn. destruct last_kept as [t|].
  - destruct (Qeq_bool t (timestamp x)); cbn.
    + specialize (IH (Some t)). lia.
    + specialize (IH (Some (timestamp x))). lia.
  - cbn. specialize (IH (Some (timestamp x))). lia.
Qed.

(** ** Resampling *)

Lemma resample_at_timestamp real t s :
  resample_at cfg real t = Some s → timestamp s = t.
Proof.
  unfold resample_at. destruct (nearest real t) as [[a b]|]; [|done].
  destruct (Qeq_bool t (timestamp a)); [by intros [= <-]|].
  destruct (Qeq_bool t (timestamp b)); [by intros [= <-]|].
  destruct (is_gap cfg a b); [done|]. by intros [= <-].
Qed.

Lemma concat_nonempty_segments (segs : list (list FrameSample)) :
  concat (List.filter (λ seg, negb (Nat.eqb (length seg) 0)) segs) = concat segs.
Proof.
  induction segs as [|seg segs IH]; [done|].
  cbn. destruct seg as [|x seg]; cbn; by rewrite IH.
Qed.

Lemma concat_add_to_segments s acc :
  concat (add_to_segments s acc) = from_option (λ x, [x]) [] s ++ concat acc.
Proof.
  destruct s as [x|]; cbn.
  - by destruct acc.
  - by destruct acc as [|[|y seg] rest].
Qed.

(** The samples of the segments are the ticks that have a sample, in
    tick order. *)
Lemma concat_split_segments ticks :
  concat (split_segments ticks) = omap id ticks.
Proof.
  unfold split_segments. rewrite concat_nonempty_segments.
  induction ticks as [|s ticks IH]; [done|].
  cbn [foldr]. rewrite concat_add_to_segments, IH. by destruct s.
Qed.

Lemma tick_time_lt first j k :
  0 < tick_rate_hz cfg → (j < k)%nat →
  tick_time cfg first j < tick_time cfg first k.
Proof.
  intros Hrate Hjk. unfold tick_time.
  assert (inject_Z (Z.of_nat j) < inject_Z (Z.of_nat k)) as Hlt.
  { rewrite <-Zlt_Qlt. lia. }
  assert (inject_Z (Z.of_nat j) / tick_rate_hz cfg
          < inject_Z (Z.of_nat k) / tick_rate_hz cfg) as Hdiv.
  { unfold Qdiv. apply Qmult_lt_compat_r; [by apply Qinv_lt_0_compat|done]. }
  lra.
Qed.

Lemma tick_times_from_increasing first start n :
  0 < tick_rate_hz cfg →
  StronglySorted Qlt (tick_time cfg first <$> seq start n).
Proof.
  intros Hrate. revert start.
  induction n as [|n IH]; intros start; cbn; constructor; [apply IH|].
  apply Forall_fmap, Forall_forall. intros k [Hk _]%elem_of_seq. cbn.
  apply tick_time_lt; [done|lia].
Qed.

Lemma Forall_resampled (P : Q → Prop) real ticks :
  Forall P ticks →
  Forall P (timestamp <$> omap id (resample_at cfg real <$> ticks)).
Proof.
  induction 1 as [|t ticks Ht _ IH]; [constructor|].
  cbn. destruct (resample_at cfg real t) as [s|] eqn:Hs; cbn; [|done].
  constructor; [|done]. by rewrite (resample_at_timestamp _ _ _ Hs).
Qed.

Lemma resampled_increasing real ticks :
  StronglySorted Qlt ticks →
  StronglySorted Qlt (timestamp <$> omap id (resample_at cfg real <$> ticks)).
Proof.
  induction 1 as [|t ticks _ IH Hall]; [constructor|].
  cbn. destruct (resample_at cfg real t) as [s|] eqn:Hs; cbn; [|done].
  constructor; [done|].
  rewrite (resample_at_timestamp _ _ _ Hs). by apply Forall_resampled.
Qed.

Lemma normalize_entity_increasing raw :
  0 < tick_rate_hz cfg →
  strictly_increasing (samples (normalize_entity cfg raw).1).
Proof.
  intros Hrate. unfold normalize_entity, strictly_increasing.
  destruct (reject_duplicates None (sort_samples raw)) as [|first [|second rest]];
    cbn [fst samples segments concat fmap list_fmap]; try constructor.
  rewrite concat_split_segments.
  apply resampled_increasing, tick_times_from_increasing, Hrate.
Qed.

Lemma increasing_lookup (l : list Q) i j x y :
  StronglySorted Qlt l → (i < j)%nat →
  l !! i = Some x → l !! j = Some y → x < y.
Proof.
  intros Hsorted. revert i j.
  induction Hsorted as [|z l _ IH Hall]; intros i j Hij Hi Hj; [done|].
  destruct j as [|j]; [lia|]. cbn in Hj.
  destruct i as [|i]; cbn in Hi.
  - injection Hi as <-. rewrite Forall_forall in Hall.
    apply Hall. by eapply list_elem_of_lookup_2.
  - eapply (IH i j); [lia|done..].
Qed.

(** ** Entities with too few or with enough samples *)


Lemma insert_sample_elem x y sorted :
  y ∈ insert_sample x sorted ↔ y = x ∨ y ∈ sorted.
Proof.
  induction sorted as [|z rest IH]; cbn.
  - rewrite list_elem_of_singleton, elem_of_nil. tauto.
  - destruct (Qle_bool (timestamp x) (timestamp z));
      rewrite !elem_of_cons, ?IH; tauto.
Qed.

Lemma sort_samples_elem raw y : y ∈ sort_samples raw ↔ y ∈ raw.
Proof.
  induction raw as [|x raw IH]; [done|].
  change (sort_samples (x :: raw)) with (insert_sample x (sort_samples raw)).
  rewrite insert_sample_elem, elem_of_cons, IH. tauto.
Qed.

Lemma insert_sample_sorted x sorted :
  StronglySorted not_later sorted →
  StronglySorted not_later (insert_sample x sorted).
Proof.
  induction 1 as [|z rest Hrest IH Hall]; cbn; [repeat constructor|].
  destruct (Qle_bool (timestamp x) (timestamp z)) eqn:Hle.
  - apply Qle_bool_iff in Hle. constructor; [by constructor|].
    constructor; [done|]. eapply Forall_impl; [exact Hall|].
    unfold not_later. intros w Hw. lra.
  - assert (timestamp z <= timestamp x) as Hzx.
    { destruct (Qlt_le_dec (timestamp z) (timestamp x)) as [Hlt|Hge];
        [lra|]. apply Qle_bool_iff in Hge. congruence. }
    constructor; [done|]. apply Forall_forall.
    intros w [->|Hw]%insert_sample_elem; [done|].
    rewrite Forall_forall in Hall. by apply Hall.
Qed.

Lemma sort_samples_sorted raw : StronglySorted not_later (sort_samples raw).
Proof.
  induction raw as [|x raw IH]; [constructor|].
  change (sort_samples (x :: raw)) with (insert_sample x (sort_samples raw)).
  by apply insert_sample_sorted.
Qed.

Lemma Forall_reject_duplicates (P : FrameSample → Prop) last_kept sorted :
  Forall P sorted → Forall P (reject_duplicates last_kept sorted).
Proof.
  intros Hall. revert last_kept.
  induction Hall as [|x rest Hx _ IH]; intros last_kept; [constructor|].
  cbn. destruct last_kept as [t|]; [destruct (Qeq_bool t (timestamp x))|];
    try constructor; auto.
Qed.

Lemma reject_duplicates_sorted last_kept sorted :
  StronglySorted not_later sorted →
  StronglySorted not_later (reject_duplicates last_kept sorted).
Proof.
  intros Hsorted. revert last_kept.
  induction Hsorted as [|x rest _ IH Hall]; intros last_kept; [constructor|].
  cbn. destruct last_kept as [t|]; [destruct (Qeq_bool t (timestamp x))|];
    try constructor; auto using Forall_reject_duplicates.
Qed.

(** Every timestamp of the sorted samples is still there after the
    duplicates are rejected. *)
Lemma reject_duplicates_keeps last_kept sorted x :
  x ∈ sorted →
  (∃ y, y ∈ reject_duplicates last_kept sorted ∧ timestamp y == timestamp x)
  ∨ (∃ t, last_kept = Some t ∧ t == timestamp x).
Proof.
  revert last_kept. induction sorted as [|z rest IH]; intros last_kept.
  { intros []%elem_of_nil. }
  intros [->|Hx]%elem_of_cons; cbn.
  - destruct last_kept as [t|].
    + destruct (Qeq_bool t (timestamp z)) eqn:Heq.
      * right. exists t. split; [done|]. by apply Qeq_bool_iff.
      * left. exists z. split; [left|reflexivity].
    + left. exists z. split; [left|reflexivity].
  - destruct last_kept as [t|].
    + destruct (Qeq_bool t (timestamp z)) eqn:Heq.
      * apply (IH (Some t)), Hx.
      * destruct (IH (Some (timestamp z)) Hx) as [(y & Hy & Hyx)|(t' & [= <-] & Ht')].
        -- left. exists y. split; [by right|done].
        -- left. exists z. split; [left|done].
    + destruct (IH (Some (timestamp z)) Hx) as [(y & Hy & Hyx)|(t' & [= <-] & Ht')].
      * left. exists y. split; [by right|done].
      * left. exists z. split; [left|done].
Qed.

Lemma first_tick_present first second rest :
  0 < tick_rate_hz cfg →
  timestamp first <= timestamp second →
  is_Some (resample_at cfg (first :: second :: rest)
             (tick_time cfg (timestamp first) 0)).
Proof.
  intros Hrate Hle.
  assert (tick_time cfg (timestamp first) 0 == timestamp first) as Htick.
  { unfold tick_time, Qdiv. cbn [Z.of_nat]. rewrite Qmult_0_l. lra. }
  unfold resample_at. cbn [nearest].
  assert (Qle_bool (tick_time cfg (timestamp first) 0) (timestamp second) = true)
    as -> by (apply Qle_bool_iff; lra).
  assert (Qeq_bool (tick_time cfg (timestamp first) 0) (timestamp first) = true)
    as -> by by apply Qeq_bool_iff.
  by eexists.
Qed.

(** An entity with samples at two different times has a series that is
    not empty. *)
Lemma normalize_entity_nonempty raw a b :
  0 < tick_rate_hz cfg →
  a ∈ raw → b ∈ raw → ¬ timestamp a == timestamp b →
  samples (normalize_entity cfg raw).1 ≠ [].
Proof.
  intros Hrate Ha Hb Hab. unfold normalize_entity.
  pose proof (reject_duplicates_sorted None _ (sort_samples_sorted raw)) as Hsorted.
  destruct (reject_duplicates_keeps None (sort_samples raw) a)
    as [(ya & Hya & Hta)|(? & [=] & _)]; [by apply sort_samples_elem|].
  destruct (reject_duplicates_keeps None (sort_samples raw) b)
    as [(yb & Hyb & Htb)|(? & [=] & _)]; [by apply sort_samples_elem|].
  destruct (reject_duplicates None (sort_samples raw))
    as [|first [|second rest]].
  - by apply elem_of_nil in Hya.
  - apply list_elem_of_singleton in Hya, Hyb. subst. lra.
  - cbn [fst]. unfold samples. cbn [segments].
    rewrite concat_split_segments. unfold tick_times. cbn [seq fmap list_fmap omap list_omap].
    destruct (first_tick_present first second rest Hrate) as [s Hs].
    { apply StronglySorted_cons in Hsorted as [Hall _].
      apply Forall_cons in Hall as [Hle _]. exact Hle. }
    rewrite Hs. done.
Qed.

End WithConfig.

(** C4. For every entity the samples of the normalized series have
    strictly increasing timestamps, and so no two of them share a
    timestamp. *)
Theorem normalized_series_strictly_increasing (cfg : Config) (entities : list N)
    (frames : list (N * FrameSample)) :
  0 < tick_rate_hz cfg →
  Forall (λ r,
      strictly_increasing (samples r.2.1)
      ∧ ∀ i j x y, i ≠ j →
          samples r.2.1 !! i = Some x → samples r.2.1 !! j = Some y →
          ¬ timestamp x == timestamp y)
    (normalize cfg entities frames).
Proof.
  intros Hrate. unfold normalize. apply Forall_fmap, Forall_forall.
  intros tag _. unfold compose. cbn [snd fst].
  pose proof (normalize_entity_increasing cfg (samples_of tag frames) Hrate)
    as Hsorted.
  split; [done|]. intros i j x y Hij Hi Hj Heq.
  unfold strictly_increasing in Hsorted.
  assert ((timestamp <$> samples (normalize_entity cfg (samples_of tag frames)).1)
            !! i = Some (timestamp x)) as Hi' by by rewrite list_lookup_fmap, Hi.
  assert ((timestamp <$> samples (normalize_entity cfg (samples_of tag frames)).1)
            !! j = Some (timestamp y)) as Hj' by by rewrite list_lookup_fmap, Hj.
  destruct (Nat.lt_total i j) as [Hlt|[->|Hlt]]; [|done|].
  - pose proof (increasing_lookup _ _ _ _ _ Hsorted Hlt Hi' Hj'). lra.
  - pose proof (increasing_lookup _ _ _ _ _ Hsorted Hlt Hj' Hi'). lra.
Qed.

Lemma normalized_series_strictly_increasing_witness :
  0 < tick_rate_hz Scenario.demo_config
  ∧ Forall (λ r, strictly_increasing (samples r.2.1))
      (normalize Scenario.demo_config [1%N; 2%N] Scenario.short_frames).
Proof.
  split; [reflexivity|].
  eapply Forall_impl.
  - apply (normalized_series_strictly_increasing Scenario.demo_config
             [1%N; 2%N] Scenario.short_frames).
    reflexivity.
  - intros r [Hsorted _]. exact Hsorted.
Defined.

End NormalizerFacts.

Module EngineFacts.
Import Telemetry Normalizer Engine.

#[local] Open Scope Q_scope.

Section WithPolicy.
Variable pol : Policy.
Hypothesis pol_valid : valid pol.

(** ** Numbers on the scale *)

Lemma clamp_bounds q : 0 <= clamp q <= 100.
Proof.
  unfold clamp.
  destruct (Qle_bool q 0) eqn:Hlow; [lra|].
  destruct (Qle_bool 100 q) eqn:Hhigh; [lra|].
  split.
  - destruct (Qlt_le_dec 0 q) as [Hlt|Hge]; [lra|].
    apply Qle_bool_iff in Hge. congruence.
  - destruct (Qlt_le_dec q 100) as [Hlt|Hge]; [lra|].
    apply Qle_bool_iff in Hge. congruence.
Qed.

Lemma ndiv_nonzero a b : ¬ b == 0 → ndiv a b = Num (a / b).
Proof.
  intros Hb. unfold ndiv. destruct (Qeq_bool b 0) eqn:Heq; [|done].
  by apply Qeq_bool_iff in Heq.
Qed.

Lemma scale_on_scale c m : num_on_scale (scale pol c m).
Proof.
  destruct (pol_valid c) as [Hbounds _].
  unfold scale. rewrite ndiv_nonzero by lra.
  eexists. split; [reflexivity|apply clamp_bounds].
Qed.

Lemma length_positive {A} (l : list A) :
  l ≠ [] → 0 < inject_Z (Z.of_nat (length l)).
Proof.
  destruct l; [done|]. intros _. change 0 with (inject_Z 0).
  rewrite <-Zlt_Qlt. cbn [length]. lia.
Qed.

Lemma nsum_on_scale (l : list num) :
  Forall num_on_scale l →
  ∃ s, nsum l = Num s ∧ 0 <= s <= 100 * inject_Z (Z.of_nat (length l)).
Proof.
  induction 1 as [|v l (q & -> & Hq) _ (s & Hs & Hbound)].
  - exists 0. split; [done|]. cbn [length].
    change (inject_Z (Z.of_nat 0)) with 0. lra.
  - exists (q + s). cbn [nsum foldr length]. fold (nsum l). rewrite Hs.
    split; [done|].
    rewrite Nat2Z.inj_succ, <-Z.add_1_r, inject_Z_plus.
    change (inject_Z 1) with 1. lra.
Qed.

Lemma nmean_on_scale (l : list num) :
  l ≠ [] → Forall num_on_scale l → num_on_scale (nmean l).
Proof.
  intros Hne Hall. destruct (nsum_on_scale l Hall) as (s & Hs & Hbound).
  pose proof (length_positive l Hne) as Hlen.
  unfold nmean. rewrite Hs, ndiv_nonzero by lra.
  eexists. split; [reflexivity|]. split.
  - apply Qle_shift_div_l; [done|]. lra.
  - apply Qle_shift_div_r; [done|]. lra.
Qed.

Lemma weighted_sum_on_scale (l : list (Q * num)) :
  Forall (λ wv, 0 < wv.1 ∧ num_on_scale wv.2) l →
  ∃ s, nsum ((λ wv, nscale wv.1 wv.2) <$> l) = Num s
       ∧ 0 <= s <= 100 * sumQ (fst <$> l) ∧ 0 <= sumQ (fst <$> l).
Proof.
  induction 1 as [|[w v] l [Hw (q & Hv & Hq)] _ (s & Hs & Hbound & Hsum)].
  - exists 0. split; [done|]. cbn [fmap list_fmap sumQ foldr]. lra.
  - cbn [fst snd] in Hw, Hv. subst v. exists (w * q + s).
    cbn [fmap list_fmap nsum foldr fst snd nscale sumQ].
    fold (nsum ((λ wv, nscale wv.1 wv.2) <$> l)). fold (sumQ (fst <$> l)).
    rewrite Hs. split; [done|]. nra.
Qed.

Lemma weighted_mean_on_scale (l : list (Q * num)) :
  l ≠ [] → Forall (λ wv, 0 < wv.1 ∧ num_on_scale wv.2) l →
  num_on_scale (weighted_mean l).
Proof.
  intros Hne Hall.
  destruct (weighted_sum_on_scale l Hall) as (s & Hs & Hbound & Hsum).
  assert (0 < sumQ (fst <$> l)) as Hpos.
  { destruct Hall as [|[w v] l [Hw _] Hall]; [done|].
    destruct (weighted_sum_on_scale l Hall) as (_ & _ & _ & Hrest).
    cbn [fmap list_fmap sumQ foldr fst] in *. fold (sumQ (fst <$> l)). lra. }
  unfold weighted_mean. rewrite Hs, ndiv_nonzero by lra.
  eexists. split; [reflexivity|]. split.
  - apply Qle_shift_div_l; [done|]. lra.
  - apply Qle_shift_div_r; [done|]. lra.
Qed.

(** ** Scores *)

Lemma player_score_sound c own ball_series own_events meta :
  sound (player_score pol c own ball_series own_events meta).
Proof.
  unfold player_score. destruct (samples own); [by left|].
  right. eexists. split; [reflexivity|apply scale_on_scale].
Qed.

Lemma player_score_in_scale c own ball_series own_events meta :
  samples own ≠ [] →
  in_scale (player_score pol c own ball_series own_events meta).
Proof.
  unfold player_score. destruct (samples own); [done|]. intros _.
  eexists. split; [reflexivity|apply scale_on_scale].
Qed.


Lemma applicable_on_scale (l : list Score) :
  Forall sound l → Forall num_on_scale (applicable l).
Proof.
  induction 1 as [|s l [->|(v & -> & Hv)] _ IH]; cbn; [constructor|done|].
  by constructor.
Qed.

Lemma applicable_nonempty (l : list Score) s :
  s ∈ l → in_scale s → applicable l ≠ [].
Proof.
  intros Hs (v & -> & _). induction l as [|s' l IH]; [by apply elem_of_nil in Hs|].
  apply elem_of_cons in Hs as [<-|Hs]; cbn; [done|].
  destruct s'; cbn; [by apply IH|done].
Qed.

Lemma mean_score_sound (l : list Score) :
  Forall sound l → sound (mean_score l).
Proof.
  intros Hall%applicable_on_scale. unfold mean_score.
  destruct (applicable l) as [|v vs] eqn:Happ; [by left|].
  right. eexists. split; [reflexivity|]. by apply nmean_on_scale.
Qed.

Lemma mean_score_in_scale (l : list Score) s :
  Forall sound l → s ∈ l → in_scale s → in_scale (mean_score l).
Proof.
  intros Hall Hs Hscale.
  pose proof (applicable_nonempty l s Hs Hscale) as Hne.
  apply applicable_on_scale in Hall. unfold mean_score.
  destruct (applicable l) as [|v vs]; [done|].
  eexists. split; [reflexivity|]. by apply nmean_on_scale.
Qed.

Lemma weighted_scores_on_scale (scores : list (Category * Score)) :
  Forall (λ cs, sound cs.2) scores →
  Forall (λ wv, 0 < wv.1 ∧ num_on_scale wv.2) (weighted_scores pol scores).
Proof.
  induction 1 as [|[c s] l Hs _ IH]; cbn; [constructor|].
  cbn [snd] in Hs. destruct Hs as [->|(v & -> & Hv)]; cbn; [done|].
  constructor; [|done]. cbn. split; [apply pol_valid|done].
Qed.

Lemma weighted_scores_nonempty (scores : list (Category * Score)) cs :
  cs ∈ scores → in_scale cs.2 → weighted_scores pol scores ≠ [].
Proof.
  intros Hcs (v & Hv & _).
  induction scores as [|cs' l IH]; [by apply elem_of_nil in Hcs|].
  apply elem_of_cons in Hcs as [<-|Hcs]; cbn.
  - by rewrite Hv.
  - destruct (cs'.2); cbn; [by apply IH|done].
Qed.


Lemma overall_in_scale (res : AnalysisResult) cb :
  Forall (λ cb, sound (category_score cb.2)) (bundles res) →
  cb ∈ bundles res → in_scale (category_score cb.2) →
  in_scale (overall_score (overall pol res)).
Proof.
  intros Hall Hcb Hscale. unfold overall. cbn [overall_score].
  assert (Forall (λ cs : Category * Score, sound cs.2)
            ((λ cb, (cb.1, category_score cb.2)) <$> bundles res)) as Hscores.
  { apply Forall_fmap. eapply Forall_impl; [exact Hall|]. by intros []. }
  pose proof (weighted_scores_nonempty
                ((λ cb, (cb.1, category_score cb.2)) <$> bundles res)
                (cb.1, category_score cb.2)) as Hne.
  apply weighted_scores_on_scale in Hscores.
  destruct (weighted_scores pol _) as [|wv rest].
  - exfalso. apply Hne; [|done..].
    apply list_elem_of_fmap. by exists cb.
  - eexists. split; [reflexivity|]. by apply weighted_mean_on_scale.
Qed.

(** ** The result of an analysis *)

Lemma per_player_sound (inp : Inputs) c :
  Forall (λ ps, sound ps.2) (per_player (bundle_of pol inp c)).
Proof.
  unfold bundle_of. cbn [per_player]. apply Forall_fmap, Forall_forall.
  intros p _. apply player_score_sound.
Qed.

Lemma category_score_sound (inp : Inputs) c :
  sound (category_score (bundle_of pol inp c)).
Proof.
  unfold bundle_of. cbn [category_score]. apply mean_score_sound.
  apply Forall_fmap. apply (per_player_sound inp c).
Qed.

Lemma bundles_sound (inp : Inputs) :
  Forall (λ cb, sound (category_score cb.2)) (bundles (analyze pol inp)).
Proof.
  unfold analyze. cbn [bundles]. apply Forall_fmap, Forall_forall.
  intros c _. apply category_score_sound.
Qed.


Lemma find_tagged {A} (f : N → A) (p : N) (l : list N) :
  p ∈ l → List.find (λ r, N.eqb r.1 p) ((λ x, (x, f x)) <$> l) = Some (p, f p).
Proof.
  induction l as [|x l IH]; [by intros ?%elem_of_nil|].
  intros Hp. cbn. destruct (N.eqb_spec x p) as [->|Hne]; [done|].
  apply elem_of_cons in Hp as [->|Hp]; [done|]. by apply IH.
Qed.

Lemma find_bundle (inp : Inputs) c :
  List.find (λ cb, category_eqb cb.1 c) (bundles (analyze pol inp))
  = Some (c, bundle_of pol inp c).
Proof. by destruct c. Qed.

Lemma sub_score_analyze (inp : Inputs) c p :
  p ∈ players inp →
  sub_score (analyze pol inp) c p
  = Some (player_score pol c (series_of p (series inp))
            (series_of (ball inp) (series inp))
            (attributed p (game_events inp)) (game_metadata inp)).
Proof.
  intros Hp. unfold sub_score. rewrite find_bundle. cbn [mbind option_bind].
  unfold bundle_of. cbn [per_player].
  by rewrite (find_tagged _ p (players inp) Hp).
Qed.

End WithPolicy.

End EngineFacts.

Module PipelineFacts.
Import Telemetry Decoder Normalizer Engine Pipeline.
Import DecoderFacts NormalizerFacts EngineFacts.

#[local] Open Scope Q_scope.

Section WithSetup.
Variable sch : Schema.
Variable cfg : Config.
Variable pol : Policy.
Hypothesis pol_valid : valid pol.

Lemma series_of_engine_inputs (d : DecodedReplay) (p : N) :
  p ∈ ball_tag sch :: (player_id <$> roster d) →
  series_of p (series (engine_inputs sch cfg d))
  = (normalize_entity cfg (samples_of p (frames d))).1.
Proof.
  intros Hp. unfold engine_inputs, normalize, series_of. cbn [series].
  rewrite <-list_fmap_compose. unfold compose. cbn [fst snd].
  by rewrite (find_tagged (λ tag, (normalize_entity cfg (samples_of tag (frames d))).1)
                p _ Hp).
Qed.

Lemma sub_score_report (d : DecodedReplay) c p :
  p ∈ player_id <$> roster d →
  sub_score (report_analysis (report_of sch cfg pol d)) c p
  = Some (player_score pol c
            (normalize_entity cfg (samples_of p (frames d))).1
            (series_of (ball_tag sch) (series (engine_inputs sch cfg d)))
            (attributed p (events d)) (metadata d)).
Proof.
  intros Hp. unfold report_of. cbn [report_analysis].
  rewrite sub_score_analyze by done.
  rewrite series_of_engine_inputs by by right.
  reflexivity.
Qed.

(** A replay cut inside its header is a fatal [Truncated]: the pipeline
    ends there, with no report. *)
Lemma truncated_header_is_fatal (rest : list byte) (k : nat) :
  (k < length (magic sch) + 4)%nat →
  run_pipeline sch cfg pol (take k (magic sch ++ rest)) = Err Truncated.
Proof.
  intros Hk. unfold run_pipeline, decode, read_header.
  destruct (decide (k < length (magic sch))%nat) as [Hshort|Hlong].
  - unfold take_exact.
    assert (length (take k (magic sch ++ rest)) < length (magic sch))%nat
      as Hlen by (rewrite length_take; lia).
    apply Nat.ltb_lt in Hlen. by rewrite Hlen.
  - rewrite take_app_ge by lia. rewrite take_exact_app.
    cbn [mbind result_bind]. unfold bytes_eqb.
    rewrite bool_decide_eq_true_2 by done. cbn [negb].
    unfold read_u32, take_exact.
    assert (length (take (k - length (magic sch)) rest) < 4)%nat
      as Hlen by (rewrite length_take; lia).
    apply Nat.ltb_lt in Hlen. by rewrite Hlen.
Qed.

(** The decoder keeps no record of an entity it does not know. *)
Lemma kept_frames_skipped players (fields : list (N * list byte)) (tag : N) :
  known_entity sch players tag = false →
  samples_of tag (kept_frames sch players fields) = [].
Proof.
  intros Hunknown. unfold samples_of, kept_frames.
  induction fields as [|[tag' field] fields IH]; [done|].
  cbn [List.filter fst]. destruct (known_entity sch players tag') eqn:Hk; [|done].
  cbn [fmap list_fmap List.filter fst snd].
  destruct (N.eqb_spec tag' tag) as [->|]; [congruence|done].
Qed.

(** C6. A replay laid out by the reference encoder from a supported
    version, a roster without duplicates and fields of the schema's
    sizes decodes successfully whatever the tags of its frame records,
    and the pipeline returns a report. The decoder keeps the records of
    the ball and of the players, in stream order, and leaves out the
    others: the dropped counter is exactly their number, and kept and
    dropped records together are all the records. The report returned
    carries that count and the roster; its series are, for the ball and
    for every player and in that order, the normalized series of all
    the records of the entity; every player has, in every category, the
    sub-score computed from the player's series, the ball's series and
    the player's events; and the overall score is the one of that
    analysis. *)
Theorem decode_skips_unknown_entities (version : N) (meta_block : list byte)
    (player_fields : list (list byte)) (frame_fields : list (N * list byte))
    (event_fields : list (list byte)) :
  let players := read_player sch <$> player_fields in
  let known := ball_tag sch :: (player_id <$> players) in
  let raw := assemble sch version meta_block player_fields frame_fields event_fields in
  let records := λ tag,
    read_sample sch <$> (snd <$> List.filter (λ r, N.eqb r.1 tag) frame_fields) in
  let skipped :=
    List.filter (λ r, negb (known_entity sch players r.1)) frame_fields in
  supported sch version = true →
  (version < 2 ^ 32)%N →
  (N.of_nat (length meta_block) < 2 ^ 32)%N →
  (N.of_nat (length player_fields) < 2 ^ 32)%N →
  (N.of_nat (length (concat (frame_record <$> frame_fields))) < 2 ^ 32)%N →
  (N.of_nat (length (concat event_fields)) < 2 ^ 32)%N →
  Forall (λ f, length f = player_size sch) player_fields →
  has_duplicate (player_id <$> players) = false →
  Forall (λ r, (r.1 < 2 ^ 32)%N ∧ length r.2 = sample_size sch) frame_fields →
  (0 < event_size sch)%nat →
  Forall (λ f, length f = event_size sch) event_fields →
  ∃ d rep, decode sch raw = Ok d
    ∧ run_pipeline sch cfg pol raw = Ok rep
    ∧ roster d = players
    ∧ dropped_frames d = length skipped
    ∧ (length (frames d) + dropped_frames d = length frame_fields)%nat
    ∧ frames d
      = (λ r, (r.1, read_sample sch r.2))
          <$> List.filter (λ r, known_entity sch players r.1) frame_fields
    ∧ (∀ tag, tag ∈ known → samples_of tag (frames d) = records tag)
    ∧ (∀ tag, tag ∉ known → samples_of tag (frames d) = [])
    ∧ lost_frames rep = length skipped
    ∧ report_roster rep = players
    ∧ report_metadata rep = metadata d
    ∧ report_events rep = events d
    ∧ report_series rep = (λ tag, (tag, normalize_entity cfg (records tag))) <$> known
    ∧ (∀ c p, p ∈ player_id <$> players →
         sub_score (report_analysis rep) c p
         = Some (player_score pol c
                   (normalize_entity cfg (records p)).1
                   (normalize_entity cfg (records (ball_tag sch))).1
                   (attributed p (events d)) (metadata d)))
    ∧ report_score rep = overall pol (report_analysis rep).
Proof.
  intros players known raw records skipped Hsupported Hversion Hmeta Hcount
    Hframes Hevents Hplayers Hdup Hfields Hsize Hevfields.
  pose proof (decode_assembled sch version meta_block player_fields frame_fields
                event_fields Hsupported Hversion Hmeta Hcount Hframes Hevents
                Hplayers Hdup Hfields Hsize Hevfields) as Hdecode.
  fold players raw in Hdecode.
  assert (∀ tag, tag ∈ known ↔ known_entity sch players tag = true) as Hknown.
  { intros tag. unfold known, known_entity.
    rewrite elem_of_cons, orb_true_iff, N.eqb_eq, existsb_exists.
    split; intros [Hball|Hplayer]; [by left| |by left|].
    - right. exists tag. split; [by apply list_elem_of_In|apply N.eqb_refl].
    - right. destruct Hplayer as (id & Hid & ->%N.eqb_eq).
      by apply list_elem_of_In. }
  assert (∀ tag, tag ∈ known →
            samples_of tag (kept_frames sch players frame_fields) = records tag)
    as Hcomplete.
  { intros tag Htag. by apply kept_frames_complete, Hknown. }
  eexists _, (report_of sch cfg pol _). split; [exact Hdecode|].
  split; [unfold run_pipeline; by rewrite Hdecode|].
  cbn [roster frames events metadata dropped_frames].
  split; [reflexivity|]. split; [reflexivity|]. split.
  { unfold kept_frames, unknown_frames. rewrite length_fmap.
    apply List.filter_length. }
  split; [reflexivity|]. split; [exact Hcomplete|]. split.
  { intros tag Htag. apply kept_frames_skipped.
    destruct (known_entity sch players tag) eqn:Hk; [|done].
    by apply Hknown in Hk. }
  split; [reflexivity|]. split; [reflexivity|]. split; [reflexivity|].
  split; [reflexivity|]. split.
  { unfold report_of, normalize. cbn [report_series roster frames].
    apply Forall_fmap_ext, Forall_forall. intros tag Htag.
    by rewrite Hcomplete. }
  split; [|reflexivity].
  intros c p Hp. rewrite sub_score_report by done.
  rewrite series_of_engine_inputs by left.
  cbn [roster frames events metadata].
  rewrite !Hcomplete; [done|left|by right].
Qed.

Lemma covers_nonempty (d : DecodedReplay) (p : N) :
  0 < tick_rate_hz cfg → covers (frames d) 60 p →
  samples (normalize_entity cfg (samples_of p (frames d))).1 ≠ [].
Proof.
  intros Hrate (a & b & Ha & Hb & Hta & Htb).
  apply (normalize_entity_nonempty cfg _ a b); [done..|]. lra.
Qed.


(** C7. On the synthetic match of two players and sixty seconds with
    one goal at thirty seconds, the overall score is a number between 0
    and 100; the goal, and no other, is attributed to the scorer, and
    none to the other player; and each of the two players has, in every
    category, a sub-score that is a number between 0 and 100, not the
    sentinel. *)
Theorem synthetic_match_scores (d : DecodedReplay) (scorer other : N) :
  0 < tick_rate_hz cfg →
  synthetic_match d scorer other →
  let rep := report_of sch cfg pol d in
  in_scale (overall_score (report_score rep))
  ∧ (∃ evs, (scorer, evs) ∈ attributions (report_analysis rep)
            ∧ length (of_type Goal evs) = 1%nat)
  ∧ (∀ p evs, (p, evs) ∈ attributions (report_analysis rep) →
       length (of_type Goal evs) = if N.eqb p scorer then 1%nat else 0%nat)
  ∧ (∀ c p, p = scorer ∨ p = other →
       ∃ s, sub_score (report_analysis rep) c p = Some s ∧ in_scale s).
Proof.
  intros Hrate (Hids & Hne & _ & Hscorer & Hother & goal & Hevents & Htype & _ & Hactor).
  cbn zeta.
  assert (∀ p, p ∈ player_id <$> roster d ↔ p = scorer ∨ p = other) as Hplayers.
  { intros p. rewrite Hids, !elem_of_cons, elem_of_nil. tauto. }
  assert (∀ c p, p = scorer ∨ p = other →
            ∃ s, sub_score (report_analysis (report_of sch cfg pol d)) c p = Some s
                 ∧ in_scale s) as Hsub.
  { intros c p Hp. eexists. split; [apply sub_score_report, Hplayers, Hp|].
    apply player_score_in_scale; [done|].
    apply covers_nonempty; [done|]. by destruct Hp as [->| ->]. }
  assert (∀ p, length (of_type Goal (attributed p (events d)))
               = if N.eqb p scorer then 1%nat else 0%nat) as Hgoals.
  { intros p. rewrite Hevents. unfold attributed, of_type. cbn [List.filter].
    rewrite Hactor, (N.eqb_sym scorer p).
    destruct (N.eqb p scorer); [|done]. cbn [List.filter]. by rewrite Htype. }
  split; [|split; [|split]]; [| | |exact Hsub].
  - apply (overall_in_scale pol pol_valid _
             (Positioning, bundle_of pol (engine_inputs sch cfg d) Positioning)).
    + apply bundles_sound, pol_valid.
    + unfold report_of, analyze. cbn [report_analysis bundles].
      apply list_elem_of_fmap. exists Positioning. split; [done|]. left.
    + cbn [snd]. unfold bundle_of. cbn [category_score].
      eapply mean_score_in_scale.
      * apply Forall_fmap. apply (per_player_sound pol pol_valid).
      * apply list_elem_of_fmap. eexists (scorer, _). split; [reflexivity|].
        apply list_elem_of_fmap. exists scorer.
        split; [reflexivity|]. cbn [players engine_inputs].
        apply Hplayers. by left.
      * apply player_score_in_scale; [done|].
        rewrite series_of_engine_inputs by (right; apply Hplayers; by left).
        by apply covers_nonempty.
  - exists (attributed scorer (events d)). split.
    + unfold report_of, analyze. cbn [report_analysis attributions].
      apply list_elem_of_fmap. exists scorer. split; [done|].
      cbn [players engine_inputs]. apply Hplayers. by left.
    + by rewrite Hgoals, N.eqb_refl.
  - intros p evs Hin. unfold report_of, analyze in Hin.
    cbn [report_analysis attributions] in Hin.
    apply list_elem_of_fmap in Hin as (p' & [= -> ->] & _). apply Hgoals.
Qed.

End WithSetup.

(** *** The theorems on the examples *)

Lemma demo_policy_valid : valid Scenario.demo_policy.
Proof. intros []; split; reflexivity. Qed.

Lemma decode_skips_unknown_entities_witness :
  ∃ d rep, decode Scenario.demo_schema Scenario.tolerant_replay = Ok d
       ∧ run_pipeline Scenario.demo_schema Scenario.demo_config
           Scenario.demo_policy Scenario.tolerant_replay
         = Ok rep
       ∧ dropped_frames d = 3%nat
       ∧ length (frames d) = 183%nat
       ∧ lost_frames rep = 3%nat
       ∧ (λ s, (s.1, length (samples s.2.1), insufficient_samples s.2.2))
           <$> report_series rep
         = [ (0%N, 121%nat, false); (1%N, 121%nat, false); (2%N, 121%nat, false) ].
Proof.
  destruct (decode_skips_unknown_entities Scenario.demo_schema
              Scenario.demo_config Scenario.demo_policy 1
              Scenario.synthetic_metadata Scenario.synthetic_players
              Scenario.tolerant_frames Scenario.synthetic_events)
    as (d & rep & Hdecode & Hrun & _ & Hdropped & Hall & _ & _ & _ & Hlost & _
        & _ & _ & Hseries & _).
  - reflexivity.
  - reflexivity.
  - reflexivity.
  - reflexivity.
  - vm_compute. reflexivity.
  - reflexivity.
  - repeat constructor.
  - reflexivity.
  - apply Forall_forall. intros r Hr. apply list_elem_of_In in Hr.
    vm_compute in Hr.
    repeat (destruct Hr as [<-|Hr]; [split; reflexivity|]). destruct Hr.
  - vm_compute. lia.
  - repeat constructor.
  - exists d, rep. split; [exact Hdecode|]. split; [exact Hrun|].
    assert (dropped_frames d = 3%nat) as Hthree
      by (rewrite Hdropped; vm_compute; reflexivity).
    split; [exact Hthree|]. split.
    { assert (length Scenario.tolerant_frames = 186%nat) as Hlen
        by (vm_compute; reflexivity).
      rewrite Hthree, Hlen in Hall. lia. }
    split; [rewrite Hlost; vm_compute; reflexivity|].
    rewrite Hseries. vm_compute. reflexivity.
Defined.


Lemma synthetic_decoded_is_synthetic_match :
  synthetic_match Scenario.synthetic_decoded 1 2.
Proof.
  split; [|split; [|split; [|split; [|split]]]].
  - vm_compute. reflexivity.
  - discriminate.
  - vm_compute. reflexivity.
  - exists (read_sample Scenario.demo_schema (Scenario.sample_field 0 0 10 0 50)),
           (read_sample Scenario.demo_schema (Scenario.sample_field 60000 60 10 0 50)).
    split; [|split; [|split]].
    + apply (list_elem_of_lookup_2 _ 0%nat). vm_compute. reflexivity.
    + apply (list_elem_of_lookup_2 _ 60%nat). vm_compute. reflexivity.
    + vm_compute. reflexivity.
    + vm_compute. reflexivity.
  - exists (read_sample Scenario.demo_schema (Scenario.sample_field 0 60 20 0 40)),
           (read_sample Scenario.demo_schema (Scenario.sample_field 60000 0 20 0 40)).
    split; [|split; [|split]].
    + apply (list_elem_of_lookup_2 _ 0%nat). vm_compute. reflexivity.
    + apply (list_elem_of_lookup_2 _ 60%nat). vm_compute. reflexivity.
    + vm_compute. reflexivity.
    + vm_compute. reflexivity.
  - eexists. split; [vm_compute; reflexivity|]. split; [reflexivity|].
    split; [vm_compute; reflexivity|reflexivity].
Qed.

Lemma synthetic_match_scores_witness :
  let rep := report_of Scenario.demo_schema Scenario.demo_config
               Scenario.demo_policy Scenario.synthetic_decoded in
  run_pipeline Scenario.demo_schema Scenario.demo_config Scenario.demo_policy
    Scenario.synthetic_replay = Ok rep
  ∧ in_scale (overall_score (report_score rep))
  ∧ ∀ c p, p = 1%N ∨ p = 2%N →
      ∃ s, sub_score (report_analysis rep) c p = Some s ∧ in_scale s.
Proof.
  cbn zeta. split.
  - unfold run_pipeline, Scenario.synthetic_decoded.
    destruct (decode Scenario.demo_schema Scenario.synthetic_replay) eqn:Hd;
      [reflexivity|].
    vm_compute in Hd. discriminate.
  - pose proof (synthetic_match_scores Scenario.demo_schema Scenario.demo_config
                  Scenario.demo_policy demo_policy_valid
                  Scenario.synthetic_decoded 1 2 eq_refl
                  synthetic_decoded_is_synthetic_match) as (Hoverall & _ & _ & Hsub).
    split; [exact Hoverall|exact Hsub].
Defined.

End PipelineFacts.
